(** * CareSense security core: a shallow embedding

    The development follows four modules of the repository:

    - [caresense/crypto/fhe.py]          ([FHEContext]),
    - [caresense/crypto/secure_store.py] ([SecureStore]),
    - [caresense/services/auth_service.py] ([BiometricAuthService]),
    - [caresense/workflows/compliance.py] ([ComplianceTrail]),

    together with the settings of [caresense/config.py] and the request
    schema of [caresense/schemas/triage.py].

    Python code is embedded as functions in a state-and-exception monad over
    an explicit world (file system, randomness, clock, the process-wide
    [_FHE_CONTEXT] object).  The third-party libraries the code calls
    (Pyfhel, cryptography's Fernet and Ed25519, the [json] module, the
    operating system) are interfaces: type classes whose operations are
    left abstract.  What a theorem needs to know about a library is stated
    as a named law and appears as a premise of that theorem.  Floating point
    numbers are idealised as rationals. *)

From Stdlib Require Import QArith Qabs Qround Lqa DecimalString.
From Stdlib Require Import Strings.Byte Strings.String Strings.Ascii.
From stdpp Require Import gmap strings list.

#[local] Set Warnings "-register-all".
#[local] Open Scope string_scope.

(** ** Bytes and text *)

(** Python [bytes] are lists of bytes; Python [str] is a [string] holding
    the UTF-8 encoding of the text, so that [s.encode("utf-8")] is the list
    of its bytes. *)
Abbreviation bytes := (list byte).

Definition encode_utf8 (s : string) : bytes := list_byte_of_string s.
Definition decode_utf8 (b : bytes) : string := string_of_list_byte b.


(** ** Hexadecimal: [bytes.hex()] and [bytes.fromhex()] *)

Module Hex.

Definition digit (n : N) : ascii :=
  match n with
  | 0 => "0" | 1 => "1" | 2 => "2" | 3 => "3" | 4 => "4" | 5 => "5"
  | 6 => "6" | 7 => "7" | 8 => "8" | 9 => "9" | 10 => "a" | 11 => "b"
  | 12 => "c" | 13 => "d" | 14 => "e" | _ => "f"
  end%N%char.

(** Value of a hexadecimal digit, either case; [None] for any other
    character. *)
Definition value (c : ascii) : option N :=
  let n := N_of_ascii c in
  if ((48 <=? n) && (n <=? 57))%N then Some (n - 48)%N
  else if ((97 <=? n) && (n <=? 102))%N then Some (n - 87)%N
  else if ((65 <=? n) && (n <=? 70))%N then Some (n - 55)%N
  else None.

(** ASCII whitespace, which [bytes.fromhex] skips between bytes. *)
Definition is_space (c : ascii) : bool :=
  let n := N_of_ascii c in
  ((n =? 32) || ((9 <=? n) && (n <=? 13)))%N.

(** [b.hex()]: two lowercase digits per byte. *)
Fixpoint hex (b : bytes) : string :=
  match b with
  | [] => EmptyString
  | x :: b' =>
      let n := Byte.to_N x in
      String (digit (n / 16)) (String (digit (n mod 16)) (hex b'))
  end.

(** [bytes.fromhex(s)]: [None] stands for the [ValueError] Python raises on
    a character that is not a hexadecimal digit or on an odd digit count. *)
Fixpoint fromhex (s : string) : option bytes :=
  match s with
  | EmptyString => Some []
  | String c s' =>
      if is_space c then fromhex s'
      else
        match s' with
        | EmptyString => None
        | String d s'' =>
            match value c, value d with
            | Some hi, Some lo =>
                match Byte.of_N (16 * hi + lo), fromhex s'' with
                | Some x, Some b => Some (x :: b)
                | _, _ => None
                end
            | _, _ => None
            end
        end
  end.

End Hex.

(** ** [base64.urlsafe_b64encode] *)

Module Base64.

(** The URL-safe alphabet: [A-Z], [a-z], [0-9], [-], [_]. *)
Definition sextet (n : N) : ascii :=
  ascii_of_N
    (if n <? 26 then n + 65
     else if n <? 52 then n - 26 + 97
     else if n <? 62 then n - 52 + 48
     else if n =? 62 then 45 else 95)%N.

Fixpoint urlsafe_b64encode (b : bytes) : string :=
  match b with
  | [] => EmptyString
  | [x] =>
      let n := (Byte.to_N x * 16)%N in
      String (sextet (n / 64)) (String (sextet (n mod 64)) "==")
  | [x; y] =>
      let n := ((Byte.to_N x * 256 + Byte.to_N y) * 4)%N in
      String (sextet (n / 4096))
        (String (sextet (n / 64 mod 64)) (String (sextet (n mod 64)) "="))
  | x :: y :: z :: b' =>
      let n := ((Byte.to_N x * 256 + Byte.to_N y) * 256 + Byte.to_N z)%N in
      String (sextet (n / 262144))
        (String (sextet (n / 4096 mod 64))
           (String (sextet (n / 64 mod 64))
              (String (sextet (n mod 64)) (urlsafe_b64encode b'))))
  end.

End Base64.

(** ** Paths

    A [pathlib.Path] is the string of the path; [path_div] is the [/]
    operator applied to a relative right operand, the only use the modelled
    code makes of it.  Normalisation of [.] and doubled separators is not
    modelled. *)
Definition path_div (dir name : string) : string := dir ++ "/" ++ name.

(** ** Python values

    The values [json] produces and consumes.  A [dict] with string keys is a
    finite map, so that equality of [pyval] is Python's [==] on dictionaries
    (the order of insertion is not observable). *)
Inductive pyval :=
  | PyNone
  | PyBool (b : bool)
  | PyInt (z : Z)
  | PyFloat (q : Q)
  | PyStr (s : string)
  | PyList (l : list pyval)
  | PyDict (d : gmap string pyval).

(** Truth value of an object, as tested by [if not record]. *)
Definition truthy (v : pyval) : bool :=
  match v with
  | PyNone => false
  | PyBool b => b
  | PyInt z => negb (z =? 0)%Z
  | PyFloat q => negb (Qeq_bool q 0)
  | PyStr s => negb (String.eqb s "")
  | PyList l => match l with [] => false | _ => true end
  | PyDict d => negb (bool_decide (d = ∅))
  end.

(** ** Exceptions and results *)

Inductive exn :=
  (* raised by the libraries and by the language *)
  | InvalidToken            (* cryptography.fernet.InvalidToken *)
  | JSONDecodeError
  | KeyError (k : string)
  | TypeError
  | ValueError
  | ZeroDivisionError
  | FileNotFoundError
  | IndexError
  | RuntimeError            (* failures inside Pyfhel *)
  | ValidationError         (* pydantic, at the request boundary *)
  (* the taxonomy of the specification; nothing below raises these *)
  | ConfigurationError
  | InvalidInput
  | IntegrityFailure
  | KeyUnavailable.

Inductive result (A : Type) :=
  | Ok (a : A)
  | Raise (e : exn).
Arguments Ok {A} a.
Arguments Raise {A} e.

(** [record[key]] for a string key. *)
Definition subscript (v : pyval) (k : string) : result pyval :=
  match v with
  | PyDict d => match d !! k with Some x => Ok x | None => Raise (KeyError k) end
  | _ => Raise TypeError
  end.

(** ** Interfaces of the libraries *)

(** Arguments of [Pyfhel.contextGen]. *)
Record context_params := {
  cg_scheme : string;
  cg_n : N;
  cg_scale : N;
  cg_qi_sizes : list N;
}.

(** Operations that consume randomness take the index of the draw from the
    operating system's source (see [draw] below). *)
Class OsLib := {
  urandom : nat → nat → bytes;            (* os.urandom(n) *)
  utcnow_isoformat : nat → string;        (* datetime.now(timezone.utc).isoformat() *)
}.

Class JsonLib := {
  json_dumps : bool → pyval → string;     (* json.dumps(v, sort_keys=flag) *)
  json_loads : bytes → option pyval;      (* json.loads; None: JSONDecodeError *)
}.

Class FernetLib := {
  Fernet : Type;
  Fernet_new : bytes → option Fernet;     (* Fernet(key); None: ValueError *)
  Fernet_generate_key : nat → bytes;
  Fernet_encrypt : Fernet → nat → bytes → bytes;
  Fernet_decrypt : Fernet → bytes → option bytes;   (* None: InvalidToken *)
}.

Class Ed25519Lib := {
  Ed25519PrivateKey : Type;
  Ed25519PublicKey : Type;
  Ed25519_generate : nat → Ed25519PrivateKey;
  Ed25519_from_private_bytes : bytes → option Ed25519PrivateKey;
  Ed25519_private_bytes : Ed25519PrivateKey → bytes;   (* Raw, Raw, NoEncryption *)
  Ed25519_public_key : Ed25519PrivateKey → Ed25519PublicKey;
  Ed25519_sign : Ed25519PrivateKey → bytes → bytes;
  Ed25519_verify : Ed25519PublicKey → bytes → bytes → bool;  (* signature, data *)
  Ed25519_public_bytes : Ed25519PublicKey → bytes;     (* PEM, SubjectPublicKeyInfo *)
  load_pem_public_key : bytes → option Ed25519PublicKey;
}.

Class PyfhelLib := {
  Pyfhel : Type;
  PyCtxt : Type;
  Pyfhel_new : Pyfhel;                                  (* Pyfhel() *)
  he_load_context : Pyfhel → bytes → option Pyfhel;     (* contents of the file *)
  he_load_secret_key : Pyfhel → bytes → option Pyfhel;
  he_contextGen : Pyfhel → context_params → Pyfhel;
  he_keyGen : Pyfhel → nat → Pyfhel;
  he_rotateKeyGen : Pyfhel → nat → Pyfhel;
  he_save_context : Pyfhel → bytes;                     (* bytes written to the file *)
  he_save_secret_key : Pyfhel → bytes;
  he_encrypt : Pyfhel → nat → list Q → option PyCtxt;
  he_decrypt : Pyfhel → PyCtxt → option (list Q);
  PyCtxt_to_bytes : PyCtxt → bytes;
  PyCtxt_new : Pyfhel → bytes → option PyCtxt;          (* PyCtxt(pyfhel=, bytestring=) *)
}.

(** ** Settings ([caresense/config.py]) *)

Record Settings := {
  audit_log_path : string;
  encrypted_storage_dir : string;
  biometric_fhe_context : string;
  biometric_fhe_secret : string;
}.

Definition default_settings (BASE_DIR : string) : Settings := {|
  audit_log_path := path_div (path_div BASE_DIR "data") "audit_logs.jsonl";
  encrypted_storage_dir := path_div (path_div BASE_DIR "data") "encrypted";
  biometric_fhe_context :=
    path_div (path_div (path_div BASE_DIR "data") "crypto") "fhe_context.bin";
  biometric_fhe_secret :=
    path_div (path_div (path_div BASE_DIR "data") "crypto") "fhe_secret.bin";
|}.

(** [Path.with_suffix]: the suffix of the last component starts at its last
    dot, unless that dot is the first or the last character of the name. *)
Fixpoint rsplit_at (c : ascii) (rev_s : list ascii) : option (list ascii * list ascii) :=
  match rev_s with
  | [] => None
  | x :: r =>
      if Ascii.eqb x c then Some ([], r)
      else match rsplit_at c r with
           | Some (after, before) => Some ((after ++ [x])%list, before)
           | None => None
           end
  end.

Definition with_suffix (path suffix : string) : string :=
  let rev_path := rev (list_ascii_of_string path) in
  let '(name, parent) :=
    match rsplit_at "/" rev_path with
    | Some (name, rev_parent) => (name, (rev rev_parent ++ ["/"%char])%list)
    | None => (rev rev_path, [])
    end in
  let stem :=
    match rsplit_at "." (rev name) with
    | Some (_ :: _, (_ :: _) as rev_stem) => rev rev_stem
    | _ => name
    end in
  string_of_list_ascii (parent ++ stem)%list ++ suffix.


(** ** The world and the monad of effects *)

Section World.
Context `{PyfhelLib}.

(** The object of class [FHEContext] ([caresense/crypto/fhe.py]). *)
Record FHEContext := {
  _he : Pyfhel;
  _initialised : bool;
}.

(** [FHEContext.__init__]. *)
Definition FHEContext_new : FHEContext :=
  {| _he := Pyfhel_new; _initialised := false |}.

Record State := {
  fs : gmap string bytes;          (* files, by path *)
  entropy : nat;                   (* draws made from the randomness source *)
  clock : nat;                     (* the instant, read by the ledger *)
  _FHE_CONTEXT : FHEContext;       (* module-level object of fhe.py *)
}.

(** A computation returns a value or raises, and leaves a state either
    way: effects made before an exception persist. *)
Definition M (A : Type) : Type := State → result A * State.

Definition ret {A} (a : A) : M A := λ st, (Ok a, st).
Definition raise {A} (e : exn) : M A := λ st, (Raise e, st).
Definition bind {A B} (m : M A) (k : A → M B) : M B :=
  λ st, match m st with
        | (Ok a, st') => k a st'
        | (Raise e, st') => (Raise e, st')
        end.
Definition lift {A} (r : result A) : M A := λ st, (r, st).
Definition gets {A} (f : State → A) : M A := λ st, (Ok (f st), st).
Definition modify (f : State → State) : M unit := λ st, (Ok tt, f st).

Definition set_fs (f : gmap string bytes) (st : State) : State :=
  {| fs := f; entropy := entropy st; clock := clock st;
     _FHE_CONTEXT := _FHE_CONTEXT st |}.
Definition set_entropy (e : nat) (st : State) : State :=
  {| fs := fs st; entropy := e; clock := clock st;
     _FHE_CONTEXT := _FHE_CONTEXT st |}.
Definition set_fhe (c : FHEContext) (st : State) : State :=
  {| fs := fs st; entropy := entropy st; clock := clock st;
     _FHE_CONTEXT := c |}.
End World.

Declare Scope py_scope.
Delimit Scope py_scope with py.
Notation "x <- m ;; k" := (bind m (λ x, k))
  (at level 100, m at next level, right associativity) : py_scope.
Notation "m ;;; k" := (bind m (λ _, k))
  (at level 100, right associativity) : py_scope.
#[local] Open Scope py_scope.

Section Effects.
Context `{PyfhelLib}.

(** *** Files *)

(** [path.exists()]. *)
Definition path_exists (p : string) : M bool :=
  gets (λ st, bool_decide (is_Some (fs st !! p))).

(** [path.read_bytes()]. *)
Definition read_bytes (p : string) : M bytes :=
  o <- gets (λ st, fs st !! p);;
  match o with
  | Some b => ret b
  | None => raise FileNotFoundError
  end.

(** [path.write_bytes(data)]: creates or replaces the file. *)
Definition write_bytes (p : string) (data : bytes) : M unit :=
  modify (λ st, set_fs (<[p := data]> (fs st)) st).

(** [with path.open("a") as fp: fp.write(text)]: creates the file when
    it is missing, and adds [text] at its end. *)
Definition append_text (p : string) (text : string) : M unit :=
  modify (λ st, set_fs (<[p := (default [] (fs st !! p) ++ encode_utf8 text)%list]>
                          (fs st)) st).

(** *** Randomness *)

(** One draw from the operating system's source: returns the index of the
    draw, which the library operations turn into random bytes or keys. *)
Definition draw : M nat :=
  r <- gets entropy;;
  modify (set_entropy (S r));;;
  ret r.

(** [os.linesep] on POSIX. *)
Definition linesep : string := String "010"%char EmptyString.
End Effects.

(** ** [caresense/crypto/fhe.py]: [FHEContext] *)

Module fhe.
Section FHE.
Context `{PyfhelLib}.
Variable settings : Settings.

(** The parameters of [contextGen]: scheme CKKS, [n = 2**15],
    [scale = 2**30], [qi_sizes = [60, 40, 40, 60]]. *)
Definition ckks_params : context_params := {|
  cg_scheme := "CKKS";
  cg_n := 2 ^ 15;
  cg_scale := 2 ^ 30;
  cg_qi_sizes := [60; 40; 40; 60]%N;
|}.

(** Assignment to [self._he] by a mutating method of Pyfhel. *)
Definition update_he (f : Pyfhel → Pyfhel) : M unit :=
  modify (λ st, set_fhe {| _he := f (_he (_FHE_CONTEXT st));
                           _initialised := _initialised (_FHE_CONTEXT st) |} st).

(** [self._he.load_context(path)] and [self._he.load_secret_key(path)]:
    read the file and install its contents, or raise. *)
Definition load_with (load : Pyfhel → bytes → option Pyfhel) (path : string) : M unit :=
  data <- read_bytes path;;
  he <- gets (λ st, _he (_FHE_CONTEXT st));;
  match load he data with
  | Some he' => update_he (λ _, he')
  | None => raise RuntimeError
  end.

(** [self._he.save_context(path)] and [self._he.save_secret_key(path)]. *)
Definition save_with (save : Pyfhel → bytes) (path : string) : M unit :=
  he <- gets (λ st, _he (_FHE_CONTEXT st));;
  write_bytes path (save he).

Definition _context_files_exist : M bool :=
  context_exists <- path_exists (biometric_fhe_context settings);;
  if context_exists then path_exists (biometric_fhe_secret settings)
  else ret false.

Definition initialise : M unit :=
  initialised <- gets (λ st, _initialised (_FHE_CONTEXT st));;
  if initialised then ret tt
  else
    files_exist <- _context_files_exist;;
    (if files_exist then
       load_with he_load_context (biometric_fhe_context settings);;;
       load_with he_load_secret_key (biometric_fhe_secret settings)
     else
       update_he (λ he, he_contextGen he ckks_params);;;
       r1 <- draw;;
       update_he (λ he, he_keyGen he r1);;;
       r2 <- draw;;
       update_he (λ he, he_rotateKeyGen he r2);;;
       save_with he_save_context (biometric_fhe_context settings);;;
       save_with he_save_secret_key (biometric_fhe_secret settings));;;
    modify (λ st, set_fhe {| _he := _he (_FHE_CONTEXT st); _initialised := true |} st).

(** The property [he]. *)
Definition he : M Pyfhel :=
  initialised <- gets (λ st, _initialised (_FHE_CONTEXT st));;
  (if initialised then ret tt else initialise);;;
  gets (λ st, _he (_FHE_CONTEXT st)).

Definition encrypt_vector (values : list Q) : M PyCtxt :=
  he_ <- he;;
  r <- draw;;
  match he_encrypt he_ r values with
  | Some ciphertext => ret ciphertext
  | None => raise RuntimeError
  end.

Definition decrypt_vector (ciphertext : PyCtxt) : M (list Q) :=
  he_ <- he;;
  match he_decrypt he_ ciphertext with
  | Some plaintext => ret plaintext
  | None => raise RuntimeError
  end.

Definition encode_scalar (value : Q) : M PyCtxt :=
  encrypt_vector [value].

Definition decrypt_scalar (ciphertext : PyCtxt) : M Q :=
  plaintext <- decrypt_vector ciphertext;;
  match plaintext with
  | x :: _ => ret x
  | [] => raise IndexError
  end.
End FHE.
End fhe.

(** ** [caresense/crypto/secure_store.py]: [SecureStore] *)

Module secure_store.
Section Store.
Context `{PyfhelLib, FernetLib, JsonLib}.
Variable settings : Settings.

Record SecureStore := {
  _storage_dir : string;
  _key_path : string;
  _fernet : Fernet;
}.

Definition _load_or_create_key (key_path : string) : M bytes :=
  key_exists <- path_exists key_path;;
  if key_exists then read_bytes key_path
  else
    r <- draw;;
    let key := Fernet_generate_key r in
    write_bytes key_path key;;;
    ret key.

(** [SecureStore.__init__]; directories are not modelled, so [mkdir] has
    no counterpart. *)
Definition SecureStore_new (storage_dir : option string) : M SecureStore :=
  let dir := default (encrypted_storage_dir settings) storage_dir in
  let key_path := path_div dir ".master.key" in
  key <- _load_or_create_key key_path;;
  match Fernet_new key with
  | Some f => ret {| _storage_dir := dir; _key_path := key_path; _fernet := f |}
  | None => raise ValueError
  end.

Variable self : SecureStore.

Definition _path_for (name : string) : string :=
  path_div (_storage_dir self) (name ++ ".bin").

Definition write (name : string) (payload : pyval) : M string :=
  let data := encode_utf8 (json_dumps false payload) in
  r <- draw;;
  let token := Fernet_encrypt (_fernet self) r data in
  let path := _path_for name in
  write_bytes path token;;;
  ret path.

(** [read] returns Python's [None] ([PyNone]) when the file is absent. *)
Definition read (name : string) : M pyval :=
  let path := _path_for name in
  present <- path_exists path;;
  if negb present then ret PyNone
  else
    token <- read_bytes path;;
    match Fernet_decrypt (_fernet self) token with
    | None => raise InvalidToken
    | Some data =>
        match json_loads data with
        | None => raise JSONDecodeError
        | Some payload => ret payload
        end
    end.
End Store.
End secure_store.

(** ** [caresense/services/auth_service.py]: [BiometricAuthService] *)

Module auth_service.
Section Service.
Context `{PyfhelLib, FernetLib, JsonLib, OsLib}.
Variable settings : Settings.

Record BiometricToken := {
  token_id : string;
  ciphertext : string;
}.

(** The service holds the store; its [_fhe] is the process-wide
    [_FHE_CONTEXT] of the state. *)
Record BiometricAuthService := {
  _store : secure_store.SecureStore;
}.

Variable self : BiometricAuthService.

Definition enrol (biometric_vector : list Q) : M BiometricToken :=
  ciphertext <- fhe.encrypt_vector settings biometric_vector;;
  r <- draw;;
  let token_id := Base64.urlsafe_b64encode (urandom r 18) in
  let ciphertext_hex := Hex.hex (PyCtxt_to_bytes ciphertext) in
  secure_store.write (_store self) ("biometric_" ++ token_id)
    (PyDict {[ "ciphertext" := PyStr ciphertext_hex ]});;;
  ret {| token_id := token_id; ciphertext := ciphertext_hex |}.

(** [bytes.fromhex(x)] on an arbitrary object. *)
Definition bytes_fromhex (x : pyval) : result bytes :=
  match x with
  | PyStr s => match Hex.fromhex s with Some b => Ok b | None => Raise ValueError end
  | _ => Raise TypeError
  end.

(** [sum(abs(base - presented) for base, presented in zip(...))]. *)
Definition sum_abs_diff (baseline_vector presented_vector : list Q) : Q :=
  fold_left Qplus
    (map (λ '(base, presented), Qabs (base - presented))
         (combine baseline_vector presented_vector))
    0%Q.

(** Division by [len(...)]. *)
Definition div_len (x : Q) (len : nat) : result Q :=
  if (len =? 0)%nat then Raise ZeroDivisionError
  else Ok (x / inject_Z (Z.of_nat len))%Q.

Definition default_tolerance : Q := 1 # 10.

Definition verify (token_id : string) (presented_vector : list Q) (tolerance : Q) : M bool :=
  record <- secure_store.read (_store self) ("biometric_" ++ token_id);;
  if negb (truthy record) then ret false
  else
    ciphertext_hex <- lift (subscript record "ciphertext");;
    ciphertext_bytes <- lift (bytes_fromhex ciphertext_hex);;
    he_ <- fhe.he settings;;
    ciphertext <- lift (match PyCtxt_new he_ ciphertext_bytes with
                        | Some c => Ok c
                        | None => Raise RuntimeError
                        end);;
    baseline_vector <- fhe.decrypt_vector settings ciphertext;;
    if negb (length baseline_vector =? length presented_vector)%nat then ret false
    else
      distance <- lift (div_len (sum_abs_diff baseline_vector presented_vector)
                                (length baseline_vector));;
      ret (Qle_bool distance tolerance).
End Service.
End auth_service.

(** ** The request boundary ([schemas/triage.py], [api/routes.py]) *)

Module api.
Section Routes.
Context `{PyfhelLib, FernetLib, JsonLib, OsLib}.
Variable settings : Settings.

(** [BiometricEnrollmentRequest]: [vector: List[float] = Field(..., min_length=16)]. *)
Definition BiometricEnrollmentRequest (vector : list Q) : result (list Q) :=
  if (length vector <? 16)%nat then Raise ValidationError else Ok vector.

(** The route [POST /biometrics/enrol]: the framework validates the body
    against the schema, then calls the handler. *)
Definition enrol_biometric (service : auth_service.BiometricAuthService)
    (vector : list Q) : M auth_service.BiometricToken :=
  request <- lift (BiometricEnrollmentRequest vector);;
  auth_service.enrol settings service request.
End Routes.
End api.

(** ** [caresense/workflows/compliance.py]: [ComplianceTrail] *)

Module compliance.
Section Trail.
Context `{PyfhelLib, Ed25519Lib, JsonLib, OsLib}.
Variable settings : Settings.

Record ComplianceTrail := {
  _log_path : string;
  _key_path : string;
  _private_key : Ed25519PrivateKey;
  _public_key : Ed25519PublicKey;
}.

Definition _ensure_keys (key_path : string) : M (Ed25519PrivateKey * Ed25519PublicKey) :=
  key_exists <- path_exists key_path;;
  private_key <-
    (if key_exists then
       private_bytes <- read_bytes key_path;;
       match Ed25519_from_private_bytes private_bytes with
       | Some k => ret k
       | None => raise ValueError
       end
     else
       r <- draw;;
       let k := Ed25519_generate r in
       write_bytes key_path (Ed25519_private_bytes k);;;
       ret k);;
  ret (private_key, Ed25519_public_key private_key).

(** [ComplianceTrail.__init__]. *)
Definition ComplianceTrail_new : M ComplianceTrail :=
  let log_path := audit_log_path settings in
  let key_path := with_suffix log_path ".ed25519" in
  keys <- _ensure_keys key_path;;
  ret {| _log_path := log_path; _key_path := key_path;
         _private_key := keys.1; _public_key := keys.2 |}.

Variable self : ComplianceTrail.

Definition public_key_pem : bytes := Ed25519_public_bytes (_public_key self).

(** The dictionary [{"timestamp": timestamp, "payload": payload}]. *)
Definition normalized (timestamp : string) (payload : pyval) : gmap string pyval :=
  <["timestamp" := PyStr timestamp]> (<["payload" := payload]> ∅).

(** What [log_event] signs. *)
Definition serialized (timestamp : string) (payload : pyval) : bytes :=
  encode_utf8 (json_dumps true (PyDict (normalized timestamp payload))).

(** The dictionary [{**normalized, "signature": signature.hex()}]. *)
Definition record (timestamp : string) (payload : pyval) (signature : bytes)
    : gmap string pyval :=
  <["signature" := PyStr (Hex.hex signature)]> (normalized timestamp payload).

Definition log_event (payload : pyval) : M string :=
  timestamp <- gets (λ st, utcnow_isoformat (clock st));;
  let signature := Ed25519_sign (_private_key self) (serialized timestamp payload) in
  let record_ := record timestamp payload signature in
  append_text (_log_path self) (json_dumps false (PyDict record_) ++ linesep);;;
  lift (match subscript (PyDict record_) "signature" with
        | Ok (PyStr s) => Ok s
        | Ok _ => Raise TypeError
        | Raise e => Raise e
        end).
End Trail.
End compliance.

(** ** The external verifier of the ledger *)

Module ledger.
Section Verifier.
Context `{Ed25519Lib, JsonLib}.

Definition result_bind {A B} (r : result A) (k : A → result B) : result B :=
  match r with Ok a => k a | Raise e => Raise e end.

(** Modelled from the spec: the verification protocol of the ledger, which
    the repository describes but does not implement.  A verifier parses a
    ledger line, serializes [{timestamp, payload}] of the line again with
    the canonical rule ([sort_keys]) and checks the hex-decoded signature
    of the line against the published public key (the PEM bytes of
    [public_key_pem]). *)
Definition verify_line (public_pem : bytes) (line : string) : result bool :=
  match json_loads (encode_utf8 line) with
  | None => Raise JSONDecodeError
  | Some entry =>
      result_bind (subscript entry "timestamp") (λ timestamp,
      result_bind (subscript entry "payload") (λ payload,
      result_bind (subscript entry "signature") (λ signature_hex,
      result_bind (auth_service.bytes_fromhex signature_hex) (λ signature,
      match load_pem_public_key public_pem with
      | None => Raise ValueError
      | Some public_key =>
          let canonical :=
            encode_utf8 (json_dumps true
              (PyDict (<["timestamp" := timestamp]> (<["payload" := payload]> ∅)))) in
          Ok (Ed25519_verify public_key signature canonical)
      end))))
  end.
End Verifier.
End ledger.

(** ** The specification's distance *)

(** The mean absolute element-wise difference of the specification, written
    from its words: the absolute differences, element by element, summed and
    divided by the number of elements. *)
Fixpoint abs_differences (baseline presented : list Q) : list Q :=
  match baseline, presented with
  | b :: baseline', p :: presented' => Qabs (b - p) :: abs_differences baseline' presented'
  | _, _ => []
  end.

Definition Qsum (l : list Q) : Q := fold_right Qplus 0%Q l.

Definition mean_abs_difference (baseline presented : list Q) : Q :=
  (Qsum (abs_differences baseline presented) / inject_Z (Z.of_nat (length baseline)))%Q.

(** Two vectors agree element-wise within [eps]. *)
Definition within (eps : Q) (x y : list Q) : Prop :=
  Forall2 (λ a b, (Qabs (a - b) <= eps)%Q) x y.

(** ** The generating branch of [initialise], in closed form *)

Section Generated.
Context `{PyfhelLib}.
Variable settings : Settings.

(** The Pyfhel object after [contextGen], [keyGen] and [rotateKeyGen], the
    two draws being [r] and [S r]. *)
Definition generated (he_ : Pyfhel) (r : nat) : Pyfhel :=
  he_rotateKeyGen (he_keyGen (he_contextGen he_ fhe.ckks_params) r) (S r).

(** The state after the generating branch of [initialise]. *)
Definition regenerated (st : State) : State :=
  let he1 := generated (_he (_FHE_CONTEXT st)) (entropy st) in
  {| fs := <[biometric_fhe_secret settings := he_save_secret_key he1]>
             (<[biometric_fhe_context settings := he_save_context he1]> (fs st));
     entropy := S (S (entropy st));
     clock := clock st;
     _FHE_CONTEXT := {| _he := he1; _initialised := true |} |}.
End Generated.

(** ** The two halves of [verify] *)

Section Baseline.
Context `{PyfhelLib, FernetLib, JsonLib}.
Variable settings : Settings.
Variable self : auth_service.BiometricAuthService.

(** The baseline stored for a token, obtained as [verify] obtains it
    (its lines up to [decrypt_vector]); [None] when no record is stored
    under the token. *)
Definition stored_baseline (token_id : string) : M (option (list Q)) :=
  record <- secure_store.read (auth_service._store self) ("biometric_" ++ token_id);;
  if negb (truthy record) then ret None
  else
    ciphertext_hex <- lift (subscript record "ciphertext");;
    ciphertext_bytes <- lift (auth_service.bytes_fromhex ciphertext_hex);;
    he_ <- fhe.he settings;;
    ciphertext <- lift (match PyCtxt_new he_ ciphertext_bytes with
                        | Some c => Ok c
                        | None => Raise RuntimeError
                        end);;
    baseline_vector <- fhe.decrypt_vector settings ciphertext;;
    ret (Some baseline_vector).

(** The comparison [verify] ends with (from the test of the lengths
    on). *)
Definition compare (baseline_vector presented_vector : list Q) (tolerance : Q) : M bool :=
  if negb (length baseline_vector =? length presented_vector)%nat then ret false
  else
    distance <- lift (auth_service.div_len
                        (auth_service.sum_abs_diff baseline_vector presented_vector)
                        (length baseline_vector));;
    ret (Qle_bool distance tolerance).
End Baseline.

(** ** Files written *)

Section Writes.
Context `{PyfhelLib}.
Variable settings : Settings.

(** [st'] has the files of [st], except possibly the two files of the
    encryption context. *)
Definition same_files_but_fhe (st st' : State) : Prop :=
  ∀ p, p ≠ biometric_fhe_context settings → p ≠ biometric_fhe_secret settings →
       fs st' !! p = fs st !! p.

(** A computation that writes at most the two files of the context. *)
Definition writes_fhe_only {A} (m : M A) : Prop :=
  ∀ st, same_files_but_fhe st (m st).2.
End Writes.

(** ** The outcome of [enrol], in closed form *)

Section Issued.
Context `{PyfhelLib, FernetLib, JsonLib, OsLib}.
Variable self : auth_service.BiometricAuthService.

(** The token [enrol] returns and the state it leaves, when the vector
    was encrypted to [c] and the state after the encryption is [st_d]. *)
Definition issued (c : PyCtxt) (st_d : State) : auth_service.BiometricToken * State :=
  let token_id := Base64.urlsafe_b64encode (urandom (entropy st_d) 18) in
  let ciphertext_hex := Hex.hex (PyCtxt_to_bytes c) in
  ({| auth_service.token_id := token_id; auth_service.ciphertext := ciphertext_hex |},
   {| fs := <[secure_store._path_for (auth_service._store self) ("biometric_" ++ token_id)
              := Fernet_encrypt (secure_store._fernet (auth_service._store self))
                   (S (entropy st_d))
                   (encode_utf8 (json_dumps false
                      (PyDict {[ "ciphertext" := PyStr ciphertext_hex ]})))]> (fs st_d);
      entropy := S (S (entropy st_d));
      clock := clock st_d;
      _FHE_CONTEXT := _FHE_CONTEXT st_d |}).
End Issued.

(** ** Laws of the libraries

    Each law is a proposition about an instance of a library interface; the
    theorems below name the laws they rely on. *)

Section Laws.
Context `{PyfhelLib, FernetLib, JsonLib, Ed25519Lib}.

(** Fernet: decryption under the key of encryption returns the data. *)
Definition FernetCorrect : Prop :=
  ∀ (f : Fernet) (r : nat) (data : bytes),
    Fernet_decrypt f (Fernet_encrypt f r data) = Some data.

(** json: the text written for [v] is read back as [v]. *)
Definition JsonFaithful (sort_keys : bool) (v : pyval) : Prop :=
  json_loads (encode_utf8 (json_dumps sort_keys v)) = Some v.

(** Ed25519: a signature verifies under the public key of its signer. *)
Definition Ed25519Correct : Prop :=
  ∀ (k : Ed25519PrivateKey) (data : bytes),
    Ed25519_verify (Ed25519_public_key k) (Ed25519_sign k data) data = true.

(** Ed25519, idealised as in symbolic models of signatures: a signature
    verifies for no other data than the data signed. *)
Definition Ed25519Binding : Prop :=
  ∀ (k : Ed25519PrivateKey) (data data' : bytes),
    Ed25519_verify (Ed25519_public_key k) (Ed25519_sign k data) data' = true →
    data' = data.

(** The PEM encoding of a public key loads as that key. *)
Definition PemFaithful : Prop :=
  ∀ pk : Ed25519PublicKey, load_pem_public_key (Ed25519_public_bytes pk) = Some pk.

(** Pyfhel (CKKS is approximate): if the instance [he_] encrypts [v], the
    ciphertext rebuilt from its bytes decrypts under [he_] to a vector of
    the same length, element-wise within [eps] of [v]. *)
Definition FheApprox (eps : Q) (he_ : Pyfhel) (v : list Q) : Prop :=
  ∀ (r : nat) (c : PyCtxt),
    he_encrypt he_ r v = Some c →
    ∃ (c' : PyCtxt) (b : list Q),
      PyCtxt_new he_ (PyCtxt_to_bytes c) = Some c'
      ∧ he_decrypt he_ c' = Some b
      ∧ within eps b v.
End Laws.

(** ** Reference instances of the libraries

    Small executable stand-ins for the libraries, on which the embedded code
    can be run.  They make no claim of security: they exist to compute
    concrete executions and to show that the laws above can be met. *)

Module reference.

#[export] Instance byte_eq_dec : EqDecision byte := byte_eq_dec.

Definition byte_of_nat (k : nat) : byte :=
  default x00%byte (Byte.of_N (N.of_nat k mod 256)).

Definition os : OsLib := {|
  urandom r len := repeat (byte_of_nat r) len;
  utcnow_isoformat t :=
    "2025-01-01T00:00:" ++ NilZero.string_of_int (Z.to_int (Z.of_nat t)) ++ "+00:00";
|}.

(** *** A JSON-like codec *)

Definition quote (s : string) : string :=
  String "034" (s ++ String "034" EmptyString).

Fixpoint join (sep : string) (l : list string) : string :=
  match l with
  | [] => ""
  | [x] => x
  | x :: l' => x ++ sep ++ join sep l'
  end.

Definition show_Z (z : Z) : string := NilZero.string_of_int (Z.to_int z).

Fixpoint dumps (v : pyval) : string :=
  match v with
  | PyNone => "null"
  | PyBool true => "true"
  | PyBool false => "false"
  | PyInt z => show_Z z
  | PyFloat q => show_Z (Qnum q) ++ "/" ++ show_Z (Z.pos (Qden q))
  | PyStr s => quote s
  | PyList l => "[" ++ join ", " (map dumps l) ++ "]"
  | PyDict d =>
      "{" ++ join ", " (map (λ '(k, x), quote k ++ ": " ++ x)
                            (map_to_list (dumps <$> d))) ++ "}"
  end.

Fixpoint strip (prefix s : string) : option string :=
  match prefix, s with
  | EmptyString, _ => Some s
  | String a prefix', String b s' => if Ascii.eqb a b then strip prefix' s' else None
  | _, _ => None
  end.

Fixpoint skip_ws (s : string) : string :=
  match s with
  | String c s' => if Ascii.eqb c " " then skip_ws s' else s
  | EmptyString => s
  end.

Fixpoint read_quoted (s : string) : option (string * string) :=
  match s with
  | EmptyString => None
  | String c s' =>
      if Ascii.eqb c "034" then Some ("", s')
      else match read_quoted s' with
           | Some (t, rest) => Some (String c t, rest)
           | None => None
           end
  end.

Definition is_numeric (c : ascii) : bool :=
  let k := N_of_ascii c in ((k =? 45) || ((48 <=? k) && (k <=? 57)))%N.

Fixpoint read_numeric (s : string) : string * string :=
  match s with
  | String c s' =>
      if is_numeric c then let '(d, rest) := read_numeric s' in (String c d, rest)
      else ("", s)
  | EmptyString => ("", "")
  end.

Definition read_Z (s : string) : option (Z * string) :=
  let '(d, rest) := read_numeric s in
  match NilZero.int_of_string d with
  | Some i => Some (Z.of_int i, rest)
  | None => None
  end.

Definition parse_number (s : string) : option (pyval * string) :=
  match read_Z s with
  | Some (num, rest) =>
      match strip "/" rest with
      | Some rest' =>
          match read_Z rest' with
          | Some (Z.pos den, rest'') => Some (PyFloat (num # den), rest'')
          | _ => None
          end
      | None => Some (PyInt num, rest)
      end
  | None => None
  end.

Fixpoint parse_value (fuel : nat) (s : string) : option (pyval * string) :=
  match fuel with
  | 0 => None
  | S fuel' =>
      let s := skip_ws s in
      if strip "null" s is Some rest then Some (PyNone, rest)
      else if strip "true" s is Some rest then Some (PyBool true, rest)
      else if strip "false" s is Some rest then Some (PyBool false, rest)
      else if strip (String "034" "") s is Some rest then
        match read_quoted rest with
        | Some (t, rest') => Some (PyStr t, rest')
        | None => None
        end
      else if strip "[" s is Some rest then
        if strip "]" (skip_ws rest) is Some rest' then Some (PyList [], rest')
        else match parse_items fuel' rest with
             | Some (l, rest') => Some (PyList l, rest')
             | None => None
             end
      else if strip "{" s is Some rest then
        if strip "}" (skip_ws rest) is Some rest' then Some (PyDict ∅, rest')
        else match parse_members fuel' rest with
             | Some (d, rest') => Some (PyDict d, rest')
             | None => None
             end
      else parse_number s
  end
with parse_items (fuel : nat) (s : string) : option (list pyval * string) :=
  match fuel with
  | 0 => None
  | S fuel' =>
      match parse_value fuel' s with
      | Some (v, rest) =>
          let rest := skip_ws rest in
          if strip "]" rest is Some rest' then Some ([v], rest')
          else if strip "," rest is Some rest' then
            match parse_items fuel' rest' with
            | Some (l, rest'') => Some (v :: l, rest'')
            | None => None
            end
          else None
      | None => None
      end
  end
with parse_members (fuel : nat) (s : string) : option (gmap string pyval * string) :=
  match fuel with
  | 0 => None
  | S fuel' =>
      match strip (String "034" "") (skip_ws s) with
      | Some rest =>
          match read_quoted rest with
          | Some (k, rest1) =>
              match strip ":" (skip_ws rest1) with
              | Some rest2 =>
                  match parse_value fuel' rest2 with
                  | Some (v, rest3) =>
                      let rest3 := skip_ws rest3 in
                      if strip "}" rest3 is Some rest' then Some ({[ k := v ]}, rest')
                      else if strip "," rest3 is Some rest' then
                        match parse_members fuel' rest' with
                        | Some (d, rest'') => Some (<[k := v]> d, rest'')
                        | None => None
                        end
                      else None
                  | None => None
                  end
              | None => None
              end
          | None => None
          end
      | None => None
      end
  end.

(** The whole text must be one value; the fuel is the length of the text,
    more than its nesting depth and its number of items. *)
Definition loads (data : bytes) : option pyval :=
  let s := decode_utf8 data in
  match parse_value (S (String.length s)) s with
  | Some (v, rest) => if String.eqb (skip_ws rest) "" then Some v else None
  | None => None
  end.

(** Keys are written in the order of the finite map, which depends on the
    keys alone: the output is canonical with and without [sort_keys]. *)
Definition json : JsonLib := {|
  json_dumps _ v := dumps v;
  json_loads := loads;
|}.

(** *** A tagged cipher

    A token is one byte of nonce, the key as authentication tag, then the
    data; decryption checks the tag. *)
Definition fernet : FernetLib := {|
  Fernet := bytes;
  Fernet_new key := Some key;
  Fernet_generate_key r := repeat (byte_of_nat r) 4;
  Fernet_encrypt key r data := (byte_of_nat r :: key ++ data)%list;
  Fernet_decrypt key token :=
    match token with
    | [] => None
    | _ :: body =>
        if bool_decide (take (length key) body = key)
        then Some (drop (length key) body) else None
    end;
|}.

(** *** A signature scheme

    The signature of [data] is the key followed by [data]; the public key
    is the private key. *)
Definition ed25519 : Ed25519Lib := {|
  Ed25519PrivateKey := bytes;
  Ed25519PublicKey := bytes;
  Ed25519_generate r := repeat (byte_of_nat r) 4;
  Ed25519_from_private_bytes b := Some b;
  Ed25519_private_bytes k := k;
  Ed25519_public_key k := k;
  Ed25519_sign k data := (k ++ data)%list;
  Ed25519_verify pk signature data := bool_decide (signature = (pk ++ data)%list);
  Ed25519_public_bytes pk := pk;
  load_pem_public_key b := Some b;
|}.

(** *** An approximate vector scheme

    A ciphertext holds one byte per element: the element in hundredths,
    rounded, between 0 and 255.  Encryption needs a context, decryption a
    secret key. *)
Record he_state := {
  he_context : option bytes;
  he_secret : option bytes;
}.

Definition quantise (x : Q) : byte :=
  default xff%byte (Byte.of_N (Z.to_N (Qfloor (x * 100 + (1 # 2))))).

Definition unquantise (b : byte) : Q := Z.of_N (Byte.to_N b) # 100.

Definition pyfhel : PyfhelLib := {|
  Pyfhel := he_state;
  PyCtxt := bytes;
  Pyfhel_new := {| he_context := None; he_secret := None |};
  he_load_context he_ data :=
    match data with
    | [] => None
    | _ => Some {| he_context := Some data; he_secret := he_secret he_ |}
    end;
  he_load_secret_key he_ data :=
    match data with
    | [] => None
    | _ => Some {| he_context := he_context he_; he_secret := Some data |}
    end;
  he_contextGen he_ params :=
    {| he_context := Some (encode_utf8 (cg_scheme params)); he_secret := he_secret he_ |};
  he_keyGen he_ r :=
    {| he_context := he_context he_; he_secret := Some (repeat (byte_of_nat r) 4) |};
  he_rotateKeyGen he_ r := he_;
  he_save_context he_ := default [] (he_context he_);
  he_save_secret_key he_ := default [] (he_secret he_);
  he_encrypt he_ r values :=
    match he_context he_ with
    | Some _ => Some (map quantise values)
    | None => None
    end;
  he_decrypt he_ c :=
    match he_secret he_ with
    | Some _ => Some (map unquantise c)
    | None => None
    end;
  PyCtxt_to_bytes c := c;
  PyCtxt_new he_ b := Some b;
|}.
End reference.

(** ** Concrete worlds

    Settings, objects and states on which the code is run with the reference
    instances. *)

Module scenario.
Section Scenario.
#[local] Existing Instance reference.os.
#[local] Existing Instance reference.json.
#[local] Existing Instance reference.fernet.
#[local] Existing Instance reference.ed25519.
#[local] Existing Instance reference.pyfhel.

Definition srv : Settings := default_settings "/srv".

Definition world (files : gmap string bytes) : State := {|
  fs := files; entropy := 0; clock := 0; _FHE_CONTEXT := FHEContext_new;
|}.

(** A store as [SecureStore()] builds it, with master key [key1]. *)
Definition store : secure_store.SecureStore := {|
  secure_store._storage_dir := encrypted_storage_dir srv;
  secure_store._key_path := path_div (encrypted_storage_dir srv) ".master.key";
  secure_store._fernet := encode_utf8 "key1";
|}.

Definition service : auth_service.BiometricAuthService :=
  {| auth_service._store := store |}.

(** Nothing on disk yet. *)
Definition fresh : State := world ∅.

(** The record of token [tok] holds bytes that are no token of the
    cipher. *)
Definition corrupted : State :=
  world {[ "/srv/data/encrypted/biometric_tok.bin" := encode_utf8 "garbage" ]}.

(** Of the two files of the encryption context, the secret key alone is
    on disk. *)
Definition secret_only : State :=
  world {[ "/srv/data/crypto/fhe_secret.bin" := encode_utf8 "old-secret-key" ]}.

(** The vectors of the specification's scenario: [[0.1]*16] and
    [[0.1]*15 + [0.9]]. *)
Definition v16 : list Q := repeat (1 # 10) 16.
Definition v16_last : list Q := (repeat (1 # 10) 15 ++ [9 # 10])%list.

(** A ledger whose signing key is [sign]. *)
Definition trail : compliance.ComplianceTrail := {|
  compliance._log_path := audit_log_path srv;
  compliance._key_path := with_suffix (audit_log_path srv) ".ed25519";
  compliance._private_key := encode_utf8 "sign";
  compliance._public_key := encode_utf8 "sign";
|}.

Definition event (k : Z) : pyval :=
  PyDict (<["event" := PyStr "x"]> (<["n" := PyInt k]> ∅)).

(** The line of the ledger for [event k] logged at instant 0. *)
Definition ledger_line (k : Z) : string :=
  let timestamp := utcnow_isoformat 0 in
  json_dumps false
    (PyDict (compliance.record timestamp (event k)
               (Ed25519_sign (compliance._private_key trail)
                  (compliance.serialized timestamp (event k))))).

(** A disk holding the signing key of [trail], from which
    [ComplianceTrail()] builds [trail]. *)
Definition with_signing_key : State :=
  world {[ "/srv/data/audit_logs.ed25519" := encode_utf8 "sign" ]}.

(** The state after [enrol([0.1]*16)] from an empty disk, and the token
    it issues (the randomness of the reference operating system is its
    draw index, here 3). *)
Definition enrolled : State := (auth_service.enrol srv service v16 fresh).2.
Definition token : string := "AwMDAwMDAwMDAwMDAwMDAwMD".

(** What the reference scheme decrypts the stored ciphertext to: sixteen
    times ten hundredths. *)
Definition baseline16 : list Q := repeat (10 # 100) 16.

(** A new process on the disk left by the enrolment: the files stay, the
    encryption context is not yet initialised. *)
Definition restarted : State := world (fs enrolled).

(** The same, the two files of the encryption context lost. *)
Definition keys_lost : State :=
  world (delete (biometric_fhe_secret srv)
           (delete (biometric_fhe_context srv) (fs enrolled))).
End Scenario.
End scenario.

(** * Further vocabulary *)

(** ** Text *)

(** The characters of the URL-safe base64 alphabet: letters, digits, [-]
    and [_]. *)
Definition url_safe (c : ascii) : bool :=
  let k := N_of_ascii c in
  (((65 <=? k) && (k <=? 90)) || ((97 <=? k) && (k <=? 122))
   || ((48 <=? k) && (k <=? 57)) || (k =? 45) || (k =? 95))%N.

(** ** Further laws of the libraries *)

Section MoreLaws.
Context `{PyfhelLib, Ed25519Lib}.

(** Pyfhel: what the instance [he_] encrypts, it decrypts to a vector
    element-wise within [eps] of the plaintext. *)
Definition FheDirect (eps : Q) (he_ : Pyfhel) (v : list Q) : Prop :=
  ∀ (r : nat) (c : PyCtxt),
    he_encrypt he_ r v = Some c →
    ∃ b : list Q, he_decrypt he_ c = Some b ∧ within eps b v.

(** Ed25519: the raw bytes of a private key load as that key. *)
Definition Ed25519KeyFaithful : Prop :=
  ∀ k : Ed25519PrivateKey,
    Ed25519_from_private_bytes (Ed25519_private_bytes k) = Some k.
End MoreLaws.

(** ** Reference instances that validate keys

    The cipher and the signature scheme of [reference], with constructors
    that accept keys of four bytes only, as the libraries accept keys of
    one length only. *)

Module strict.

Definition fernet : FernetLib := {|
  Fernet := bytes;
  Fernet_new key := if (length key =? 4)%nat then Some key else None;
  Fernet_generate_key r := repeat (reference.byte_of_nat r) 4;
  Fernet_encrypt := @Fernet_encrypt reference.fernet;
  Fernet_decrypt := @Fernet_decrypt reference.fernet;
|}.

Definition ed25519 : Ed25519Lib := {|
  Ed25519PrivateKey := bytes;
  Ed25519PublicKey := bytes;
  Ed25519_generate r := repeat (reference.byte_of_nat r) 4;
  Ed25519_from_private_bytes b := if (length b =? 4)%nat then Some b else None;
  Ed25519_private_bytes k := k;
  Ed25519_public_key k := k;
  Ed25519_sign := @Ed25519_sign reference.ed25519;
  Ed25519_verify := @Ed25519_verify reference.ed25519;
  Ed25519_public_bytes pk := pk;
  load_pem_public_key b := Some b;
|}.

End strict.

(** ** Events logged in sequence *)

Section LogEvents.
Context `{PyfhelLib, Ed25519Lib, JsonLib, OsLib}.
Variable self : compliance.ComplianceTrail.

(** The clock of the world shows instant [t]. *)
Definition at_instant (t : nat) (st : State) : State :=
  {| fs := fs st; entropy := entropy st; clock := t;
     _FHE_CONTEXT := _FHE_CONTEXT st |}.

(** [log_event] called for each event in turn, the clock showing the
    instant of the event at its call; the signatures returned, in order. *)
Fixpoint log_events (events : list (nat * pyval)) : M (list string) :=
  match events with
  | [] => ret []
  | (t, payload) :: events' =>
      modify (at_instant t);;;
      signature <- compliance.log_event self payload;;
      signatures <- log_events events';;
      ret (signature :: signatures)
  end.

(** The signature of the event [payload] logged at instant [t]. *)
Definition event_signature (t : nat) (payload : pyval) : bytes :=
  Ed25519_sign (compliance._private_key self)
    (compliance.serialized (utcnow_isoformat t) payload).

(** The text [log_event] appends for that event: the line and the line
    separator. *)
Definition event_text (t : nat) (payload : pyval) : string :=
  json_dumps false
    (PyDict (compliance.record (utcnow_isoformat t) payload (event_signature t payload)))
  ++ linesep.
End LogEvents.

(** ** [caresense/models/predictor.py]: [Predictor] *)

(** The model file and the pipeline it holds: [joblib] and the
    scikit-learn pipeline are an interface. *)
Class PipelineLib := {
  Pipeline : Type;
  joblib_load : bytes → option Pipeline;        (* of the file contents; None: it raises *)
  pipeline_predict_proba : Pipeline → string → option (list Q);
                                                (* pipeline.predict_proba([text])[0] *)
}.

(** [l[index]] on a list, for any integer: negative indices count from the
    end, and an index out of range raises [IndexError]. *)
Definition list_item {A} (l : list A) (index : Z) : result A :=
  let len := Z.of_nat (length l) in
  let i := if (index <? 0)%Z then (len + index)%Z else index in
  if ((0 <=? i) && (i <? len))%Z then
    match l !! Z.to_nat i with
    | Some x => Ok x
    | None => Raise IndexError
    end
  else Raise IndexError.

(** [numpy.argmax] on a vector: the index of the first largest element;
    [ValueError] on an empty vector. *)
Fixpoint argmax_from (best_index : nat) (best : Q) (i : nat) (l : list Q) : nat :=
  match l with
  | [] => best_index
  | x :: l' =>
      if Qle_bool x best then argmax_from best_index best (S i) l'
      else argmax_from i x (S i) l'
  end.

Definition argmax (l : list Q) : result nat :=
  match l with
  | [] => Raise ValueError
  | x :: l' => Ok (argmax_from 0 x 1 l')
  end.

Module predictor.
Section Predictor.
Context `{PyfhelLib, PipelineLib}.

Record Predictor := {
  _model_path : string;
  _pipeline : option Pipeline;
}.

(** [Predictor.__init__], [model_path] being [settings.model_path]. *)
Definition Predictor_new (model_path : string) : Predictor :=
  {| _model_path := model_path; _pipeline := None |}.

(** The world with the process-wide predictor of [get_predictor()]. *)
Record World := {
  state : State;
  _PREDICTOR : Predictor;
}.

Definition MW (A : Type) : Type := World → result A * World.

Definition wret {A} (a : A) : MW A := λ w, (Ok a, w).
Definition wbind {A B} (m : MW A) (k : A → MW B) : MW B :=
  λ w, match m w with
       | (Ok a, w') => k a w'
       | (Raise e, w') => (Raise e, w')
       end.

(** A computation on the state, run in the world. *)
Definition in_state {A} (m : M A) : MW A :=
  λ w, let '(r, st) := m (state w) in
       (r, {| state := st; _PREDICTOR := _PREDICTOR w |}).

Definition load : MW Pipeline :=
  λ w, match _pipeline (_PREDICTOR w) with
       | Some pipeline => (Ok pipeline, w)
       | None =>
           match read_bytes (_model_path (_PREDICTOR w)) (state w) with
           | (Ok data, _) =>
               match joblib_load data with
               | Some pipeline =>
                   (Ok pipeline,
                    {| state := state w;
                       _PREDICTOR := {| _model_path := _model_path (_PREDICTOR w);
                                        _pipeline := Some pipeline |} |})
               | None => (Raise RuntimeError, w)
               end
           | (Raise e, _) => (Raise e, w)
           end
       end.

(** The dictionary [predict_proba] returns, with its two keys. *)
Record prediction := {
  prediction_index : Z;
  probabilities : list Q;
}.

Definition predict_proba (text : string) : MW prediction :=
  wbind load (λ pipeline,
  match pipeline_predict_proba pipeline text with
  | None => λ w, (Raise RuntimeError, w)
  | Some probabilities =>
      match argmax probabilities with
      | Raise e => λ w, (Raise e, w)
      | Ok prediction =>
          wret {| prediction_index := Z.of_nat prediction;
                  probabilities := probabilities |}
      end
  end).
End Predictor.
End predictor.

(** ** [caresense/services/triage_service.py]: [TriageService] *)

Module triage_service.
Section Triage.
Context `{PyfhelLib, PipelineLib, Ed25519Lib, JsonLib, OsLib}.

(** [URGENCY_MAP.get(index)]. *)
Definition URGENCY_MAP (index : Z) : option string :=
  match index with
  | 0%Z => Some "Low Urgency"
  | 1%Z => Some "Medium Urgency"
  | 2%Z => Some "High Urgency"
  | _ => None
  end.

Record enrichment := {
  care_type : string;
  specialty : string;
  next_steps : string;
}.

(** [URGENCY_ENRICHMENT.get(urgency)]. *)
Definition URGENCY_ENRICHMENT (urgency : string) : option enrichment :=
  if String.eqb urgency "Low Urgency" then
    Some {| care_type := "Rest, hydration, over-the-counter support.";
            specialty := "General Practice";
            next_steps :=
              "Monitor symptoms and reassess if they persist beyond 48 hours." |}
  else if String.eqb urgency "Medium Urgency" then
    Some {| care_type := "Coordinate with a primary care provider or specialist.";
            specialty := "Internal Medicine";
            next_steps :=
              "Book an appointment within 24-48 hours; prepare symptom timeline." |}
  else if String.eqb urgency "High Urgency" then
    Some {| care_type := "Seek immediate in-person care.";
            specialty := "Emergency Medicine";
            next_steps :=
              "Dial emergency services or visit the ER; do not wait for virtual follow-up." |}
  else None.

Record TriageResult := {
  urgency : string;
  confidence : Q;
  enrichment_ : enrichment;
  audit_reference : option string;
}.

(** The service holds its ledger; its [_predictor] is the predictor of the
    world. *)
Record TriageService := {
  _compliance : compliance.ComplianceTrail;
}.

(** [TriageService.__init__]. *)
Definition TriageService_new (settings : Settings) : M TriageService :=
  trail <- compliance.ComplianceTrail_new settings;;
  ret {| _compliance := trail |}.

(** A token or [None], as a JSON value. *)
Definition optional_str (s : option string) : pyval :=
  match s with Some x => PyStr x | None => PyNone end.

(** The dictionary [audit_payload]. *)
Definition audit_payload (urgency : string) (confidence : Q)
    (biometric_token : option string) : pyval :=
  PyDict (<["event" := PyStr "triage_completed"]>
          (<["urgency" := PyStr urgency]>
           (<["confidence" := PyFloat confidence]>
            (<["biometric_reference" := optional_str biometric_token]> ∅)))).

Definition run_triage (self : TriageService) (text : string)
    (biometric_token : option string) : predictor.MW TriageResult :=
  predictor.wbind (predictor.predict_proba text) (λ prediction,
  let index := predictor.prediction_index prediction in
  let urgency := default "Medium Urgency" (URGENCY_MAP index) in
  match list_item (predictor.probabilities prediction) index with
  | Raise e => λ w, (Raise e, w)
  | Ok confidence =>
      match URGENCY_ENRICHMENT urgency with
      | None => λ w, (Raise (KeyError urgency), w)
      | Some enrichment =>
          predictor.wbind
            (predictor.in_state
               (compliance.log_event (_compliance self)
                  (audit_payload urgency confidence biometric_token)))
            (λ audit_signature,
             predictor.wret {| urgency := urgency;
                               confidence := confidence;
                               enrichment_ := enrichment;
                               audit_reference := Some audit_signature |})
      end
  end).
End Triage.
End triage_service.

(** ** [caresense/services/review_service.py]: the priority of a case *)

Module review_service.

Inductive ReviewPriority := LOW | MEDIUM | HIGH | CRITICAL.

(** [x > y] on numbers. *)
Definition Qgtb (x y : Q) : bool := negb (Qle_bool x y).

Definition _determine_priority (urgency : string) (confidence : Q) : ReviewPriority :=
  if String.eqb urgency "High Urgency" then
    if Qgtb confidence (7 # 10) then HIGH else CRITICAL
  else if String.eqb urgency "Medium Urgency" then
    if Qgtb confidence (6 # 10) then MEDIUM else HIGH
  else
    if Qgtb confidence (6 # 10) then LOW else MEDIUM.

(** The order of priorities, from the least pressing. *)
Definition severity (p : ReviewPriority) : nat :=
  match p with LOW => 0 | MEDIUM => 1 | HIGH => 2 | CRITICAL => 3 end.

End review_service.

(** ** The route [POST /triage] ([api/routes.py]) *)

Module triage_route.
Section Route.
Context `{PyfhelLib, PipelineLib, FernetLib, Ed25519Lib, JsonLib, OsLib}.
Variable settings : Settings.

(** What a handler ends with: a response, or the status of the
    [HTTPException] it raised. *)
Inductive http (A : Type) :=
  | Response (a : A)
  | HTTPException (status_code : nat) (detail : string).
Arguments Response {A} a.
Arguments HTTPException {A} status_code detail.

Record TriageRequest := {
  symptoms : string;
  biometric_token : option string;
  biometric_vector : option (list Q);
}.

Record TriageResponse := {
  urgency : string;
  confidence : Q;
  recommended_care : string;
  specialty : string;
  next_steps : string;
  audit_reference : option string;
}.

(** [round(x, ndigits)] on a number: to the nearest multiple of
    [10**-ndigits], a tie going to the even one. *)
Definition round_ (x : Q) (ndigits : nat) : Q :=
  let unit := inject_Z (10 ^ Z.of_nat ndigits) in
  let scaled := (x * unit)%Q in
  let low := Qfloor scaled in
  let rest := (scaled - inject_Z low)%Q in
  let nearest :=
    if Qle_bool rest (1 # 2) then
      if Qle_bool (1 # 2) rest then (if Z.even low then low else (low + 1)%Z)
      else low
    else (low + 1)%Z in
  (inject_Z nearest / unit)%Q.

(** Truth value of [request.biometric_vector] and of
    [request.biometric_token]. *)
Definition vector_given (v : option (list Q)) : bool :=
  match v with Some (_ :: _) => true | _ => false end.
Definition token_given (t : option string) : bool :=
  match t with Some s => negb (String.eqb s EmptyString) | None => false end.

Definition respond (result : triage_service.TriageResult) : TriageResponse :=
  {| urgency := triage_service.urgency result;
     confidence := round_ (triage_service.confidence result) 4;
     recommended_care := triage_service.care_type (triage_service.enrichment_ result);
     specialty := triage_service.specialty (triage_service.enrichment_ result);
     next_steps := triage_service.next_steps (triage_service.enrichment_ result);
     audit_reference := triage_service.audit_reference result |}.

Definition run_triage (request : TriageRequest)
    (triage_service_ : triage_service.TriageService)
    (biometric_service : auth_service.BiometricAuthService)
    : predictor.MW (http TriageResponse) :=
  let biometric_reference := biometric_token request in
  let triage : predictor.MW (http TriageResponse) :=
    predictor.wbind
      (triage_service.run_triage triage_service_ (symptoms request) biometric_reference)
      (λ result, predictor.wret (Response (respond result))) in
  if vector_given (biometric_vector request) then
    if negb (token_given (biometric_token request)) then
      predictor.wret
        (HTTPException 400 "Biometric vector submitted without token reference.")
    else
      predictor.wbind
        (predictor.in_state
           (auth_service.verify settings biometric_service
              (default EmptyString (biometric_token request))
              (default [] (biometric_vector request))
              auth_service.default_tolerance))
        (λ verified,
         if negb verified then
           predictor.wret (HTTPException 401 "Biometric verification failed.")
         else triage)
  else triage.
End Route.
Arguments Response {A} a.
Arguments HTTPException {A} status_code detail.
End triage_route.

(** ** A reference model

    A model file holds one byte per class, the probability of the class in
    hundredths; the pipeline answers with these probabilities whatever the
    text. *)

Module reference_model.

Definition pipeline : PipelineLib := {|
  Pipeline := list Q;
  joblib_load data :=
    match data with
    | [] => None
    | _ => Some (map reference.unquantise data)
    end;
  pipeline_predict_proba p text := Some p;
|}.

(** A world for the triage route: the model file gives probabilities
    [0.1, 0.7, 0.2], the signing key of [scenario.trail] is on disk, the
    predictor has loaded nothing yet. *)
Definition world : @predictor.World reference.pyfhel pipeline := {|
  predictor.state :=
    scenario.world
      (<["/srv/models/caresense_model.pkl" := [x0a; x46; x14]%byte]>
         (fs scenario.with_signing_key));
  predictor._PREDICTOR := predictor.Predictor_new "/srv/models/caresense_model.pkl";
|}.

Definition service : @triage_service.TriageService reference.ed25519 :=
  {| triage_service._compliance := scenario.trail |}.

End reference_model.

(** ** Requests for the route [POST /triage] *)

Module requests.

(** The world after an enrolment, with the model file on disk. *)
Definition world : @predictor.World reference.pyfhel reference_model.pipeline := {|
  predictor.state :=
    set_fs (<["/srv/models/caresense_model.pkl" := [x0a; x46; x14]%byte]>
              (fs scenario.enrolled)) scenario.enrolled;
  predictor._PREDICTOR := predictor.Predictor_new "/srv/models/caresense_model.pkl";
|}.

(** The enrolled vector presented with its token. *)
Definition verified : triage_route.TriageRequest := {|
  triage_route.symptoms := "fever and cough";
  triage_route.biometric_token := Some scenario.token;
  triage_route.biometric_vector := Some scenario.v16;
|}.

(** A vector presented without a token. *)
Definition no_token : triage_route.TriageRequest := {|
  triage_route.symptoms := "fever and cough";
  triage_route.biometric_token := None;
  triage_route.biometric_vector := Some scenario.v16;
|}.

(** Another vector presented with the token. *)
Definition impostor : triage_route.TriageRequest := {|
  triage_route.symptoms := "fever and cough";
  triage_route.biometric_token := Some scenario.token;
  triage_route.biometric_vector := Some (repeat (9 # 10) 16);
|}.

Definition run_triage (request : triage_route.TriageRequest) :=
  @triage_route.run_triage reference.pyfhel reference_model.pipeline
    reference.fernet reference.ed25519 reference.json reference.os
    scenario.srv request reference_model.service scenario.service world.

End requests.

(** * Theorems *)

(** ** Bytes, text and paths *)

Lemma encode_utf8_inj s1 s2 : encode_utf8 s1 = encode_utf8 s2 → s1 = s2.
Proof.
  unfold encode_utf8. intros E.
  rewrite <- (string_of_list_byte_of_string s1), E.
  apply string_of_list_byte_of_string.
Qed.

Lemma decode_encode_utf8 s : decode_utf8 (encode_utf8 s) = s.
Proof. apply string_of_list_byte_of_string. Qed.

Lemma fromhex_hex b : Hex.fromhex (Hex.hex b) = Some b.
Proof.
  induction b as [|x b IH]; [reflexivity|].
  cbn [Hex.hex Hex.fromhex]. rewrite IH. clear IH.
  destruct x; reflexivity.
Qed.

Lemma hex_inj b1 b2 : Hex.hex b1 = Hex.hex b2 → b1 = b2.
Proof.
  intros E. assert (Some b1 = Some b2) as [=]; [|done].
  by rewrite <- !fromhex_hex, E.
Qed.

Example urlsafe_b64encode_Man :
  Base64.urlsafe_b64encode [x4d; x61; x6e]%byte = "TWFu"
  ∧ Base64.urlsafe_b64encode [x4d; x61]%byte = "TWE="
  ∧ Base64.urlsafe_b64encode [x4d]%byte = "TQ=="
  ∧ Base64.urlsafe_b64encode [xfb; xff]%byte = "-_8=".
Proof. repeat split; reflexivity. Qed.

Example with_suffix_audit_log :
  with_suffix "/srv/data/audit_logs.jsonl" ".ed25519" = "/srv/data/audit_logs.ed25519"
  ∧ with_suffix "data.d/.hidden" ".x" = "data.d/.hidden.x"
  ∧ with_suffix "a.tar.gz" ".x" = "a.tar.x".
Proof. repeat split; reflexivity. Qed.

(** ** The reference instances meet the universal laws *)

Lemma reference_fernet_correct : @FernetCorrect reference.fernet.
Proof.
  intros key r data. cbn.
  rewrite take_app_length, drop_app_length.
  by rewrite bool_decide_eq_true_2.
Qed.

Lemma reference_ed25519_correct : @Ed25519Correct reference.ed25519.
Proof. intros k data. cbn. by apply bool_decide_eq_true_2. Qed.

Lemma reference_ed25519_binding : @Ed25519Binding reference.ed25519.
Proof.
  intros k data data' E. cbn in E.
  apply bool_decide_eq_true_1 in E. symmetry. by eapply app_inv_head.
Qed.

Lemma reference_pem_faithful : @PemFaithful reference.ed25519.
Proof. by intros pk. Qed.

(** ** Effects *)

Section EffectFacts.
Context `{PyfhelLib}.

Lemma bind_ok {A B} (m : M A) (k : A → M B) st a st' :
  m st = (Ok a, st') → bind m k st = k a st'.
Proof. unfold bind. by intros ->. Qed.

Lemma bind_raise {A B} (m : M A) (k : A → M B) st e st' :
  m st = (Raise e, st') → bind m k st = (Raise e, st').
Proof. unfold bind. by intros ->. Qed.

Lemma bind_assoc {A B C} (m : M A) (f : A → M B) (g : B → M C) st :
  bind (bind m f) g st = bind m (λ a, bind (f a) g) st.
Proof. unfold bind. by destruct (m st) as [[a|e] st']. Qed.

Lemma bind_ext {A B} (m : M A) (f g : A → M B) st :
  (∀ a st', f a st' = g a st') → bind m f st = bind m g st.
Proof. intros E. unfold bind. destruct (m st) as [[a|e] st']; [apply E|done]. Qed.

Lemma path_exists_spec p st :
  path_exists p st = (Ok (bool_decide (is_Some (fs st !! p))), st).
Proof. reflexivity. Qed.

Lemma path_exists_Some p st data :
  fs st !! p = Some data → path_exists p st = (Ok true, st).
Proof.
  intros E. rewrite path_exists_spec, bool_decide_eq_true_2; [done|].
  by rewrite E.
Qed.

Lemma path_exists_None p st :
  fs st !! p = None → path_exists p st = (Ok false, st).
Proof.
  intros E. rewrite path_exists_spec, bool_decide_eq_false_2; [done|].
  rewrite E. by intros [? ?].
Qed.

Lemma read_bytes_Some p st data :
  fs st !! p = Some data → read_bytes p st = (Ok data, st).
Proof. unfold read_bytes, bind, gets. cbn. by intros ->. Qed.
End EffectFacts.

(** ** The encrypted object store *)

Section StoreFacts.
Context `{PyfhelLib, FernetLib, JsonLib}.
Variable self : secure_store.SecureStore.

Lemma read_absent name st :
  fs st !! secure_store._path_for self name = None →
  secure_store.read self name st = (Ok PyNone, st).
Proof.
  intros E. unfold secure_store.read.
  by rewrite (bind_ok _ _ _ _ _ (path_exists_None _ _ E)).
Qed.

Lemma read_present name st token :
  fs st !! secure_store._path_for self name = Some token →
  secure_store.read self name st =
    match Fernet_decrypt (secure_store._fernet self) token with
    | None => (Raise InvalidToken, st)
    | Some data =>
        match json_loads data with
        | None => (Raise JSONDecodeError, st)
        | Some payload => (Ok payload, st)
        end
    end.
Proof.
  intros E. unfold secure_store.read.
  rewrite (bind_ok _ _ _ _ _ (path_exists_Some _ _ _ E)). cbn [negb].
  rewrite (bind_ok _ _ _ _ _ (read_bytes_Some _ _ _ E)).
  destruct (Fernet_decrypt _ _) as [data|]; [|done].
  by destruct (json_loads data).
Qed.

(** [read] never changes the state. *)
Lemma read_state name st : (secure_store.read self name st).2 = st.
Proof.
  destruct (fs st !! secure_store._path_for self name) as [token|] eqn:E.
  - rewrite (read_present _ _ _ E).
    destruct (Fernet_decrypt _ _) as [data|]; [|done].
    by destruct (json_loads data).
  - by rewrite (read_absent _ _ E).
Qed.

Lemma write_spec name payload st :
  secure_store.write self name payload st =
    (Ok (secure_store._path_for self name),
     set_fs (<[secure_store._path_for self name :=
                 Fernet_encrypt (secure_store._fernet self) (entropy st)
                   (encode_utf8 (json_dumps false payload))]> (fs st))
            (set_entropy (S (entropy st)) st)).
Proof. reflexivity. Qed.
End StoreFacts.

(** [SecureStore()] on a disk that holds the master key [key1] builds the
    store of the scenario. *)
Example SecureStore_new_loads_key :
  let disk := scenario.world
                {[ "/srv/data/encrypted/.master.key" := encode_utf8 "key1" ]} in
  @secure_store.SecureStore_new reference.pyfhel reference.fernet scenario.srv None disk
  = (Ok scenario.store, disk).
Proof. vm_compute. reflexivity. Qed.

(** C6. Writing [payload] under [name] and then reading [name] returns
    [payload] itself, for every payload that the [json] module reads back
    as written and a cipher that decrypts what it encrypts; reading a name
    under which no record is stored returns Python's [None] and raises
    nothing. *)
Theorem write_then_read `{PyfhelLib, FernetLib, JsonLib}
    (self : secure_store.SecureStore) (name : string) (payload : pyval) (st : State) :
  FernetCorrect →
  JsonFaithful false payload →
  (∃ st1,
      secure_store.write self name payload st
        = (Ok (secure_store._path_for self name), st1)
      ∧ secure_store.read self name st1 = (Ok payload, st1))
  ∧ (∀ name0 st0,
      fs st0 !! secure_store._path_for self name0 = None →
      secure_store.read self name0 st0 = (Ok PyNone, st0)).
Proof.
  intros Hfernet Hjson. split; [|apply read_absent].
  eexists. split; [apply write_spec|].
  erewrite read_present; [|cbn; apply lookup_insert_eq].
  by rewrite Hfernet, Hjson.
Qed.

(** A run of [write_then_read] on the reference instances. *)
Lemma write_then_read_witness :
  @FernetCorrect reference.fernet
  ∧ @JsonFaithful reference.json false (scenario.event 1)
  ∧ ((∃ st1,
        @secure_store.write reference.pyfhel reference.fernet reference.json
          scenario.store "note" (scenario.event 1) scenario.fresh
          = (Ok "/srv/data/encrypted/note.bin", st1)
        ∧ @secure_store.read reference.pyfhel reference.fernet reference.json
            scenario.store "note" st1 = (Ok (scenario.event 1), st1))
     ∧ (∀ name0 st0,
          fs st0 !! secure_store._path_for scenario.store name0 = None →
          @secure_store.read reference.pyfhel reference.fernet reference.json
            scenario.store name0 st0 = (Ok PyNone, st0))).
Proof.
  assert (Hj : @JsonFaithful reference.json false (scenario.event 1))
    by (vm_compute; reflexivity).
  split; [apply reference_fernet_correct|]. split; [exact Hj|].
  exact (@write_then_read reference.pyfhel reference.fernet reference.json
           scenario.store "note" (scenario.event 1) scenario.fresh
           reference_fernet_correct Hj).
Defined.

(** C5 (as amended). When the record of [name] exists and its bytes fail
    authenticated decryption, [read] returns no value at all (neither
    [None], nor a default, nor garbage) and leaves the state as it was: it
    raises, and what it raises is the cipher library's own [InvalidToken],
    unwrapped; it is not an [IntegrityFailure]. *)
Theorem read_tampered_raises_InvalidToken `{PyfhelLib, FernetLib, JsonLib}
    (self : secure_store.SecureStore) (name : string) (st : State) (token : bytes) :
  fs st !! secure_store._path_for self name = Some token →
  Fernet_decrypt (secure_store._fernet self) token = None →
  secure_store.read self name st = (Raise InvalidToken, st)
  ∧ (∀ v, (secure_store.read self name st).1 ≠ Ok v)
  ∧ (secure_store.read self name st).1 ≠ Raise IntegrityFailure.
Proof.
  intros Hfile Hdec.
  assert (E : secure_store.read self name st = (Raise InvalidToken, st))
    by (by rewrite (read_present _ _ _ _ Hfile), Hdec).
  rewrite E. by repeat split.
Qed.

(** A run of [read_tampered_raises_InvalidToken]: the record of the token
    [tok] holds the bytes of [garbage]. *)
Lemma read_tampered_raises_InvalidToken_witness :
  fs scenario.corrupted !! secure_store._path_for scenario.store "biometric_tok"
    = Some (encode_utf8 "garbage")
  ∧ @Fernet_decrypt reference.fernet (encode_utf8 "key1") (encode_utf8 "garbage") = None
  ∧ (@secure_store.read reference.pyfhel reference.fernet reference.json
       scenario.store "biometric_tok" scenario.corrupted
     = (Raise InvalidToken, scenario.corrupted)
     ∧ (∀ v, (@secure_store.read reference.pyfhel reference.fernet reference.json
                scenario.store "biometric_tok" scenario.corrupted).1 ≠ Ok v)
     ∧ (@secure_store.read reference.pyfhel reference.fernet reference.json
          scenario.store "biometric_tok" scenario.corrupted).1 ≠ Raise IntegrityFailure).
Proof.
  assert (Hfile : fs scenario.corrupted
                    !! secure_store._path_for scenario.store "biometric_tok"
                  = Some (encode_utf8 "garbage")) by (vm_compute; reflexivity).
  assert (Hdec : @Fernet_decrypt reference.fernet (encode_utf8 "key1")
                   (encode_utf8 "garbage") = None) by (vm_compute; reflexivity).
  split; [exact Hfile|]. split; [exact Hdec|].
  exact (@read_tampered_raises_InvalidToken reference.pyfhel reference.fernet
           reference.json scenario.store "biometric_tok" scenario.corrupted
           (encode_utf8 "garbage") Hfile Hdec).
Defined.

(** C5, as stated, fails: on a record whose bytes fail authenticated
    decryption, what leaves [read] is the raw [InvalidToken] of the cipher
    library, not an [IntegrityFailure]. *)
Lemma read_tampered_counterexample :
  fs scenario.corrupted !! secure_store._path_for scenario.store "biometric_tok"
    = Some (encode_utf8 "garbage")
  ∧ @Fernet_decrypt reference.fernet (encode_utf8 "key1") (encode_utf8 "garbage") = None
  ∧ (@secure_store.read reference.pyfhel reference.fernet reference.json
       scenario.store "biometric_tok" scenario.corrupted).1 = Raise InvalidToken
  ∧ (@secure_store.read reference.pyfhel reference.fernet reference.json
       scenario.store "biometric_tok" scenario.corrupted).1 ≠ Raise IntegrityFailure.
Proof. repeat split; try (vm_compute; reflexivity). vm_compute. discriminate. Qed.

(** ** The encryption context manager *)

Section FheFacts.
Context `{PyfhelLib}.
Variable settings : Settings.

Lemma context_files_exist_spec st :
  fhe._context_files_exist settings st =
    (Ok (bool_decide (is_Some (fs st !! biometric_fhe_context settings))
         && bool_decide (is_Some (fs st !! biometric_fhe_secret settings))), st).
Proof.
  unfold fhe._context_files_exist, bind. rewrite path_exists_spec.
  by destruct (bool_decide _).
Qed.

Lemma initialise_initialised st :
  _initialised (_FHE_CONTEXT st) = true →
  fhe.initialise settings st = (Ok tt, st).
Proof. intros E. unfold fhe.initialise, bind. cbn [gets]. by rewrite E. Qed.

Lemma initialise_generate st :
  _initialised (_FHE_CONTEXT st) = false →
  fs st !! biometric_fhe_context settings = None
    ∨ fs st !! biometric_fhe_secret settings = None →
  fhe.initialise settings st = (Ok tt, regenerated settings st).
Proof.
  intros Hinit Hfiles. unfold fhe.initialise.
  unfold bind at 1. cbn [gets]. rewrite Hinit.
  unfold bind at 1. rewrite context_files_exist_spec.
  replace (_ && _) with false; [reflexivity|].
  symmetry. apply andb_false_iff.
  destruct Hfiles as [E|E]; [left|right];
    apply bool_decide_eq_false_2; rewrite E; by intros [? ?].
Qed.

Lemma initialise_load st c s :
  _initialised (_FHE_CONTEXT st) = false →
  fs st !! biometric_fhe_context settings = Some c →
  fs st !! biometric_fhe_secret settings = Some s →
  fhe.initialise settings st =
    match he_load_context (_he (_FHE_CONTEXT st)) c with
    | None => (Raise RuntimeError, st)
    | Some he1 =>
        match he_load_secret_key he1 s with
        | None =>
            (Raise RuntimeError, set_fhe {| _he := he1; _initialised := false |} st)
        | Some he2 =>
            (Ok tt, set_fhe {| _he := he2; _initialised := true |} st)
        end
    end.
Proof.
  intros Hinit Hc Hs. unfold fhe.initialise.
  unfold bind at 1. cbn [gets]. rewrite Hinit.
  unfold bind at 1. rewrite context_files_exist_spec.
  rewrite !bool_decide_eq_true_2 by (by rewrite ?Hc, ?Hs). cbn [andb].
  unfold fhe.load_with, fhe.update_he, bind, gets, modify, read_bytes, ret, raise.
  cbn. rewrite Hc.
  destruct (he_load_context _ c) as [he1|]; [|done].
  cbn. rewrite Hs, Hinit. cbn.
  by destruct (he_load_secret_key he1 s) as [he2|].
Qed.

(** The three cases of [initialise] in one statement. *)
Lemma initialise_cases st :
  fhe.initialise settings st = (Ok tt, st) ∧ _initialised (_FHE_CONTEXT st) = true
  ∨ fhe.initialise settings st = (Ok tt, regenerated settings st)
  ∨ ∃ (he1 : Pyfhel) (ini : bool),
      fhe.initialise settings st
        = (if ini then Ok tt else Raise RuntimeError,
           set_fhe {| _he := he1; _initialised := ini |} st)
      ∧ (ini = false → _initialised (_FHE_CONTEXT st) = false).
Proof.
  destruct (_initialised (_FHE_CONTEXT st)) eqn:Hinit.
  { left. by rewrite initialise_initialised. }
  right.
  destruct (fs st !! biometric_fhe_context settings) as [c|] eqn:Hc;
    [|left; apply initialise_generate; auto].
  destruct (fs st !! biometric_fhe_secret settings) as [s|] eqn:Hs;
    [|left; apply initialise_generate; auto].
  right. rewrite (initialise_load _ _ _ Hinit Hc Hs).
  destruct (he_load_context _ c) as [he1|].
  - destruct (he_load_secret_key he1 s) as [he2|].
    + by exists he2, true.
    + by exists he1, false.
  - exists (_he (_FHE_CONTEXT st)), false. split; [|done].
    f_equal. destruct st as [? ? ? [? ?]]. cbn in *. by subst.
Qed.

Lemma initialise_ok_initialised st st1 :
  fhe.initialise settings st = (Ok tt, st1) →
  _initialised (_FHE_CONTEXT st1) = true.
Proof.
  destruct (initialise_cases st) as [[-> ?]|[->|(he1 & ini & -> & ?)]].
  - by intros [= <-].
  - by intros [= <-].
  - destruct ini; [by intros [= <-]|done].
Qed.

Lemma he_initialised st :
  _initialised (_FHE_CONTEXT st) = true →
  fhe.he settings st = (Ok (_he (_FHE_CONTEXT st)), st).
Proof. intros E. unfold fhe.he, bind. cbn [gets]. by rewrite E. Qed.

(** [he] initialises when needed and returns the object of the state it
    leaves. *)
Lemma he_spec st :
  fhe.he settings st =
    match fhe.initialise settings st with
    | (Ok _, st1) => (Ok (_he (_FHE_CONTEXT st1)), st1)
    | (Raise e, st1) => (Raise e, st1)
    end.
Proof.
  destruct (_initialised (_FHE_CONTEXT st)) eqn:E.
  - by rewrite he_initialised, initialise_initialised.
  - unfold fhe.he, bind at 1. cbn [gets]. rewrite E.
    unfold bind. by destruct (fhe.initialise settings st) as [[[]|e] st1].
Qed.

Lemma he_ok st he_ st1 :
  fhe.he settings st = (Ok he_, st1) →
  _initialised (_FHE_CONTEXT st1) = true ∧ he_ = _he (_FHE_CONTEXT st1).
Proof.
  rewrite he_spec.
  destruct (fhe.initialise settings st) as [[[]|e] st'] eqn:E; [|done].
  intros [= <- <-]. split; [|done]. by eapply initialise_ok_initialised.
Qed.
End FheFacts.

(** C8 (as amended). The context file and the secret-key file are loaded
    only as a pair: on a context not yet initialised, when both files exist
    [initialise] loads the context file and then the secret-key file and
    writes nothing; when one of them is missing (exactly one on disk, or
    none) it loads neither and does not fail: it generates parameters and
    keys and writes both files, replacing the one that existed.  In no case
    does it raise [ConfigurationError]. *)
Theorem initialise_loads_pair_or_regenerates `{PyfhelLib}
    (settings : Settings) (st : State) :
  _initialised (_FHE_CONTEXT st) = false →
  (∀ c s,
      fs st !! biometric_fhe_context settings = Some c →
      fs st !! biometric_fhe_secret settings = Some s →
      fhe.initialise settings st =
        match he_load_context (_he (_FHE_CONTEXT st)) c with
        | None => (Raise RuntimeError, st)
        | Some he1 =>
            match he_load_secret_key he1 s with
            | None =>
                (Raise RuntimeError, set_fhe {| _he := he1; _initialised := false |} st)
            | Some he2 =>
                (Ok tt, set_fhe {| _he := he2; _initialised := true |} st)
            end
        end)
  ∧ (fs st !! biometric_fhe_context settings = None
       ∨ fs st !! biometric_fhe_secret settings = None →
     fhe.initialise settings st = (Ok tt, regenerated settings st))
  ∧ (fhe.initialise settings st).1 ≠ Raise ConfigurationError.
Proof.
  intros Hinit. split; [|split].
  - intros c s. by apply initialise_load.
  - by apply initialise_generate.
  - destruct (initialise_cases settings st) as [[-> ?]|[->|(he1 & ini & -> & ?)]];
      [done|done|by destruct ini].
Qed.

(** A run of [initialise_loads_pair_or_regenerates]: the secret-key file
    alone is on disk, and [initialise] generates. *)
Lemma initialise_loads_pair_or_regenerates_witness :
  _initialised (_FHE_CONTEXT scenario.secret_only) = false
  ∧ @fhe.initialise reference.pyfhel scenario.srv scenario.secret_only
    = (Ok tt, @regenerated reference.pyfhel scenario.srv scenario.secret_only).
Proof.
  split; [reflexivity|].
  apply (@initialise_loads_pair_or_regenerates reference.pyfhel scenario.srv
           scenario.secret_only eq_refl).
  left. vm_compute. reflexivity.
Defined.

(** C8, as stated, fails: with the secret-key file alone on disk,
    [initialise] raises nothing and replaces the key in that file by a
    fresh one. *)
Lemma initialise_one_file_counterexample :
  fs scenario.secret_only !! biometric_fhe_context scenario.srv = None
  ∧ fs scenario.secret_only !! biometric_fhe_secret scenario.srv
    = Some (encode_utf8 "old-secret-key")
  ∧ (@fhe.initialise reference.pyfhel scenario.srv scenario.secret_only).1 = Ok tt
  ∧ fs (@fhe.initialise reference.pyfhel scenario.srv scenario.secret_only).2
      !! biometric_fhe_secret scenario.srv
    = Some [x00; x00; x00; x00]%byte.
Proof. repeat split; vm_compute; reflexivity. Qed.

(** C9. [initialise] is idempotent: after a call that succeeded, a further
    call returns at once and leaves the whole state (the Pyfhel object, the
    files, the randomness consumed) as it is; two calls in sequence are one
    call. *)
Theorem initialise_idempotent `{PyfhelLib} (settings : Settings) (st st1 : State) :
  fhe.initialise settings st = (Ok tt, st1) →
  fhe.initialise settings st1 = (Ok tt, st1)
  ∧ (fhe.initialise settings;;; fhe.initialise settings) st
    = fhe.initialise settings st.
Proof.
  intros E.
  assert (E1 : fhe.initialise settings st1 = (Ok tt, st1))
    by (apply initialise_initialised; by eapply initialise_ok_initialised).
  split; [exact E1|].
  by rewrite (bind_ok _ _ _ _ _ E), E.
Qed.

(** A run of [initialise_idempotent] from an empty disk. *)
Lemma initialise_idempotent_witness :
  @fhe.initialise reference.pyfhel scenario.srv scenario.fresh
    = (Ok tt, @regenerated reference.pyfhel scenario.srv scenario.fresh)
  ∧ (@fhe.initialise reference.pyfhel scenario.srv
       (@regenerated reference.pyfhel scenario.srv scenario.fresh)
     = (Ok tt, @regenerated reference.pyfhel scenario.srv scenario.fresh)
     ∧ (@fhe.initialise reference.pyfhel scenario.srv;;;
        @fhe.initialise reference.pyfhel scenario.srv) scenario.fresh
       = @fhe.initialise reference.pyfhel scenario.srv scenario.fresh).
Proof.
  assert (E : @fhe.initialise reference.pyfhel scenario.srv scenario.fresh
              = (Ok tt, @regenerated reference.pyfhel scenario.srv scenario.fresh))
    by (vm_compute; reflexivity).
  split; [exact E|].
  exact (@initialise_idempotent reference.pyfhel scenario.srv scenario.fresh _ E).
Defined.

(** ** Biometric verification *)

Section VerifyFacts.
Context `{PyfhelLib, FernetLib, JsonLib}.
Variable settings : Settings.
Variable self : auth_service.BiometricAuthService.

Lemma verify_split token_id presented tolerance st :
  auth_service.verify settings self token_id presented tolerance st =
    (baseline <- stored_baseline settings self token_id;;
     match baseline with
     | None => ret false
     | Some b => compare b presented tolerance
     end) st.
Proof.
  unfold auth_service.verify, stored_baseline.
  rewrite bind_assoc. apply bind_ext. intros record st1.
  destruct (negb (truthy record)); [done|].
  repeat (rewrite bind_assoc; apply bind_ext; intros ? ?).
  reflexivity.
Qed.

Lemma verify_absent token_id presented tolerance st :
  fs st !! secure_store._path_for (auth_service._store self) ("biometric_" ++ token_id)
    = None →
  auth_service.verify settings self token_id presented tolerance st = (Ok false, st).
Proof.
  intros E. unfold auth_service.verify.
  by rewrite (bind_ok _ _ _ _ _ (read_absent _ _ _ E)).
Qed.

Lemma verify_tampered token_id presented tolerance st token :
  fs st !! secure_store._path_for (auth_service._store self) ("biometric_" ++ token_id)
    = Some token →
  Fernet_decrypt (secure_store._fernet (auth_service._store self)) token = None →
  auth_service.verify settings self token_id presented tolerance st
    = (Raise InvalidToken, st).
Proof.
  intros Hfile Hdec. unfold auth_service.verify.
  erewrite bind_raise; [done|].
  by rewrite (read_present _ _ _ _ Hfile), Hdec.
Qed.
End VerifyFacts.

(** C1 (as amended). [verify] is fail-closed on an absent record and on a
    length mismatch: when no record is stored for the token it returns
    [False], raises nothing and leaves the state as it is; when the stored
    baseline decrypts to a vector whose length differs from that of the
    presented vector it returns [False] and raises nothing.  It catches no
    exception: one raised while the record is read and the baseline
    decrypted leaves [verify] as it is, and on a record whose bytes fail
    authenticated decryption that exception is [InvalidToken]. *)
Theorem verify_fail_closed `{PyfhelLib, FernetLib, JsonLib}
    (settings : Settings) (self : auth_service.BiometricAuthService)
    (token_id : string) (presented : list Q) (tolerance : Q) (st : State) :
  (fs st !! secure_store._path_for (auth_service._store self) ("biometric_" ++ token_id)
     = None →
   auth_service.verify settings self token_id presented tolerance st = (Ok false, st))
  ∧ (∀ baseline st',
       stored_baseline settings self token_id st = (Ok (Some baseline), st') →
       length baseline ≠ length presented →
       auth_service.verify settings self token_id presented tolerance st
         = (Ok false, st'))
  ∧ (∀ e st',
       stored_baseline settings self token_id st = (Raise e, st') →
       auth_service.verify settings self token_id presented tolerance st
         = (Raise e, st'))
  ∧ (∀ token,
       fs st !! secure_store._path_for (auth_service._store self) ("biometric_" ++ token_id)
         = Some token →
       Fernet_decrypt (secure_store._fernet (auth_service._store self)) token = None →
       auth_service.verify settings self token_id presented tolerance st
         = (Raise InvalidToken, st)).
Proof.
  split; [apply verify_absent|]. split; [|split].
  - intros baseline st' E Hlen. rewrite verify_split, (bind_ok _ _ _ _ _ E).
    unfold compare. apply Nat.eqb_neq in Hlen. by rewrite Hlen.
  - intros e st' E. by rewrite verify_split, (bind_raise _ _ _ _ _ E).
  - apply verify_tampered.
Qed.

(** A run of [verify_fail_closed]: in the state after an enrolment, a token
    never issued, and the issued token presented with an empty vector. *)
Lemma verify_fail_closed_witness :
  (fs scenario.enrolled
     !! secure_store._path_for scenario.store ("biometric_" ++ "nonexistent") = None
   ∧ @auth_service.verify reference.pyfhel reference.fernet reference.json
       scenario.srv scenario.service "nonexistent" scenario.v16 (1 # 10) scenario.enrolled
     = (Ok false, scenario.enrolled))
  ∧ (@stored_baseline reference.pyfhel reference.fernet reference.json
       scenario.srv scenario.service scenario.token scenario.enrolled
     = (Ok (Some scenario.baseline16), scenario.enrolled)
     ∧ length scenario.baseline16 ≠ length (@nil Q)
     ∧ @auth_service.verify reference.pyfhel reference.fernet reference.json
         scenario.srv scenario.service scenario.token [] (1 # 10) scenario.enrolled
       = (Ok false, scenario.enrolled)).
Proof.
  pose proof (@verify_fail_closed reference.pyfhel reference.fernet reference.json
                scenario.srv scenario.service "nonexistent" scenario.v16 (1 # 10)
                scenario.enrolled) as (Habsent & _).
  pose proof (@verify_fail_closed reference.pyfhel reference.fernet reference.json
                scenario.srv scenario.service scenario.token [] (1 # 10)
                scenario.enrolled) as (_ & Hlength & _).
  assert (E1 : fs scenario.enrolled
                 !! secure_store._path_for scenario.store ("biometric_" ++ "nonexistent")
               = None) by (vm_compute; reflexivity).
  assert (E2 : @stored_baseline reference.pyfhel reference.fernet reference.json
                 scenario.srv scenario.service scenario.token scenario.enrolled
               = (Ok (Some scenario.baseline16), scenario.enrolled))
    by (vm_compute; reflexivity).
  assert (E3 : length scenario.baseline16 ≠ length (@nil Q)) by (cbn; lia).
  split; [split; [exact E1|exact (Habsent E1)]|].
  split; [exact E2|]. split; [exact E3|exact (Hlength _ _ E2 E3)].
Defined.

(** C1, as stated, fails: a record is stored for the token [tok], its bytes
    fail authenticated decryption, and [InvalidToken] escapes [verify]. *)
Lemma verify_raises_counterexample :
  fs scenario.corrupted
    !! secure_store._path_for scenario.store ("biometric_" ++ "tok")
    = Some (encode_utf8 "garbage")
  ∧ (@auth_service.verify reference.pyfhel reference.fernet reference.json
       scenario.srv scenario.service "tok" scenario.v16 (1 # 10) scenario.corrupted).1
    = Raise InvalidToken.
Proof. split; vm_compute; reflexivity. Qed.

(** ** The distance *)

Lemma fold_left_Qplus (l : list Q) (a : Q) : (fold_left Qplus l a == a + Qsum l)%Q.
Proof.
  revert a. induction l as [|x l IH]; intros a; unfold Qsum;
    cbn [fold_left fold_right].
  - ring.
  - rewrite IH. unfold Qsum. ring.
Qed.

Lemma map_abs_combine (baseline presented : list Q) :
  map (λ '(base, p), Qabs (base - p)) (combine baseline presented)
  = abs_differences baseline presented.
Proof.
  revert presented. induction baseline as [|b baseline IH]; intros [|p presented];
    cbn; [done..|]. by rewrite IH.
Qed.

(** The sum computed by [verify] is the sum of the specification. *)
Lemma sum_abs_diff_spec (baseline presented : list Q) :
  (auth_service.sum_abs_diff baseline presented
   == Qsum (abs_differences baseline presented))%Q.
Proof.
  unfold auth_service.sum_abs_diff.
  rewrite fold_left_Qplus, map_abs_combine. ring.
Qed.

(** Differences bounded by [eps] sum to at most [eps] per element. *)
Lemma Qsum_within (eps : Q) (baseline presented : list Q) :
  within eps baseline presented →
  (Qsum (abs_differences baseline presented)
   <= eps * inject_Z (Z.of_nat (length baseline)))%Q.
Proof.
  induction 1 as [|b p baseline presented Hbp _ IH].
  - cbn. unfold Qle. cbn. lia.
  - cbn [abs_differences Qsum fold_right length].
    rewrite Nat2Z.inj_succ, <- Z.add_1_r, inject_Z_plus.
    change (inject_Z 1) with 1%Q.
    setoid_replace (eps * (inject_Z (Z.of_nat (length baseline)) + 1))%Q
      with (eps + eps * inject_Z (Z.of_nat (length baseline)))%Q
      using relation Qeq by ring.
    by apply Qplus_le_compat.
Qed.

Lemma compare_same_length (baseline presented : list Q) (tolerance : Q) `{PyfhelLib} st :
  baseline ≠ [] →
  length baseline = length presented →
  compare baseline presented tolerance st
  = (Ok (Qle_bool (auth_service.sum_abs_diff baseline presented
                   / inject_Z (Z.of_nat (length baseline))) tolerance), st).
Proof.
  intros Hne Hlen. unfold compare. rewrite Hlen, Nat.eqb_refl. cbn [negb].
  unfold auth_service.div_len.
  destruct presented as [|p presented]; [by destruct baseline|].
  reflexivity.
Qed.

(** C2. For a token whose stored baseline decrypts to a non-empty vector of
    the length of the presented vector, [verify] returns a boolean, which is
    [True] exactly when the mean of the absolute element-wise differences
    between baseline and presented vector is at most the tolerance
    (equality included). *)
Theorem verify_iff_mean_within_tolerance `{PyfhelLib, FernetLib, JsonLib}
    (settings : Settings) (self : auth_service.BiometricAuthService)
    (token_id : string) (presented : list Q) (tolerance : Q)
    (st st' : State) (baseline : list Q) :
  stored_baseline settings self token_id st = (Ok (Some baseline), st') →
  baseline ≠ [] →
  length baseline = length presented →
  ∃ ok : bool,
    auth_service.verify settings self token_id presented tolerance st = (Ok ok, st')
    ∧ (ok = true ↔ (mean_abs_difference baseline presented <= tolerance)%Q).
Proof.
  intros E Hne Hlen. eexists. split.
  - rewrite verify_split, (bind_ok _ _ _ _ _ E). by apply compare_same_length.
  - rewrite Qle_bool_iff. unfold mean_abs_difference.
    by rewrite sum_abs_diff_spec.
Qed.

(** A run of [verify_iff_mean_within_tolerance]: the enrolled token of the
    scenario, presented with [[0.1]*15 + [0.9]] under tolerance [0.1]. *)
Lemma verify_iff_mean_within_tolerance_witness :
  @stored_baseline reference.pyfhel reference.fernet reference.json
    scenario.srv scenario.service scenario.token scenario.enrolled
  = (Ok (Some scenario.baseline16), scenario.enrolled)
  ∧ scenario.baseline16 ≠ []
  ∧ length scenario.baseline16 = length scenario.v16_last
  ∧ ∃ ok : bool,
      @auth_service.verify reference.pyfhel reference.fernet reference.json
        scenario.srv scenario.service scenario.token scenario.v16_last (1 # 10)
        scenario.enrolled = (Ok ok, scenario.enrolled)
      ∧ (ok = true
         ↔ (mean_abs_difference scenario.baseline16 scenario.v16_last <= 1 # 10)%Q).
Proof.
  assert (E : @stored_baseline reference.pyfhel reference.fernet reference.json
                scenario.srv scenario.service scenario.token scenario.enrolled
              = (Ok (Some scenario.baseline16), scenario.enrolled))
    by (vm_compute; reflexivity).
  assert (Hne : scenario.baseline16 ≠ []) by discriminate.
  assert (Hlen : length scenario.baseline16 = length scenario.v16_last)
    by reflexivity.
  split; [exact E|]. split; [exact Hne|]. split; [exact Hlen|].
  exact (@verify_iff_mean_within_tolerance reference.pyfhel reference.fernet
           reference.json scenario.srv scenario.service scenario.token
           scenario.v16_last (1 # 10) scenario.enrolled scenario.enrolled
           scenario.baseline16 E Hne Hlen).
Defined.

(** The scenario of the specification, run: enrol [[0.1]*16]; the same
    vector verifies; [[0.1]*15 + [0.9]], at mean distance [0.05], verifies
    under tolerance [0.1], under tolerance [0.05] (the boundary) and not
    under tolerance [0.01]. *)
Example verify_scenario :
  (@auth_service.enrol reference.pyfhel reference.fernet reference.json reference.os
     scenario.srv scenario.service scenario.v16 scenario.fresh).1
  = Ok {| auth_service.token_id := scenario.token;
          auth_service.ciphertext := "0a0a0a0a0a0a0a0a0a0a0a0a0a0a0a0a" |}
  ∧ (mean_abs_difference scenario.baseline16 scenario.v16_last == 5 # 100)%Q
  ∧ (@auth_service.verify reference.pyfhel reference.fernet reference.json
       scenario.srv scenario.service scenario.token scenario.v16 (1 # 10)
       scenario.enrolled).1 = Ok true
  ∧ (@auth_service.verify reference.pyfhel reference.fernet reference.json
       scenario.srv scenario.service scenario.token scenario.v16_last (1 # 10)
       scenario.enrolled).1 = Ok true
  ∧ (@auth_service.verify reference.pyfhel reference.fernet reference.json
       scenario.srv scenario.service scenario.token scenario.v16_last (5 # 100)
       scenario.enrolled).1 = Ok true
  ∧ (@auth_service.verify reference.pyfhel reference.fernet reference.json
       scenario.srv scenario.service scenario.token scenario.v16_last (1 # 100)
       scenario.enrolled).1 = Ok false.
Proof. repeat split; vm_compute; reflexivity. Qed.

(** ** What [verify] writes *)

Section Frame.
Context `{PyfhelLib, FernetLib, JsonLib}.
Variable settings : Settings.

Lemma same_files_refl st : same_files_but_fhe settings st st.
Proof. by intros p _ _. Qed.

Lemma same_files_trans st1 st2 st3 :
  same_files_but_fhe settings st1 st2 → same_files_but_fhe settings st2 st3 →
  same_files_but_fhe settings st1 st3.
Proof. intros H12 H23 p Hc Hs. by rewrite H23, H12. Qed.

Lemma writes_bind {A B} (m : M A) (k : A → M B) :
  writes_fhe_only settings m → (∀ a, writes_fhe_only settings (k a)) →
  writes_fhe_only settings (bind m k).
Proof.
  intros Hm Hk st. unfold bind. specialize (Hm st).
  destruct (m st) as [[a|e] st1]; [|done].
  eapply same_files_trans; [exact Hm|apply Hk].
Qed.

Lemma writes_ret {A} (a : A) : writes_fhe_only settings (ret a).
Proof. intros st. apply same_files_refl. Qed.

Lemma writes_lift {A} (r : result A) : writes_fhe_only settings (lift r).
Proof. intros st. apply same_files_refl. Qed.

Lemma writes_read (store : secure_store.SecureStore) name :
  writes_fhe_only settings (secure_store.read store name).
Proof. intros st. rewrite read_state. apply same_files_refl. Qed.

Lemma writes_initialise : writes_fhe_only settings (fhe.initialise settings).
Proof.
  intros st.
  destruct (initialise_cases settings st) as [[-> ?]|[->|(he1 & ini & -> & ?)]].
  - apply same_files_refl.
  - intros p Hc Hs. cbn. by rewrite !lookup_insert_ne.
  - by intros p _ _.
Qed.

Lemma writes_he : writes_fhe_only settings (fhe.he settings).
Proof.
  intros st. rewrite he_spec. pose proof (writes_initialise st) as Hi.
  by destruct (fhe.initialise settings st) as [[[]|e] st1].
Qed.

Lemma writes_decrypt_vector c :
  writes_fhe_only settings (fhe.decrypt_vector settings c).
Proof.
  apply writes_bind; [apply writes_he|]. intros he_.
  destruct (he_decrypt he_ c); intros st; apply same_files_refl.
Qed.

Lemma writes_verify self token_id presented tolerance :
  writes_fhe_only settings
    (auth_service.verify settings self token_id presented tolerance).
Proof.
  unfold auth_service.verify.
  apply writes_bind; [apply writes_read|]. intros record.
  destruct (negb (truthy record)); [apply writes_ret|].
  repeat (apply writes_bind;
          [first [apply writes_lift | apply writes_he | apply writes_decrypt_vector]|];
          intros ?).
  destruct (negb _); [apply writes_ret|].
  apply writes_bind; [apply writes_lift|]. intros ?. apply writes_ret.
Qed.
End Frame.

(** C10. [verify] is read-only on the encrypted object store.  The only
    files a call may write are the two files of the encryption context
    (when the call is the first use of the context); the records of the
    store are none of these, so whatever [verify] returns or raises, a
    record is stored under a name after the call exactly when it was
    before, with the same bytes, the record of the token included. *)
Theorem verify_leaves_store_unchanged `{PyfhelLib, FernetLib, JsonLib}
    (settings : Settings) (self : auth_service.BiometricAuthService)
    (token_id : string) (presented : list Q) (tolerance : Q) (st : State) :
  (∀ name,
      secure_store._path_for (auth_service._store self) name
        ≠ biometric_fhe_context settings
      ∧ secure_store._path_for (auth_service._store self) name
        ≠ biometric_fhe_secret settings) →
  ∀ name,
    fs (auth_service.verify settings self token_id presented tolerance st).2
      !! secure_store._path_for (auth_service._store self) name
    = fs st !! secure_store._path_for (auth_service._store self) name.
Proof.
  intros Hpaths name. destruct (Hpaths name) as [Hc Hs].
  by apply writes_verify.
Qed.

Lemma string_app_assoc (s1 s2 s3 : string) : (s1 ++ s2) ++ s3 = s1 ++ (s2 ++ s3).
Proof.
  induction s1 as [|c s1 IH]; [done|].
  change (String c ((s1 ++ s2) ++ s3) = String c (s1 ++ (s2 ++ s3))). by f_equal.
Qed.

(** With the default settings, whatever the base directory, no record of a
    store on [encrypted_storage_dir] is a file of the encryption context. *)
Lemma default_paths_apart `{FernetLib} (BASE_DIR : string)
    (store : secure_store.SecureStore) (name : string) :
  secure_store._storage_dir store = encrypted_storage_dir (default_settings BASE_DIR) →
  secure_store._path_for store name ≠ biometric_fhe_context (default_settings BASE_DIR)
  ∧ secure_store._path_for store name ≠ biometric_fhe_secret (default_settings BASE_DIR).
Proof.
  intros E. unfold secure_store._path_for. rewrite E.
  unfold default_settings, path_div.
  cbn [encrypted_storage_dir biometric_fhe_context biometric_fhe_secret].
  rewrite !string_app_assoc.
  split; intros Heq; apply String.app_inj in Heq; cbn in Heq; discriminate.
Qed.

(** A run of [verify_leaves_store_unchanged]: a new process, the files of
    the encryption context lost, verifies the enrolled token. *)
Lemma verify_leaves_store_unchanged_witness :
  (∀ name,
      secure_store._path_for (auth_service._store scenario.service) name
        ≠ biometric_fhe_context scenario.srv
      ∧ secure_store._path_for (auth_service._store scenario.service) name
        ≠ biometric_fhe_secret scenario.srv)
  ∧ ∀ name,
      fs (@auth_service.verify reference.pyfhel reference.fernet reference.json
            scenario.srv scenario.service scenario.token scenario.v16 (1 # 10)
            scenario.keys_lost).2
        !! secure_store._path_for (auth_service._store scenario.service) name
      = fs scenario.keys_lost
          !! secure_store._path_for (auth_service._store scenario.service) name.
Proof.
  assert (Hpaths : ∀ name,
            secure_store._path_for (auth_service._store scenario.service) name
              ≠ biometric_fhe_context scenario.srv
            ∧ secure_store._path_for (auth_service._store scenario.service) name
              ≠ biometric_fhe_secret scenario.srv)
    by (intros name; by apply (@default_paths_apart reference.fernet "/srv")).
  split; [exact Hpaths|].
  exact (@verify_leaves_store_unchanged reference.pyfhel reference.fernet
           reference.json scenario.srv scenario.service scenario.token
           scenario.v16 (1 # 10) scenario.keys_lost Hpaths).
Defined.

(** After a restart of the process on the disk left by the enrolment,
    [verify] loads the two files of the context and accepts the vector. *)
Example verify_after_restart :
  (@auth_service.verify reference.pyfhel reference.fernet reference.json
     scenario.srv scenario.service scenario.token scenario.v16 (1 # 10)
     scenario.restarted).1 = Ok true
  ∧ fs (@auth_service.verify reference.pyfhel reference.fernet reference.json
          scenario.srv scenario.service scenario.token scenario.v16 (1 # 10)
          scenario.restarted).2 = fs scenario.restarted.
Proof. split; vm_compute; reflexivity. Qed.

(** When the two files are lost [verify] does write: it returns [True] and
    creates the two files of the encryption context, next to the untouched
    record. *)
Example verify_first_use_writes_context_files :
  fs scenario.keys_lost !! biometric_fhe_secret scenario.srv = None
  ∧ (@auth_service.verify reference.pyfhel reference.fernet reference.json
       scenario.srv scenario.service scenario.token scenario.v16 (1 # 10)
       scenario.keys_lost).1 = Ok true
  ∧ fs (@auth_service.verify reference.pyfhel reference.fernet reference.json
          scenario.srv scenario.service scenario.token scenario.v16 (1 # 10)
          scenario.keys_lost).2 !! biometric_fhe_secret scenario.srv
    = Some [x00; x00; x00; x00]%byte.
Proof. repeat split; vm_compute; reflexivity. Qed.

(** ** Enrolment *)

Section EnrolFacts.
Context `{PyfhelLib, FernetLib, JsonLib, OsLib}.
Variable settings : Settings.
Variable self : auth_service.BiometricAuthService.

Lemma he_raise st e st1 :
  fhe.he settings st = (Raise e, st1) → e = RuntimeError.
Proof.
  rewrite he_spec.
  destruct (initialise_cases settings st) as [[-> ?]|[->|(he1 & ini & -> & ?)]];
    [done|done|]. destruct ini; [done|]. by intros [= <- _].
Qed.

Lemma encrypt_vector_spec v st :
  fhe.encrypt_vector settings v st =
    match fhe.he settings st with
    | (Ok he_, st_i) =>
        (match he_encrypt he_ (entropy st_i) v with
         | Some c => Ok c
         | None => Raise RuntimeError
         end, set_entropy (S (entropy st_i)) st_i)
    | (Raise e, st_i) => (Raise e, st_i)
    end.
Proof.
  unfold fhe.encrypt_vector, bind at 1.
  destruct (fhe.he settings st) as [[he_|e] st_i]; [|done].
  cbn. by destruct (he_encrypt _ _ v).
Qed.

Lemma enrol_spec v st :
  auth_service.enrol settings self v st =
    match fhe.encrypt_vector settings v st with
    | (Ok c, st_d) => (Ok (issued self c st_d).1, (issued self c st_d).2)
    | (Raise e, st_d) => (Raise e, st_d)
    end.
Proof.
  unfold auth_service.enrol, bind at 1.
  by destruct (fhe.encrypt_vector settings v st) as [[c|e] st_d].
Qed.
End EnrolFacts.

Section EnrolThenVerify.
Context `{PyfhelLib, FernetLib, JsonLib, OsLib}.
Variable settings : Settings.
Variable self : auth_service.BiometricAuthService.

Lemma enrol_ok v st tok st1 :
  auth_service.enrol settings self v st = (Ok tok, st1) →
  ∃ c st_d,
    _initialised (_FHE_CONTEXT st_d) = true
    ∧ (∃ r, he_encrypt (_he (_FHE_CONTEXT st_d)) r v = Some c)
    ∧ tok = (issued self c st_d).1 ∧ st1 = (issued self c st_d).2.
Proof.
  rewrite enrol_spec, encrypt_vector_spec.
  destruct (fhe.he settings st) as [[he_|e] st_i] eqn:Ehe; [|done].
  destruct (he_ok _ _ _ _ Ehe) as [Hini ->].
  destruct (he_encrypt _ _ v) as [c|] eqn:Eenc; [|done].
  intros [= <- <-]. exists c, (set_entropy (S (entropy st_i)) st_i).
  split; [exact Hini|]. split; [|done]. by exists (entropy st_i).
Qed.

Lemma decrypt_vector_initialised c st b :
  _initialised (_FHE_CONTEXT st) = true →
  he_decrypt (_he (_FHE_CONTEXT st)) c = Some b →
  fhe.decrypt_vector settings c st = (Ok b, st).
Proof.
  intros Hini Hdec. unfold fhe.decrypt_vector.
  rewrite (bind_ok _ _ _ _ _ (he_initialised _ _ Hini)). by rewrite Hdec.
Qed.

Lemma stored_baseline_issued c c' b st_d :
  FernetCorrect →
  JsonFaithful false (PyDict {[ "ciphertext" := PyStr (Hex.hex (PyCtxt_to_bytes c)) ]}) →
  _initialised (_FHE_CONTEXT st_d) = true →
  PyCtxt_new (_he (_FHE_CONTEXT st_d)) (PyCtxt_to_bytes c) = Some c' →
  he_decrypt (_he (_FHE_CONTEXT st_d)) c' = Some b →
  stored_baseline settings self (auth_service.token_id (issued self c st_d).1)
    (issued self c st_d).2
  = (Ok (Some b), (issued self c st_d).2).
Proof.
  intros Hfernet Hjson Hini Hnew Hdec. unfold stored_baseline.
  erewrite bind_ok; cycle 1.
  { erewrite read_present; [|cbn; apply lookup_insert_eq].
    by rewrite Hfernet, Hjson. }
  cbn [truthy]. rewrite bool_decide_eq_false_2 by apply insert_non_empty.
  cbn [negb]. unfold subscript. rewrite lookup_singleton_eq.
  erewrite bind_ok; [|reflexivity].
  cbn [auth_service.bytes_fromhex]. rewrite fromhex_hex.
  erewrite bind_ok; [|reflexivity].
  erewrite bind_ok; [|by apply he_initialised].
  cbn [issued snd _FHE_CONTEXT]. rewrite Hnew.
  erewrite bind_ok; [|reflexivity].
  erewrite bind_ok; [|by apply decrypt_vector_initialised].
  reflexivity.
Qed.

Lemma mean_within_tolerance (eps tol : Q) (b v : list Q) :
  b ≠ [] → within eps b v → (eps <= tol)%Q →
  Qle_bool (auth_service.sum_abs_diff b v / inject_Z (Z.of_nat (length b))) tol = true.
Proof.
  intros Hne Hwithin Heps. apply Qle_bool_iff.
  rewrite sum_abs_diff_spec.
  assert (Hpos : (0 < inject_Z (Z.of_nat (length b)))%Q).
  { rewrite <- (Zlt_Qlt 0). destruct b; [done|cbn; lia]. }
  apply Qle_shift_div_r; [exact Hpos|].
  eapply Qle_trans; [by apply Qsum_within|].
  apply Qmult_le_compat_r; [exact Heps|]. by apply Qlt_le_weak.
Qed.
End EnrolThenVerify.

(** C3. Enrolling a non-empty vector [v] and then verifying the returned
    token with the same [v] under the default tolerance returns [True] (and
    changes nothing), provided the scheme round-trips [v] within an [eps] no
    larger than the tolerance: what is compared is the decrypted baseline,
    which equals [v] only up to [eps]. *)
Theorem enrol_then_verify `{PyfhelLib, FernetLib, JsonLib, OsLib}
    (settings : Settings) (self : auth_service.BiometricAuthService)
    (v : list Q) (eps : Q) (st st1 : State) (tok : auth_service.BiometricToken) :
  v ≠ [] →
  (eps <= auth_service.default_tolerance)%Q →
  FernetCorrect →
  auth_service.enrol settings self v st = (Ok tok, st1) →
  JsonFaithful false (PyDict {[ "ciphertext" := PyStr (auth_service.ciphertext tok) ]}) →
  FheApprox eps (_he (_FHE_CONTEXT st1)) v →
  auth_service.verify settings self (auth_service.token_id tok) v
    auth_service.default_tolerance st1 = (Ok true, st1).
Proof.
  intros Hne Heps Hfernet Henrol Hjson Hfhe.
  destruct (enrol_ok _ _ _ _ _ _ Henrol) as (c & st_d & Hini & [r Henc] & -> & ->).
  destruct (Hfhe r c Henc) as (c' & b & Hnew & Hdec & Hwithin).
  assert (Hlen : length b = length v) by (by eapply Forall2_length).
  assert (Hb : b ≠ []) by (intros ->; by destruct v).
  rewrite verify_split.
  erewrite bind_ok; [|by eapply stored_baseline_issued].
  cbn beta iota. rewrite compare_same_length by done.
  by erewrite mean_within_tolerance.
Qed.

(** The reference scheme round-trips [[0.1]*16] within five thousandths. *)
Lemma reference_fhe_approx_v16 :
  @FheApprox reference.pyfhel (5 # 1000) (_he (_FHE_CONTEXT scenario.enrolled))
    scenario.v16.
Proof.
  intros r c Hc. vm_compute in Hc. injection Hc as <-.
  eexists _, _. split; [reflexivity|]. split; [reflexivity|].
  unfold within. cbn. repeat constructor; vm_compute; discriminate.
Qed.

(** A run of [enrol_then_verify]: the scenario of the specification. *)
Lemma enrol_then_verify_witness :
  scenario.v16 ≠ []
  ∧ (5 # 1000 <= auth_service.default_tolerance)%Q
  ∧ @FernetCorrect reference.fernet
  ∧ @auth_service.enrol reference.pyfhel reference.fernet reference.json reference.os
      scenario.srv scenario.service scenario.v16 scenario.fresh
    = (Ok {| auth_service.token_id := scenario.token;
             auth_service.ciphertext := "0a0a0a0a0a0a0a0a0a0a0a0a0a0a0a0a" |},
       scenario.enrolled)
  ∧ @auth_service.verify reference.pyfhel reference.fernet reference.json
      scenario.srv scenario.service scenario.token scenario.v16
      auth_service.default_tolerance scenario.enrolled
    = (Ok true, scenario.enrolled).
Proof.
  assert (Hne : scenario.v16 ≠ []) by discriminate.
  assert (Heps : (5 # 1000 <= auth_service.default_tolerance)%Q)
    by (vm_compute; discriminate).
  assert (Henrol :
    @auth_service.enrol reference.pyfhel reference.fernet reference.json reference.os
      scenario.srv scenario.service scenario.v16 scenario.fresh
    = (Ok {| auth_service.token_id := scenario.token;
             auth_service.ciphertext := "0a0a0a0a0a0a0a0a0a0a0a0a0a0a0a0a" |},
       scenario.enrolled)) by (vm_compute; reflexivity).
  assert (Hjson :
    @JsonFaithful reference.json false
      (PyDict {[ "ciphertext" := PyStr "0a0a0a0a0a0a0a0a0a0a0a0a0a0a0a0a" ]}))
    by (vm_compute; reflexivity).
  split; [exact Hne|]. split; [exact Heps|].
  split; [exact reference_fernet_correct|]. split; [exact Henrol|].
  exact (@enrol_then_verify reference.pyfhel reference.fernet reference.json
           reference.os scenario.srv scenario.service scenario.v16 (5 # 1000)
           scenario.fresh scenario.enrolled _ Hne Heps reference_fernet_correct
           Henrol Hjson reference_fhe_approx_v16).
Defined.

(** C4 (as amended). [enrol] checks no length: it never fails with
    [InvalidInput], and whenever the encryption of the vector succeeds,
    whatever the length, it issues a token and persists the record.  The
    minimum of 16 elements is enforced at the request boundary: the route
    rejects a shorter vector with a validation error before [enrol] is
    called, with no effect on the state, and passes the others on to
    [enrol]. *)
Theorem enrol_checks_no_length `{PyfhelLib, FernetLib, JsonLib, OsLib}
    (settings : Settings) (self : auth_service.BiometricAuthService)
    (v : list Q) (st : State) :
  (auth_service.enrol settings self v st).1 ≠ Raise InvalidInput
  ∧ (∀ c st_d,
       fhe.encrypt_vector settings v st = (Ok c, st_d) →
       auth_service.enrol settings self v st
         = (Ok (issued self c st_d).1, (issued self c st_d).2)
       ∧ is_Some (fs (issued self c st_d).2
                    !! secure_store._path_for (auth_service._store self)
                         ("biometric_" ++ auth_service.token_id (issued self c st_d).1)))
  ∧ ((length v < 16)%nat →
     api.enrol_biometric settings self v st = (Raise ValidationError, st))
  ∧ ((16 ≤ length v)%nat →
     api.enrol_biometric settings self v st = auth_service.enrol settings self v st).
Proof.
  split; [|split; [|split]].
  - rewrite enrol_spec, encrypt_vector_spec.
    destruct (fhe.he settings st) as [[he_|e] st_i] eqn:Ehe.
    + by destruct (he_encrypt _ _ v).
    + by rewrite (he_raise _ _ _ _ Ehe).
  - intros c st_d E. rewrite enrol_spec, E. split; [done|].
    cbn. by rewrite lookup_insert_eq.
  - intros Hlen. unfold api.enrol_biometric, api.BiometricEnrollmentRequest.
    apply Nat.ltb_lt in Hlen. by rewrite Hlen.
  - intros Hlen. unfold api.enrol_biometric, api.BiometricEnrollmentRequest.
    apply Nat.ltb_ge in Hlen. by rewrite Hlen.
Qed.

(** A run of [enrol_checks_no_length] on a vector of one element. *)
Lemma enrol_checks_no_length_witness :
  (length [1 # 2] < 16)%nat
  ∧ @api.enrol_biometric reference.pyfhel reference.fernet reference.json reference.os
      scenario.srv scenario.service [1 # 2] scenario.fresh
    = (Raise ValidationError, scenario.fresh).
Proof.
  assert (Hlen : (length [1 # 2] < 16)%nat) by (cbn; lia).
  split; [exact Hlen|].
  exact (proj1 (proj2 (proj2
    (@enrol_checks_no_length reference.pyfhel reference.fernet reference.json
       reference.os scenario.srv scenario.service [1 # 2] scenario.fresh))) Hlen).
Defined.

(** C4, as stated, fails: [enrol] accepts a vector of one element, encrypts
    it and persists the record of the token it issues. *)
Lemma enrol_short_vector_counterexample :
  (length [1 # 2] < 16)%nat
  ∧ (@auth_service.enrol reference.pyfhel reference.fernet reference.json reference.os
       scenario.srv scenario.service [1 # 2] scenario.fresh).1
    = Ok {| auth_service.token_id := scenario.token; auth_service.ciphertext := "32" |}
  ∧ is_Some
      (fs (@auth_service.enrol reference.pyfhel reference.fernet reference.json
             reference.os scenario.srv scenario.service [1 # 2] scenario.fresh).2
         !! secure_store._path_for scenario.store ("biometric_" ++ scenario.token)).
Proof.
  split; [cbn; lia|]. split; [vm_compute; reflexivity|].
  eexists. vm_compute. reflexivity.
Qed.

(** ** The compliance ledger *)

Section TrailFacts.
Context `{PyfhelLib, Ed25519Lib, JsonLib, OsLib}.
Variable settings : Settings.

Lemma ComplianceTrail_new_public_key st0 self st1 :
  compliance.ComplianceTrail_new settings st0 = (Ok self, st1) →
  compliance._public_key self = Ed25519_public_key (compliance._private_key self).
Proof.
  unfold compliance.ComplianceTrail_new, compliance._ensure_keys.
  rewrite !bind_assoc. unfold bind at 1.
  destruct (path_exists _ st0) as [[key_exists|e] st'] eqn:E; [|done].
  rewrite bind_assoc.
  unfold bind at 1.
  match goal with
  | |- context [match ?m ?s with _ => _ end] =>
      destruct (m s) as [[private_key|e] st2]; [|done]
  end.
  cbn. by intros [= <- _].
Qed.

Variable self : compliance.ComplianceTrail.

Lemma log_event_spec payload st :
  let timestamp := utcnow_isoformat (clock st) in
  let signature :=
    Ed25519_sign (compliance._private_key self) (compliance.serialized timestamp payload) in
  let line := json_dumps false (PyDict (compliance.record timestamp payload signature)) in
  compliance.log_event self payload st =
    (Ok (Hex.hex signature),
     set_fs (<[compliance._log_path self :=
                 (default [] (fs st !! compliance._log_path self)
                  ++ encode_utf8 (line ++ linesep))%list]> (fs st)) st).
Proof.
  intros timestamp signature line.
  unfold compliance.log_event, bind, gets, append_text, modify, lift. cbn.
  unfold compliance.record. by rewrite lookup_insert_eq.
Qed.

Lemma event_dict_inj (ts1 p1 ts2 p2 : pyval) :
  <["timestamp" := ts1]> (<["payload" := p1]> (∅ : gmap string pyval))
    = <["timestamp" := ts2]> (<["payload" := p2]> ∅) →
  ts1 = ts2 ∧ p1 = p2.
Proof.
  intros E.
  assert (E1 := f_equal (λ d, d !! "timestamp") E).
  assert (E2 := f_equal (λ d, d !! "payload") E).
  cbn in E1, E2.
  rewrite !lookup_insert_eq in E1.
  rewrite !(lookup_insert_ne _ "timestamp" "payload"), !lookup_insert_eq in E2 by done.
  by injection E1 as ->; injection E2 as ->.
Qed.

(** Canonical serialisations that are read back faithfully are equal only
    for equal dictionaries. *)
Lemma canonical_inj (d1 d2 : gmap string pyval) :
  JsonFaithful true (PyDict d1) → JsonFaithful true (PyDict d2) →
  encode_utf8 (json_dumps true (PyDict d1)) = encode_utf8 (json_dumps true (PyDict d2)) →
  d1 = d2.
Proof.
  unfold JsonFaithful. intros Hd1 Hd2 E. rewrite E, Hd2 in Hd1. by injection Hd1.
Qed.

(** The entry a verifier rebuilds from a parsed line. *)
Lemma verify_line_entry public_pem line (timestamp payload : pyval) signature pk :
  json_loads (encode_utf8 line)
    = Some (PyDict (<["signature" := PyStr (Hex.hex signature)]>
                      (<["timestamp" := timestamp]> (<["payload" := payload]> ∅)))) →
  load_pem_public_key public_pem = Some pk →
  ledger.verify_line public_pem line =
    Ok (Ed25519_verify pk signature
          (encode_utf8 (json_dumps true
             (PyDict (<["timestamp" := timestamp]> (<["payload" := payload]> ∅)))))).
Proof.
  intros Hline Hpem. unfold ledger.verify_line. rewrite Hline.
  unfold subscript.
  rewrite (lookup_insert_ne _ "signature" "timestamp"), lookup_insert_eq by done.
  cbn [ledger.result_bind].
  rewrite (lookup_insert_ne _ "signature" "payload"),
    (lookup_insert_ne _ "timestamp" "payload"), lookup_insert_eq by done.
  cbn [ledger.result_bind]. rewrite lookup_insert_eq. cbn [ledger.result_bind].
  cbn [auth_service.bytes_fromhex]. rewrite fromhex_hex. cbn [ledger.result_bind].
  by rewrite Hpem.
Qed.
End TrailFacts.

(** C7. What [log_event] does, and what a verifier can rely on.  For a
    ledger built by [ComplianceTrail()] and a payload that [json] reads back
    as written: [log_event] takes the timestamp from the clock, signs the
    [sort_keys] serialization of [{timestamp, payload}] with the private
    key, appends to the ledger file exactly the line
    [{timestamp, payload, signature (hex)}] followed by the line separator,
    and returns the signature in hex; a verifier that serializes
    [{timestamp, payload}] of that line again accepts the signature under
    [public_key_pem()]; an event with another payload gets another
    signature, whenever it is logged; and a line carrying this signature
    with another payload or another timestamp is rejected.  The last two
    rest on the idealisation [Ed25519Binding]. *)
Theorem log_event_signed_line `{PyfhelLib, Ed25519Lib, JsonLib, OsLib}
    (settings : Settings) (self : compliance.ComplianceTrail) (st0 st_new : State)
    (payload : pyval) (st : State) :
  Ed25519Correct → Ed25519Binding → PemFaithful →
  compliance.ComplianceTrail_new settings st0 = (Ok self, st_new) →
  let timestamp := utcnow_isoformat (clock st) in
  let signature :=
    Ed25519_sign (compliance._private_key self) (compliance.serialized timestamp payload) in
  let entry := PyDict (compliance.record timestamp payload signature) in
  let line := json_dumps false entry in
  JsonFaithful false entry →
  JsonFaithful true (PyDict (compliance.normalized timestamp payload)) →
  compliance.log_event self payload st
    = (Ok (Hex.hex signature),
       set_fs (<[compliance._log_path self :=
                   (default [] (fs st !! compliance._log_path self)
                    ++ encode_utf8 (line ++ linesep))%list]> (fs st)) st)
  ∧ ledger.verify_line (compliance.public_key_pem self) line = Ok true
  ∧ (∀ payload' st',
       payload' ≠ payload →
       JsonFaithful true
         (PyDict (compliance.normalized (utcnow_isoformat (clock st')) payload')) →
       (compliance.log_event self payload' st').1 ≠ Ok (Hex.hex signature))
  ∧ (∀ line' timestamp' payload',
       json_loads (encode_utf8 line')
         = Some (PyDict (<["signature" := PyStr (Hex.hex signature)]>
                           (<["timestamp" := timestamp']> (<["payload" := payload']> ∅)))) →
       JsonFaithful true
         (PyDict (<["timestamp" := timestamp']> (<["payload" := payload']> ∅))) →
       payload' ≠ payload ∨ timestamp' ≠ PyStr timestamp →
       ledger.verify_line (compliance.public_key_pem self) line' = Ok false).
Proof.
  intros Hcorrect Hbinding Hpem Hnew timestamp signature entry line Hentry Hcanon.
  pose proof (ComplianceTrail_new_public_key _ _ _ _ Hnew) as Hpk.
  assert (Hload : load_pem_public_key (compliance.public_key_pem self)
                  = Some (Ed25519_public_key (compliance._private_key self))).
  { unfold compliance.public_key_pem. by rewrite Hpem, Hpk. }
  split; [apply log_event_spec|]. split; [|split].
  - unfold line.
    rewrite (verify_line_entry _ _ (PyStr timestamp) payload signature _ Hentry Hload).
    f_equal. apply Hcorrect.
  - intros payload' st' Hne Hcanon'. rewrite log_event_spec. cbn [fst].
    intros [= Ehex]. apply hex_inj in Ehex.
    pose proof (Hcorrect (compliance._private_key self)
                  (compliance.serialized (utcnow_isoformat (clock st')) payload')) as Hv.
    rewrite Ehex in Hv. apply Hbinding in Hv.
    apply (canonical_inj _ _ Hcanon' Hcanon) in Hv.
    apply event_dict_inj in Hv as [_ ?]. done.
  - intros line' timestamp' payload' Hline Hcanon' Hne.
    rewrite (verify_line_entry _ _ timestamp' payload' signature _ Hline Hload).
    f_equal. apply not_true_is_false. intros Hv. apply Hbinding in Hv.
    apply (canonical_inj _ _ Hcanon' Hcanon) in Hv.
    apply event_dict_inj in Hv as [? ?]. by destruct Hne.
Qed.

Section ReferenceLedger.
#[local] Existing Instance reference.os.
#[local] Existing Instance reference.json.
#[local] Existing Instance reference.ed25519.
#[local] Existing Instance reference.pyfhel.

(** A run of [log_event_signed_line]: the event [{"event": "x", "n": 1}]
    logged on an empty ledger. *)
Lemma log_event_signed_line_witness :
  let timestamp := utcnow_isoformat (clock scenario.with_signing_key) in
  let signature :=
    Ed25519_sign (compliance._private_key scenario.trail)
      (compliance.serialized timestamp (scenario.event 1)) in
  let entry := PyDict (compliance.record timestamp (scenario.event 1) signature) in
  Ed25519Correct ∧ Ed25519Binding ∧ PemFaithful
  ∧ compliance.ComplianceTrail_new scenario.srv scenario.with_signing_key
    = (Ok scenario.trail, scenario.with_signing_key)
  ∧ JsonFaithful false entry
  ∧ JsonFaithful true (PyDict (compliance.normalized timestamp (scenario.event 1)))
  ∧ (compliance.log_event scenario.trail (scenario.event 1)
       scenario.with_signing_key).1 = Ok (Hex.hex signature)
  ∧ ledger.verify_line (compliance.public_key_pem scenario.trail)
      (json_dumps false entry) = Ok true
  ∧ (compliance.log_event scenario.trail (scenario.event 2)
       scenario.with_signing_key).1 ≠ Ok (Hex.hex signature).
Proof.
  intros timestamp signature entry.
  assert (Hnew : compliance.ComplianceTrail_new scenario.srv scenario.with_signing_key
                 = (Ok scenario.trail, scenario.with_signing_key))
    by (vm_compute; reflexivity).
  assert (Hentry : JsonFaithful false entry) by (vm_compute; reflexivity).
  assert (Hcanon : JsonFaithful true
                     (PyDict (compliance.normalized timestamp (scenario.event 1))))
    by (vm_compute; reflexivity).
  assert (Hcanon2 : JsonFaithful true
                      (PyDict (compliance.normalized
                                 (utcnow_isoformat (clock scenario.with_signing_key))
                                 (scenario.event 2))))
    by (vm_compute; reflexivity).
  assert (Hne : scenario.event 2 ≠ scenario.event 1).
  { intros E. apply (f_equal (λ v, subscript v "n")) in E. vm_compute in E.
    discriminate. }
  destruct (log_event_signed_line scenario.srv scenario.trail
              scenario.with_signing_key scenario.with_signing_key
              (scenario.event 1) scenario.with_signing_key
              reference_ed25519_correct reference_ed25519_binding
              reference_pem_faithful Hnew Hentry Hcanon)
    as (Hlog & Hverify & Hdistinct & _).
  split; [exact reference_ed25519_correct|].
  split; [exact reference_ed25519_binding|].
  split; [exact reference_pem_faithful|].
  split; [exact Hnew|]. split; [exact Hentry|]. split; [exact Hcanon|].
  split; [by rewrite Hlog|]. split; [exact Hverify|].
  exact (Hdistinct _ _ Hne Hcanon2).
Defined.

(** The scenario of the specification, run: two events logged in turn
    leave two lines in the ledger file, each accepted by the verifier,
    with different signatures. *)
Example log_event_scenario :
  let run1 := compliance.log_event scenario.trail (scenario.event 1)
                scenario.with_signing_key in
  let run2 := compliance.log_event scenario.trail (scenario.event 2) run1.2 in
  let ledger_text :=
    decode_utf8 (default [] (fs run2.2 !! audit_log_path scenario.srv)) in
  ledger_text
    = scenario.ledger_line 1 ++ linesep ++ scenario.ledger_line 2 ++ linesep
  ∧ ledger.verify_line (compliance.public_key_pem scenario.trail)
      (scenario.ledger_line 1) = Ok true
  ∧ ledger.verify_line (compliance.public_key_pem scenario.trail)
      (scenario.ledger_line 2) = Ok true
  ∧ scenario.ledger_line 1 ≠ scenario.ledger_line 2
  ∧ run1.1 ≠ run2.1.
Proof. repeat split; vm_compute; try reflexivity; discriminate. Qed.
End ReferenceLedger.


(** * Further properties of the code *)

(** ** The master key of the store *)

Section KeyFacts.
Context `{PyfhelLib, FernetLib, JsonLib}.

Lemma load_or_create_key_spec key_path st :
  secure_store._load_or_create_key key_path st =
    match fs st !! key_path with
    | Some key => (Ok key, st)
    | None =>
        (Ok (Fernet_generate_key (entropy st)),
         set_fs (<[key_path := Fernet_generate_key (entropy st)]> (fs st))
                (set_entropy (S (entropy st)) st))
    end.
Proof.
  unfold secure_store._load_or_create_key.
  destruct (fs st !! key_path) as [key|] eqn:E.
  - rewrite (bind_ok _ _ _ _ _ (path_exists_Some _ _ _ E)).
    by apply read_bytes_Some.
  - by rewrite (bind_ok _ _ _ _ _ (path_exists_None _ _ E)).
Qed.

Lemma list_ascii_of_string_app (a b : string) :
  list_ascii_of_string (a ++ b)
  = (list_ascii_of_string a ++ list_ascii_of_string b)%list.
Proof.
  induction a as [|c a IH]; [done|].
  change (c :: list_ascii_of_string (a ++ b)
          = c :: (list_ascii_of_string a ++ list_ascii_of_string b)%list).
  by rewrite IH.
Qed.

(** A file name ending in [.bin] is not the name of the key file. *)
Lemma bin_is_not_master_key (name : string) : name ++ ".bin" ≠ ".master.key".
Proof.
  intros E. apply (f_equal (λ s, rev (list_ascii_of_string s))) in E.
  revert E. rewrite list_ascii_of_string_app, rev_app_distr. cbn. discriminate.
Qed.

Lemma path_for_is_not_key_path (self : secure_store.SecureStore) (name : string) :
  secure_store._key_path self = path_div (secure_store._storage_dir self) ".master.key" →
  secure_store._path_for self name ≠ secure_store._key_path self.
Proof.
  intros -> E. unfold secure_store._path_for, path_div in E.
  apply String.app_inj, String.app_inj in E. by apply bin_is_not_master_key in E.
Qed.
End KeyFacts.

(** X1. [_load_or_create_key] loads or creates, never replaces: it always
    returns a key, which is afterwards the content of the key file; a key
    file that exists is returned as it is and nothing is written nor drawn;
    no other file is touched; and a second call returns the same key and
    changes nothing. *)
Theorem load_or_create_key_keeps_key `{PyfhelLib, FernetLib}
    (key_path : string) (st : State) :
  ∃ key st1,
    secure_store._load_or_create_key key_path st = (Ok key, st1)
    ∧ fs st1 !! key_path = Some key
    ∧ (∀ old, fs st !! key_path = Some old → key = old ∧ st1 = st)
    ∧ (∀ p, p ≠ key_path → fs st1 !! p = fs st !! p)
    ∧ secure_store._load_or_create_key key_path st1 = (Ok key, st1).
Proof.
  rewrite load_or_create_key_spec.
  destruct (fs st !! key_path) as [key|] eqn:E.
  - exists key, st. split_and!; try done.
    + by intros old [= <-].
    + by rewrite load_or_create_key_spec, E.
  - eexists _, _. split; [reflexivity|]. split_and!.
    + cbn. by rewrite lookup_insert_eq.
    + intros old Hold. by rewrite Hold in E.
    + intros p Hp. cbn. by rewrite lookup_insert_ne.
    + rewrite load_or_create_key_spec. cbn. by rewrite lookup_insert_eq.
Qed.

(** A run of [load_or_create_key_keeps_key] on an empty disk. *)
Lemma load_or_create_key_keeps_key_witness :
  ∃ key st1,
    @secure_store._load_or_create_key reference.pyfhel reference.fernet
      "/srv/.master.key" scenario.fresh = (Ok key, st1)
    ∧ fs st1 !! "/srv/.master.key" = Some key.
Proof.
  destruct (@load_or_create_key_keeps_key reference.pyfhel reference.fernet
              "/srv/.master.key" scenario.fresh) as (key & st1 & E & Hfile & _).
  by exists key, st1.
Defined.

(** X2. A store that [SecureStore()] has built is built again, equal, by a
    later [SecureStore()] on the disk the first one left, which then
    changes nothing: the master key is created once.  The key file of a
    store is [.master.key] in its directory and holds the key of its
    cipher. *)
Theorem SecureStore_new_again `{PyfhelLib, FernetLib}
    (settings : Settings) (storage_dir : option string)
    (st st1 : State) (store : secure_store.SecureStore) :
  secure_store.SecureStore_new settings storage_dir st = (Ok store, st1) →
  secure_store.SecureStore_new settings storage_dir st1 = (Ok store, st1)
  ∧ secure_store._key_path store
    = path_div (secure_store._storage_dir store) ".master.key"
  ∧ ∃ key, fs st1 !! secure_store._key_path store = Some key
           ∧ Fernet_new key = Some (secure_store._fernet store).
Proof.
  unfold secure_store.SecureStore_new.
  set (dir := default (encrypted_storage_dir settings) storage_dir).
  unfold bind. rewrite !load_or_create_key_spec.
  destruct (fs st !! path_div dir ".master.key") as [key|] eqn:E.
  - destruct (Fernet_new key) as [f|] eqn:Ef; [|done].
    intros [= <- <-]. rewrite E, Ef. split_and!; [done..|by exists key].
  - destruct (Fernet_new _) as [f|] eqn:Ef; [|done].
    intros [= <- <-]. cbn [fs set_fs set_entropy secure_store._key_path
                             secure_store._storage_dir secure_store._fernet].
    rewrite lookup_insert_eq, Ef.
    split_and!; [done..|]. by eexists.
Qed.

(** A run of [SecureStore_new_again] from an empty disk. *)
Lemma SecureStore_new_again_witness :
  let store := @secure_store.Build_SecureStore strict.fernet
                 "/srv/data/encrypted" "/srv/data/encrypted/.master.key"
                 [x00; x00; x00; x00]%byte in
  let st1 := (@secure_store.SecureStore_new reference.pyfhel strict.fernet
                scenario.srv None scenario.fresh).2 in
  @secure_store.SecureStore_new reference.pyfhel strict.fernet
    scenario.srv None scenario.fresh = (Ok store, st1)
  ∧ @secure_store.SecureStore_new reference.pyfhel strict.fernet
      scenario.srv None st1 = (Ok store, st1).
Proof.
  intros store st1.
  assert (E : @secure_store.SecureStore_new reference.pyfhel strict.fernet
                scenario.srv None scenario.fresh = (Ok store, st1))
    by (vm_compute; reflexivity).
  split; [exact E|].
  exact (proj1 (@SecureStore_new_again reference.pyfhel strict.fernet
                  scenario.srv None scenario.fresh st1 store E)).
Defined.

(** X3. A key file that the cipher refuses is not replaced: [SecureStore()]
    raises [ValueError] and leaves the disk, and the whole state, as they
    were. *)
Theorem SecureStore_new_bad_key `{PyfhelLib, FernetLib}
    (settings : Settings) (storage_dir : option string) (st : State) (key : bytes) :
  fs st !! path_div (default (encrypted_storage_dir settings) storage_dir) ".master.key"
    = Some key →
  Fernet_new key = None →
  secure_store.SecureStore_new settings storage_dir st = (Raise ValueError, st).
Proof.
  intros Hfile Hkey. unfold secure_store.SecureStore_new.
  erewrite bind_ok; [|rewrite load_or_create_key_spec, Hfile; reflexivity].
  by rewrite Hkey.
Qed.

(** A run of [SecureStore_new_bad_key]: the key file holds seven bytes. *)
Lemma SecureStore_new_bad_key_witness :
  let st := scenario.world
              {[ "/srv/data/encrypted/.master.key" := encode_utf8 "garbage" ]} in
  fs st !! path_div (default (encrypted_storage_dir scenario.srv) None) ".master.key"
    = Some (encode_utf8 "garbage")
  ∧ @Fernet_new strict.fernet (encode_utf8 "garbage") = None
  ∧ @secure_store.SecureStore_new reference.pyfhel strict.fernet scenario.srv None st
    = (Raise ValueError, st).
Proof.
  intros st.
  assert (Hfile : fs st !! path_div (default (encrypted_storage_dir scenario.srv) None)
                             ".master.key"
                  = Some (encode_utf8 "garbage")) by (vm_compute; reflexivity).
  assert (Hkey : @Fernet_new strict.fernet (encode_utf8 "garbage") = None)
    by reflexivity.
  split; [exact Hfile|]. split; [exact Hkey|].
  exact (@SecureStore_new_bad_key reference.pyfhel strict.fernet scenario.srv None
           st _ Hfile Hkey).
Defined.

(** X4. [write] changes one file, the record of the name: every other file
    keeps its content, and whatever the name, the master key file of the
    store is not the file written. *)
Theorem write_touches_only_the_record `{PyfhelLib, FernetLib, JsonLib}
    (self : secure_store.SecureStore) (name : string) (payload : pyval) (st : State) :
  secure_store._key_path self = path_div (secure_store._storage_dir self) ".master.key" →
  (∀ p, p ≠ secure_store._path_for self name →
        fs (secure_store.write self name payload st).2 !! p = fs st !! p)
  ∧ fs (secure_store.write self name payload st).2 !! secure_store._key_path self
    = fs st !! secure_store._key_path self.
Proof.
  intros Hkey. rewrite write_spec. cbn.
  split.
  - intros p Hp. by rewrite lookup_insert_ne.
  - rewrite lookup_insert_ne; [done|]. by apply path_for_is_not_key_path.
Qed.

(** A run of [write_touches_only_the_record] with the name [.master.key]. *)
Lemma write_touches_only_the_record_witness :
  let st := scenario.world
              {[ "/srv/data/encrypted/.master.key" := encode_utf8 "key1" ]} in
  secure_store._key_path scenario.store
    = path_div (secure_store._storage_dir scenario.store) ".master.key"
  ∧ fs (@secure_store.write reference.pyfhel reference.fernet reference.json
          scenario.store ".master.key" PyNone st).2
      !! secure_store._key_path scenario.store
    = Some (encode_utf8 "key1").
Proof.
  intros st. split; [reflexivity|].
  rewrite (proj2 (@write_touches_only_the_record reference.pyfhel reference.fernet
                    reference.json scenario.store ".master.key" PyNone st eq_refl)).
  vm_compute. reflexivity.
Defined.



(** ** The encryption context manager, further *)

(** X6. Once [initialise] has succeeded on a context not yet initialised,
    both persisted files exist, and from then on [initialise], in whatever
    process runs on that disk (the same, or a new one after a restart),
    writes no file and draws no randomness: keys are generated at most once
    for a disk that keeps its two files. *)
Theorem initialise_generates_once_per_disk `{PyfhelLib}
    (settings : Settings) (st st1 : State) :
  _initialised (_FHE_CONTEXT st) = false →
  fhe.initialise settings st = (Ok tt, st1) →
  is_Some (fs st1 !! biometric_fhe_context settings)
  ∧ is_Some (fs st1 !! biometric_fhe_secret settings)
  ∧ ∀ st2, fs st2 = fs st1 →
      fs (fhe.initialise settings st2).2 = fs st2
      ∧ entropy (fhe.initialise settings st2).2 = entropy st2.
Proof.
  intros Hinit E.
  assert (Hfiles : is_Some (fs st1 !! biometric_fhe_context settings)
                   ∧ is_Some (fs st1 !! biometric_fhe_secret settings)).
  { destruct (fs st !! biometric_fhe_context settings) as [c|] eqn:Hc;
      [destruct (fs st !! biometric_fhe_secret settings) as [s|] eqn:Hs|].
    - rewrite (initialise_load _ _ _ _ Hinit Hc Hs) in E.
      destruct (he_load_context _ c) as [he1|]; [|done].
      destruct (he_load_secret_key he1 s) as [he2|]; [|done].
      injection E as <-. cbn. by rewrite Hc, Hs.
    - rewrite initialise_generate in E by auto. injection E as <-. cbn.
      rewrite lookup_insert_eq. split; [|done].
      destruct (decide (biometric_fhe_secret settings = biometric_fhe_context settings))
        as [->|Hne]; [by rewrite lookup_insert_eq|].
      by rewrite lookup_insert_ne, lookup_insert_eq.
    - rewrite initialise_generate in E by auto. injection E as <-. cbn.
      rewrite lookup_insert_eq. split; [|done].
      destruct (decide (biometric_fhe_secret settings = biometric_fhe_context settings))
        as [->|Hne]; [by rewrite lookup_insert_eq|].
      by rewrite lookup_insert_ne, lookup_insert_eq. }
  destruct Hfiles as [[c Hc] [s Hs]]. split_and!; [by eexists..|].
  intros st2 Hfs. rewrite <- Hfs in Hc, Hs.
  destruct (_initialised (_FHE_CONTEXT st2)) eqn:Hinit2.
  - by rewrite initialise_initialised.
  - rewrite (initialise_load _ _ _ _ Hinit2 Hc Hs).
    destruct (he_load_context _ c) as [he1|]; [|done].
    by destruct (he_load_secret_key he1 s) as [he2|].
Qed.

(** A run of [initialise_generates_once_per_disk] from an empty disk,
    followed by a restart. *)
Lemma initialise_generates_once_per_disk_witness :
  let st1 := @regenerated reference.pyfhel scenario.srv scenario.fresh in
  _initialised (_FHE_CONTEXT scenario.fresh) = false
  ∧ @fhe.initialise reference.pyfhel scenario.srv scenario.fresh = (Ok tt, st1)
  ∧ fs (@fhe.initialise reference.pyfhel scenario.srv (scenario.world (fs st1))).2
    = fs st1.
Proof.
  intros st1.
  assert (E : @fhe.initialise reference.pyfhel scenario.srv scenario.fresh
              = (Ok tt, st1)) by (vm_compute; reflexivity).
  split; [reflexivity|]. split; [exact E|].
  exact (proj1 (proj2 (proj2
           (@initialise_generates_once_per_disk reference.pyfhel scenario.srv
              scenario.fresh st1 eq_refl E)) (scenario.world (fs st1)) eq_refl)).
Defined.

Section RoundTripFacts.
Context `{PyfhelLib}.
Variable settings : Settings.

(** After a successful [encrypt_vector] the context is initialised and the
    ciphertext is an encryption under the Pyfhel object of the state. *)
Lemma encrypt_vector_ok v st c st1 :
  fhe.encrypt_vector settings v st = (Ok c, st1) →
  _initialised (_FHE_CONTEXT st1) = true
  ∧ ∃ r, he_encrypt (_he (_FHE_CONTEXT st1)) r v = Some c.
Proof.
  rewrite encrypt_vector_spec.
  destruct (fhe.he settings st) as [[he_|e] st_i] eqn:Ehe; [|done].
  destruct (he_ok _ _ _ _ Ehe) as [Hini ->].
  destruct (he_encrypt _ _ v) as [c'|] eqn:Eenc; [|done].
  intros [= <- <-]. split; [exact Hini|]. by exists (entropy st_i).
Qed.
End RoundTripFacts.

(** X7. [decrypt_vector] after [encrypt_vector]: the ciphertext that
    [encrypt_vector] returned is decrypted, by the same Pyfhel object and
    with no change of state, to a vector element-wise within [eps] of the
    plaintext (so of its length), when that object round-trips the
    plaintext within [eps]. *)
Theorem decrypt_vector_after_encrypt_vector `{PyfhelLib}
    (settings : Settings) (v : list Q) (eps : Q) (st st1 : State) (c : PyCtxt) :
  fhe.encrypt_vector settings v st = (Ok c, st1) →
  FheDirect eps (_he (_FHE_CONTEXT st1)) v →
  ∃ b, fhe.decrypt_vector settings c st1 = (Ok b, st1)
       ∧ within eps b v ∧ length b = length v.
Proof.
  intros E Hfhe. destruct (encrypt_vector_ok _ _ _ _ _ E) as [Hini [r Henc]].
  destruct (Hfhe r c Henc) as (b & Hdec & Hwithin).
  exists b. split_and!; [|done|by eapply Forall2_length].
  by apply decrypt_vector_initialised.
Qed.

(** X8. [decrypt_scalar] after [encode_scalar] returns a number within
    [eps] of the value encrypted, with no change of state; in particular it
    does not raise [IndexError]. *)
Theorem decrypt_scalar_after_encode_scalar `{PyfhelLib}
    (settings : Settings) (value : Q) (eps : Q) (st st1 : State) (c : PyCtxt) :
  fhe.encode_scalar settings value st = (Ok c, st1) →
  FheDirect eps (_he (_FHE_CONTEXT st1)) [value] →
  ∃ x, fhe.decrypt_scalar settings c st1 = (Ok x, st1)
       ∧ (Qabs (x - value) <= eps)%Q.
Proof.
  intros E Hfhe. unfold fhe.encode_scalar in E.
  destruct (encrypt_vector_ok _ _ _ _ _ E) as [Hini [r Henc]].
  destruct (Hfhe r c Henc) as (b & Hdec & Hwithin).
  inversion Hwithin as [|x y b' v' Hxy Hrest]; subst.
  exists x. split; [|done].
  unfold fhe.decrypt_scalar.
  by rewrite (bind_ok _ _ _ _ _ (decrypt_vector_initialised _ _ _ _ Hini Hdec)).
Qed.

(** The reference scheme round-trips [0.123] within five thousandths. *)
Lemma reference_fhe_direct_scalar (he_ : @Pyfhel reference.pyfhel) :
  reference.he_secret he_ ≠ None →
  @FheDirect reference.pyfhel (5 # 1000) he_ [123 # 1000].
Proof.
  intros Hsecret r c Hc. cbn in Hc.
  destruct (reference.he_context he_); [|done]. injection Hc as <-.
  cbn. destruct (reference.he_secret he_); [|done].
  eexists. split; [reflexivity|].
  repeat constructor. vm_compute. discriminate.
Qed.

(** A run of [decrypt_vector_after_encrypt_vector] and of
    [decrypt_scalar_after_encode_scalar] on [0.123], from an empty disk. *)
Lemma decrypt_vector_after_encrypt_vector_witness :
  let run := @fhe.encrypt_vector reference.pyfhel scenario.srv [123 # 1000]
               scenario.fresh in
  run.1 = Ok [x0c]%byte
  ∧ ∃ b, @fhe.decrypt_vector reference.pyfhel scenario.srv [x0c]%byte run.2
         = (Ok b, run.2)
         ∧ within (5 # 1000) b [123 # 1000] ∧ length b = 1%nat.
Proof.
  intros run.
  assert (E : run = (Ok [x0c]%byte, run.2)) by (vm_compute; reflexivity).
  split; [by rewrite E|].
  apply (@decrypt_vector_after_encrypt_vector reference.pyfhel scenario.srv
           [123 # 1000] (5 # 1000) scenario.fresh run.2 [x0c]%byte E).
  apply reference_fhe_direct_scalar. vm_compute. discriminate.
Defined.

Lemma decrypt_scalar_after_encode_scalar_witness :
  let run := @fhe.encode_scalar reference.pyfhel scenario.srv (123 # 1000)
               scenario.fresh in
  run.1 = Ok [x0c]%byte
  ∧ ∃ x, @fhe.decrypt_scalar reference.pyfhel scenario.srv [x0c]%byte run.2
         = (Ok x, run.2)
         ∧ (Qabs (x - (123 # 1000)) <= 5 # 1000)%Q.
Proof.
  intros run.
  assert (E : run = (Ok [x0c]%byte, run.2)) by (vm_compute; reflexivity).
  split; [by rewrite E|].
  apply (@decrypt_scalar_after_encode_scalar reference.pyfhel scenario.srv
           (123 # 1000) (5 # 1000) scenario.fresh run.2 [x0c]%byte E).
  apply reference_fhe_direct_scalar. vm_compute. discriminate.
Defined.

(** ** Enrolment and verification, further *)

Lemma sextet_url_safe (k : N) : url_safe (Base64.sextet k) = true.
Proof.
  unfold Base64.sextet, url_safe.
  destruct (k <? 26)%N eqn:E1; [apply N.ltb_lt in E1|apply N.ltb_ge in E1].
  { rewrite N_ascii_embedding by lia.
    replace ((65 <=? k + 65) && (k + 65 <=? 90))%N with true; [done|].
    symmetry. apply andb_true_iff. split; apply N.leb_le; lia. }
  destruct (k <? 52)%N eqn:E2; [apply N.ltb_lt in E2|apply N.ltb_ge in E2].
  { rewrite N_ascii_embedding by lia.
    replace ((97 <=? k - 26 + 97) && (k - 26 + 97 <=? 122))%N with true;
      [by rewrite orb_true_r|].
    symmetry. apply andb_true_iff. split; apply N.leb_le; lia. }
  destruct (k <? 62)%N eqn:E3; [apply N.ltb_lt in E3|apply N.ltb_ge in E3].
  { rewrite N_ascii_embedding by lia.
    replace ((48 <=? k - 52 + 48) && (k - 52 + 48 <=? 57))%N with true;
      [by rewrite !orb_true_r|].
    symmetry. apply andb_true_iff. split; apply N.leb_le; lia. }
  by destruct (k =? 62)%N.
Qed.

(** The encoding of a whole number of triples of bytes has four characters
    per triple, all of the URL-safe alphabet: it carries no padding. *)
Lemma urlsafe_b64encode_triples (k : nat) (b : bytes) :
  length b = (3 * k)%nat →
  String.length (Base64.urlsafe_b64encode b) = (4 * k)%nat
  ∧ Forall (λ c, url_safe c = true)
      (list_ascii_of_string (Base64.urlsafe_b64encode b)).
Proof.
  revert b. induction k as [|k IH]; intros b Hlen.
  - destruct b; [|done]. by split.
  - destruct b as [|x [|y [|z b]]]; [cbn in Hlen; lia..|].
    destruct (IH b) as [IHlen IHall]; [cbn in Hlen; lia|].
    cbn [Base64.urlsafe_b64encode String.length list_ascii_of_string].
    split; [lia|].
    repeat (apply Forall_cons; split; [apply sextet_url_safe|]). exact IHall.
Qed.

(** X9. The token id that [enrol] issues has 24 characters, each a letter,
    a digit, [-] or [_] (so none is a path separator, a dot or base64
    padding), when [os.urandom(18)] returns 18 bytes. *)
Theorem enrol_token_id_is_url_safe `{PyfhelLib, FernetLib, JsonLib, OsLib}
    (settings : Settings) (self : auth_service.BiometricAuthService)
    (v : list Q) (st st1 : State) (tok : auth_service.BiometricToken) :
  (∀ r, length (urandom r 18) = 18%nat) →
  auth_service.enrol settings self v st = (Ok tok, st1) →
  String.length (auth_service.token_id tok) = 24%nat
  ∧ Forall (λ c, url_safe c = true)
      (list_ascii_of_string (auth_service.token_id tok)).
Proof.
  intros Hurandom E. rewrite enrol_spec in E.
  destruct (fhe.encrypt_vector settings v st) as [[c|e] st_d]; [|done].
  injection E as <- _. cbn [issued fst auth_service.token_id].
  by apply (urlsafe_b64encode_triples 6).
Qed.

(** A run of [enrol_token_id_is_url_safe]: the enrolment of the scenario. *)
Lemma enrol_token_id_is_url_safe_witness :
  (∀ r, length (@urandom reference.os r 18) = 18%nat)
  ∧ String.length scenario.token = 24%nat
  ∧ Forall (λ c, url_safe c = true) (list_ascii_of_string scenario.token).
Proof.
  assert (Hurandom : ∀ r, length (@urandom reference.os r 18) = 18%nat)
    by (intros r; apply repeat_length).
  assert (E : @auth_service.enrol reference.pyfhel reference.fernet reference.json
                reference.os scenario.srv scenario.service scenario.v16 scenario.fresh
              = (Ok {| auth_service.token_id := scenario.token;
                       auth_service.ciphertext := "0a0a0a0a0a0a0a0a0a0a0a0a0a0a0a0a" |},
                 scenario.enrolled)) by (vm_compute; reflexivity).
  split; [exact Hurandom|].
  exact (@enrol_token_id_is_url_safe reference.pyfhel reference.fernet reference.json
           reference.os scenario.srv scenario.service scenario.v16 scenario.fresh
           scenario.enrolled _ Hurandom E).
Defined.

(** X10. The files [enrol] writes: when it returns a token, every file
    other than the record of that token and the two files of the encryption
    context is as before; when it raises, every file other than those two
    is as before, and no record has been written. *)
Theorem enrol_writes_only_its_record `{PyfhelLib, FernetLib, JsonLib, OsLib}
    (settings : Settings) (self : auth_service.BiometricAuthService)
    (v : list Q) (st : State) :
  (∀ tok st1,
     auth_service.enrol settings self v st = (Ok tok, st1) →
     ∀ p, p ≠ biometric_fhe_context settings →
          p ≠ biometric_fhe_secret settings →
          p ≠ secure_store._path_for (auth_service._store self)
                ("biometric_" ++ auth_service.token_id tok) →
          fs st1 !! p = fs st !! p)
  ∧ (∀ e st1,
     auth_service.enrol settings self v st = (Raise e, st1) →
     same_files_but_fhe settings st st1).
Proof.
  rewrite enrol_spec, encrypt_vector_spec.
  pose proof (@writes_he _ settings st) as Hhe.
  destruct (fhe.he settings st) as [[he_|e] st_i]; cbn [snd] in Hhe.
  - destruct (he_encrypt he_ (entropy st_i) v) as [c|]; split.
    + intros tok st1 [= <- <-] p Hc Hs Hp. cbn. rewrite lookup_insert_ne by done.
      by apply Hhe.
    + done.
    + done.
    + intros e st1 [= <- <-]. exact Hhe.
  - split; [done|]. intros e' st1 [= <- <-]. exact Hhe.
Qed.

(** A run of [enrol_writes_only_its_record]: the master key of the store
    survives the enrolment of the scenario. *)
Lemma enrol_writes_only_its_record_witness :
  let st := scenario.world
              {[ "/srv/data/encrypted/.master.key" := encode_utf8 "key1" ]} in
  let run := @auth_service.enrol reference.pyfhel reference.fernet reference.json
               reference.os scenario.srv scenario.service scenario.v16 st in
  (∃ tok, run = (Ok tok, run.2) ∧ auth_service.token_id tok = scenario.token)
  ∧ fs run.2 !! "/srv/data/encrypted/.master.key" = Some (encode_utf8 "key1").
Proof.
  intros st run.
  assert (E : run = (Ok {| auth_service.token_id := scenario.token;
                           auth_service.ciphertext := "0a0a0a0a0a0a0a0a0a0a0a0a0a0a0a0a" |},
                     run.2)) by (vm_compute; reflexivity).
  split; [eexists; split; [exact E|reflexivity]|].
  rewrite (proj1 (@enrol_writes_only_its_record reference.pyfhel reference.fernet
                    reference.json reference.os scenario.srv scenario.service
                    scenario.v16 st) _ _ E); [vm_compute; reflexivity|..];
    vm_compute; discriminate.
Defined.

Section VerifyMore.
Context `{PyfhelLib, FernetLib, JsonLib}.
Variable settings : Settings.
Variable self : auth_service.BiometricAuthService.

Lemma Qsum_nonneg (l : list Q) : Forall (λ x, (0 <= x)%Q) l → (0 <= Qsum l)%Q.
Proof.
  induction 1 as [|x l Hx _ IH]; unfold Qsum; cbn [fold_right]; [apply Qle_refl|].
  change 0%Q with (0 + 0)%Q at 1. by apply Qplus_le_compat.
Qed.

Lemma abs_differences_nonneg (b p : list Q) :
  Forall (λ x, (0 <= x)%Q) (abs_differences b p).
Proof.
  revert p. induction b as [|x b IH]; intros [|y p]; cbn [abs_differences];
    try constructor.
  - apply Qabs_nonneg.
  - apply IH.
Qed.

(** The outcome of the comparison, case by case. *)
Lemma compare_cases (b p : list Q) (tol : Q) st :
  compare b p tol st =
    if negb (length b =? length p)%nat then (Ok false, st)
    else if (length b =? 0)%nat then (Raise ZeroDivisionError, st)
    else (Ok (Qle_bool (auth_service.sum_abs_diff b p
                        / inject_Z (Z.of_nat (length b))) tol), st).
Proof.
  unfold compare. destruct (negb _); [done|].
  unfold auth_service.div_len. by destruct (length b =? 0)%nat.
Qed.

(** [verify] after the record has been read. *)
Lemma verify_after_read token_id presented tolerance st record :
  (secure_store.read (auth_service._store self) ("biometric_" ++ token_id) st).1
    = Ok record →
  auth_service.verify settings self token_id presented tolerance st =
    if negb (truthy record) then (Ok false, st)
    else
      (ciphertext_hex <- lift (subscript record "ciphertext");;
       ciphertext_bytes <- lift (auth_service.bytes_fromhex ciphertext_hex);;
       he_ <- fhe.he settings;;
       ciphertext <- lift (match PyCtxt_new he_ ciphertext_bytes with
                           | Some c => Ok c
                           | None => Raise RuntimeError
                           end);;
       baseline_vector <- fhe.decrypt_vector settings ciphertext;;
       compare baseline_vector presented tolerance) st.
Proof.
  intros E. unfold auth_service.verify.
  pose proof (read_state (auth_service._store self) ("biometric_" ++ token_id) st) as Hst.
  destruct (secure_store.read _ _ st) as [r st'] eqn:Er. cbn in E, Hst. subst.
  rewrite (bind_ok _ _ _ _ _ Er). by destruct (negb (truthy record)).
Qed.
End VerifyMore.

(** X11. Acceptance is monotone in the tolerance: a presented vector that
    [verify] accepts under a tolerance is accepted, from the same state and
    with the same effects, under every larger tolerance. *)
Theorem verify_monotone_in_tolerance `{PyfhelLib, FernetLib, JsonLib}
    (settings : Settings) (self : auth_service.BiometricAuthService)
    (token_id : string) (presented : list Q) (tolerance tolerance' : Q)
    (st st' : State) :
  (tolerance <= tolerance')%Q →
  auth_service.verify settings self token_id presented tolerance st = (Ok true, st') →
  auth_service.verify settings self token_id presented tolerance' st = (Ok true, st').
Proof.
  intros Hle. rewrite !verify_split. unfold bind.
  destruct (stored_baseline settings self token_id st) as [[[b|]|e] s]; [|done..].
  rewrite !compare_cases.
  destruct (negb _); [done|]. destruct (length b =? 0)%nat; [done|].
  intros [= Hd <-]. f_equal. f_equal.
  apply Qle_bool_iff. apply Qle_bool_iff in Hd. by eapply Qle_trans.
Qed.

(** A run of [verify_monotone_in_tolerance]: tolerances [0.05] and [0.1]
    in the scenario of the specification. *)
Lemma verify_monotone_in_tolerance_witness :
  (5 # 100 <= 1 # 10)%Q
  ∧ @auth_service.verify reference.pyfhel reference.fernet reference.json
      scenario.srv scenario.service scenario.token scenario.v16_last (5 # 100)
      scenario.enrolled = (Ok true, scenario.enrolled)
  ∧ @auth_service.verify reference.pyfhel reference.fernet reference.json
      scenario.srv scenario.service scenario.token scenario.v16_last (1 # 10)
      scenario.enrolled = (Ok true, scenario.enrolled).
Proof.
  assert (Hle : (5 # 100 <= 1 # 10)%Q) by (vm_compute; discriminate).
  assert (E : @auth_service.verify reference.pyfhel reference.fernet reference.json
                scenario.srv scenario.service scenario.token scenario.v16_last (5 # 100)
                scenario.enrolled = (Ok true, scenario.enrolled))
    by (vm_compute; reflexivity).
  split; [exact Hle|]. split; [exact E|].
  exact (@verify_monotone_in_tolerance reference.pyfhel reference.fernet
           reference.json scenario.srv scenario.service scenario.token
           scenario.v16_last (5 # 100) (1 # 10) scenario.enrolled scenario.enrolled
           Hle E).
Defined.

(** X12. Under a negative tolerance [verify] accepts nothing: the distance
    it compares is a mean of absolute values. *)
Theorem verify_rejects_under_negative_tolerance `{PyfhelLib, FernetLib, JsonLib}
    (settings : Settings) (self : auth_service.BiometricAuthService)
    (token_id : string) (presented : list Q) (tolerance : Q) (st : State) :
  (tolerance < 0)%Q →
  (auth_service.verify settings self token_id presented tolerance st).1 ≠ Ok true.
Proof.
  intros Hneg. rewrite verify_split. unfold bind.
  destruct (stored_baseline settings self token_id st) as [[[b|]|e] s]; [|done..].
  rewrite compare_cases.
  destruct (negb _); [done|]. destruct (length b =? 0)%nat eqn:Hlen; [done|].
  cbn [fst]. intros [= Hd]. apply Qle_bool_iff in Hd.
  apply Nat.eqb_neq in Hlen.
  assert (Hpos : (0 < inject_Z (Z.of_nat (length b)))%Q)
    by (rewrite <- (Zlt_Qlt 0); lia).
  assert (Hnonneg : (0 <= auth_service.sum_abs_diff b presented
                     / inject_Z (Z.of_nat (length b)))%Q).
  { apply Qle_shift_div_l; [exact Hpos|]. rewrite Qmult_0_l, sum_abs_diff_spec.
    apply Qsum_nonneg, abs_differences_nonneg. }
  apply (Qlt_irrefl 0). eapply Qle_lt_trans; [|exact Hneg].
  by eapply Qle_trans.
Qed.

(** A run of [verify_rejects_under_negative_tolerance]: the enrolled vector
    itself, under tolerance [-0.01]. *)
Lemma verify_rejects_under_negative_tolerance_witness :
  (- (1 # 100) < 0)%Q
  ∧ (@auth_service.verify reference.pyfhel reference.fernet reference.json
       scenario.srv scenario.service scenario.token scenario.v16 (- (1 # 100))
       scenario.enrolled).1 ≠ Ok true.
Proof.
  assert (Hneg : (- (1 # 100) < 0)%Q) by reflexivity.
  split; [exact Hneg|].
  exact (@verify_rejects_under_negative_tolerance reference.pyfhel reference.fernet
           reference.json scenario.srv scenario.service scenario.token
           scenario.v16 (- (1 # 100)) scenario.enrolled Hneg).
Defined.

(** X13. An empty baseline meets an empty presented vector with a division
    by zero: when the stored baseline decrypts to the empty vector and the
    presented vector is empty, [verify] raises [ZeroDivisionError]. *)
Theorem verify_empty_vectors_divide_by_zero `{PyfhelLib, FernetLib, JsonLib}
    (settings : Settings) (self : auth_service.BiometricAuthService)
    (token_id : string) (tolerance : Q) (st st' : State) :
  stored_baseline settings self token_id st = (Ok (Some []), st') →
  auth_service.verify settings self token_id [] tolerance st
    = (Raise ZeroDivisionError, st').
Proof. intros E. by rewrite verify_split, (bind_ok _ _ _ _ _ E). Qed.

(** A state in which the record of the token decrypts to the empty vector:
    the state after [enrol([])] from an empty disk. *)
Lemma verify_empty_vectors_divide_by_zero_witness :
  let st := (@auth_service.enrol reference.pyfhel reference.fernet reference.json
               reference.os scenario.srv scenario.service [] scenario.fresh).2 in
  @stored_baseline reference.pyfhel reference.fernet reference.json
    scenario.srv scenario.service scenario.token st = (Ok (Some []), st)
  ∧ @auth_service.verify reference.pyfhel reference.fernet reference.json
      scenario.srv scenario.service scenario.token [] (1 # 10) st
    = (Raise ZeroDivisionError, st).
Proof.
  intros st.
  assert (E : @stored_baseline reference.pyfhel reference.fernet reference.json
                scenario.srv scenario.service scenario.token st = (Ok (Some []), st))
    by (vm_compute; reflexivity).
  split; [exact E|].
  exact (@verify_empty_vectors_divide_by_zero reference.pyfhel reference.fernet
           reference.json scenario.srv scenario.service scenario.token (1 # 10)
           st st E).
Defined.

(** X14. A stored record that is false as a Python object (an empty
    dictionary, [null], zero, an empty string or list, [false]) is treated
    as an absent record: [verify] returns [False], raises nothing and
    changes nothing. *)
Theorem verify_falsy_record_is_absent `{PyfhelLib, FernetLib, JsonLib}
    (settings : Settings) (self : auth_service.BiometricAuthService)
    (token_id : string) (presented : list Q) (tolerance : Q) (st : State)
    (record : pyval) :
  (secure_store.read (auth_service._store self) ("biometric_" ++ token_id) st).1
    = Ok record →
  truthy record = false →
  auth_service.verify settings self token_id presented tolerance st = (Ok false, st).
Proof.
  intros E Hfalsy. by rewrite (verify_after_read _ _ _ _ _ _ _ E), Hfalsy.
Qed.

(** A run of [verify_falsy_record_is_absent]: the record of [tok] is the
    empty dictionary. *)
Lemma verify_falsy_record_is_absent_witness :
  let st := (@secure_store.write reference.pyfhel reference.fernet reference.json
               scenario.store "biometric_tok" (PyDict ∅) scenario.fresh).2 in
  (@secure_store.read reference.pyfhel reference.fernet reference.json
     scenario.store ("biometric_" ++ "tok") st).1 = Ok (PyDict ∅)
  ∧ truthy (PyDict ∅) = false
  ∧ @auth_service.verify reference.pyfhel reference.fernet reference.json
      scenario.srv scenario.service "tok" scenario.v16 (1 # 10) st = (Ok false, st).
Proof.
  intros st.
  assert (E : (@secure_store.read reference.pyfhel reference.fernet reference.json
                 scenario.store ("biometric_" ++ "tok") st).1 = Ok (PyDict ∅))
    by (vm_compute; reflexivity).
  assert (Hfalsy : truthy (PyDict ∅) = false) by reflexivity.
  split; [exact E|]. split; [exact Hfalsy|].
  exact (@verify_falsy_record_is_absent reference.pyfhel reference.fernet
           reference.json scenario.srv scenario.service "tok" scenario.v16 (1 # 10)
           st _ E Hfalsy).
Defined.

(** X15. A stored record that is true as a Python object but is not a
    record of [enrol] makes [verify] raise, with no change of state: a
    dictionary without the key [ciphertext] raises [KeyError], an object
    that is not a dictionary or a [ciphertext] that is not a string raises
    [TypeError], and a [ciphertext] that is not hexadecimal raises
    [ValueError]. *)
Theorem verify_malformed_record_raises `{PyfhelLib, FernetLib, JsonLib}
    (settings : Settings) (self : auth_service.BiometricAuthService)
    (token_id : string) (presented : list Q) (tolerance : Q) (st : State)
    (record : pyval) :
  (secure_store.read (auth_service._store self) ("biometric_" ++ token_id) st).1
    = Ok record →
  truthy record = true →
  (∀ d, record = PyDict d → d !! "ciphertext" = None →
        auth_service.verify settings self token_id presented tolerance st
        = (Raise (KeyError "ciphertext"), st))
  ∧ ((∀ d, record ≠ PyDict d) →
     auth_service.verify settings self token_id presented tolerance st
     = (Raise TypeError, st))
  ∧ (∀ d x, record = PyDict d → d !! "ciphertext" = Some x → (∀ s, x ≠ PyStr s) →
        auth_service.verify settings self token_id presented tolerance st
        = (Raise TypeError, st))
  ∧ (∀ d s, record = PyDict d → d !! "ciphertext" = Some (PyStr s) →
        Hex.fromhex s = None →
        auth_service.verify settings self token_id presented tolerance st
        = (Raise ValueError, st)).
Proof.
  intros E Htruthy. rewrite (verify_after_read _ _ _ _ _ _ _ E), Htruthy.
  cbn [negb]. split_and!.
  - intros d -> Hd. unfold subscript. by rewrite Hd.
  - intros Hnd. destruct record; try done. by destruct (Hnd d).
  - intros d x -> Hd Hx. unfold subscript. rewrite Hd.
    destruct x; try done. by destruct (Hx s).
  - intros d s -> Hd Hs. unfold subscript. rewrite Hd.
    unfold bind, lift. cbn. by rewrite Hs.
Qed.

(** A run of [verify_malformed_record_raises]: the record of [tok] is
    [{"event": "x", "n": 1}]. *)
Lemma verify_malformed_record_raises_witness :
  let st := (@secure_store.write reference.pyfhel reference.fernet reference.json
               scenario.store "biometric_tok" (scenario.event 1) scenario.fresh).2 in
  (@secure_store.read reference.pyfhel reference.fernet reference.json
     scenario.store ("biometric_" ++ "tok") st).1 = Ok (scenario.event 1)
  ∧ truthy (scenario.event 1) = true
  ∧ @auth_service.verify reference.pyfhel reference.fernet reference.json
      scenario.srv scenario.service "tok" scenario.v16 (1 # 10) st
    = (Raise (KeyError "ciphertext"), st).
Proof.
  intros st.
  assert (E : (@secure_store.read reference.pyfhel reference.fernet reference.json
                 scenario.store ("biometric_" ++ "tok") st).1 = Ok (scenario.event 1))
    by (vm_compute; reflexivity).
  assert (Htruthy : truthy (scenario.event 1) = true) by (vm_compute; reflexivity).
  split; [exact E|]. split; [exact Htruthy|].
  apply (proj1 (@verify_malformed_record_raises reference.pyfhel reference.fernet
                  reference.json scenario.srv scenario.service "tok" scenario.v16
                  (1 # 10) st _ E Htruthy) _ eq_refl).
  vm_compute. reflexivity.
Defined.

(** ** The ledger, further *)

Section TrailMore.
Context `{PyfhelLib, Ed25519Lib, JsonLib, OsLib}.
Variable settings : Settings.

Lemma ensure_keys_spec key_path st :
  compliance._ensure_keys key_path st =
    match fs st !! key_path with
    | Some private_bytes =>
        match Ed25519_from_private_bytes private_bytes with
        | Some k => (Ok (k, Ed25519_public_key k), st)
        | None => (Raise ValueError, st)
        end
    | None =>
        let k := Ed25519_generate (entropy st) in
        (Ok (k, Ed25519_public_key k),
         set_fs (<[key_path := Ed25519_private_bytes k]> (fs st))
                (set_entropy (S (entropy st)) st))
    end.
Proof.
  unfold compliance._ensure_keys.
  destruct (fs st !! key_path) as [b|] eqn:E.
  - rewrite (bind_ok _ _ _ _ _ (path_exists_Some _ _ _ E)).
    unfold bind at 1. unfold bind at 1. rewrite (read_bytes_Some _ _ _ E).
    by destruct (Ed25519_from_private_bytes b).
  - by rewrite (bind_ok _ _ _ _ _ (path_exists_None _ _ E)).
Qed.
End TrailMore.

(** X16. The signing key is created once: a ledger that
    [ComplianceTrail()] has built is built again, with the same private and
    public key, by every later [ComplianceTrail()] on the disk the first
    one left, which then changes nothing (given that the raw bytes of a
    private key load as that key). *)
Theorem ComplianceTrail_new_again `{PyfhelLib, Ed25519Lib}
    (settings : Settings) (st st1 : State) (trail : compliance.ComplianceTrail) :
  Ed25519KeyFaithful →
  compliance.ComplianceTrail_new settings st = (Ok trail, st1) →
  compliance.ComplianceTrail_new settings st1 = (Ok trail, st1).
Proof.
  intros Hfaithful. unfold compliance.ComplianceTrail_new, bind.
  rewrite !ensure_keys_spec.
  destruct (fs st !! _) as [b|] eqn:E.
  - destruct (Ed25519_from_private_bytes b) as [k|] eqn:Ek; [|done].
    intros [= <- <-]. by rewrite E, Ek.
  - intros [= <- <-]. cbn. by rewrite lookup_insert_eq, Hfaithful.
Qed.

Lemma reference_ed25519_key_faithful : @Ed25519KeyFaithful reference.ed25519.
Proof. by intros k. Qed.

(** A run of [ComplianceTrail_new_again] from an empty disk. *)
Lemma ComplianceTrail_new_again_witness :
  let run := @compliance.ComplianceTrail_new reference.pyfhel reference.ed25519
               scenario.srv scenario.fresh in
  @Ed25519KeyFaithful reference.ed25519
  ∧ (∃ trail, run = (Ok trail, run.2)
      ∧ @compliance.ComplianceTrail_new reference.pyfhel reference.ed25519
          scenario.srv run.2 = (Ok trail, run.2)).
Proof.
  intros run.
  split; [exact reference_ed25519_key_faithful|].
  eexists. assert (E : run = (Ok _, run.2)) by (vm_compute; reflexivity).
  split; [exact E|].
  exact (@ComplianceTrail_new_again reference.pyfhel reference.ed25519 scenario.srv
           scenario.fresh run.2 _ reference_ed25519_key_faithful E).
Defined.

(** X17. A key file that the library refuses is not replaced:
    [ComplianceTrail()] raises [ValueError] and leaves the disk, and the
    whole state, as they were. *)
Theorem ComplianceTrail_new_bad_key `{PyfhelLib, Ed25519Lib}
    (settings : Settings) (st : State) (private_bytes : bytes) :
  fs st !! with_suffix (audit_log_path settings) ".ed25519" = Some private_bytes →
  Ed25519_from_private_bytes private_bytes = None →
  compliance.ComplianceTrail_new settings st = (Raise ValueError, st).
Proof.
  intros Hfile Hkey. unfold compliance.ComplianceTrail_new, bind.
  by rewrite ensure_keys_spec, Hfile, Hkey.
Qed.

(** A run of [ComplianceTrail_new_bad_key]: the key file holds seven
    bytes. *)
Lemma ComplianceTrail_new_bad_key_witness :
  let st := scenario.world
              {[ "/srv/data/audit_logs.ed25519" := encode_utf8 "garbage" ]} in
  fs st !! with_suffix (audit_log_path scenario.srv) ".ed25519"
    = Some (encode_utf8 "garbage")
  ∧ @Ed25519_from_private_bytes strict.ed25519 (encode_utf8 "garbage") = None
  ∧ @compliance.ComplianceTrail_new reference.pyfhel strict.ed25519 scenario.srv st
    = (Raise ValueError, st).
Proof.
  intros st.
  assert (Hfile : fs st !! with_suffix (audit_log_path scenario.srv) ".ed25519"
                  = Some (encode_utf8 "garbage")) by (vm_compute; reflexivity).
  assert (Hkey : @Ed25519_from_private_bytes strict.ed25519 (encode_utf8 "garbage")
                 = None) by reflexivity.
  split; [exact Hfile|]. split; [exact Hkey|].
  exact (@ComplianceTrail_new_bad_key reference.pyfhel strict.ed25519 scenario.srv
           st _ Hfile Hkey).
Defined.

Section LogEventsFacts.
Context `{PyfhelLib, Ed25519Lib, JsonLib, OsLib}.
Variable self : compliance.ComplianceTrail.

Lemma log_events_cons t payload events st :
  log_events self ((t, payload) :: events) st =
    let st1 := set_fs (<[compliance._log_path self :=
                           (default [] (fs st !! compliance._log_path self)
                            ++ encode_utf8 (event_text self t payload))%list]> (fs st))
                      (at_instant t st) in
    match log_events self events st1 with
    | (Ok signatures, st2) =>
        (Ok (Hex.hex (event_signature self t payload) :: signatures), st2)
    | (Raise e, st2) => (Raise e, st2)
    end.
Proof.
  cbn [log_events]. unfold bind at 1. cbn [modify].
  unfold bind at 1. rewrite log_event_spec. cbn beta iota zeta.
  unfold bind, ret.
  change (fs (at_instant t st)) with (fs st).
  change (clock (at_instant t st)) with t.
  fold (event_signature self t payload). fold (event_text self t payload).
  by destruct (log_events self events _) as [[signatures|e] st2].
Qed.
End LogEventsFacts.

(** X18. The ledger is appended to, in order: after events are logged one
    after the other, each at its instant, the ledger file holds what it
    held before (nothing, if it did not exist) followed by the text of the
    events in the order of the calls, one line each; the signatures are
    returned in that order; no other file is touched.  With no event, no
    file is created. *)
Theorem log_events_append_in_order `{PyfhelLib, Ed25519Lib, JsonLib, OsLib}
    (self : compliance.ComplianceTrail) (events : list (nat * pyval)) (st : State) :
  (log_events self events st).1
    = Ok (map (λ e, Hex.hex (event_signature self e.1 e.2)) events)
  ∧ fs (log_events self events st).2 !! compliance._log_path self
    = match events with
      | [] => fs st !! compliance._log_path self
      | _ :: _ =>
          Some (default [] (fs st !! compliance._log_path self)
                ++ concat (map (λ e, encode_utf8 (event_text self e.1 e.2)) events))%list
      end
  ∧ ∀ p, p ≠ compliance._log_path self →
         fs (log_events self events st).2 !! p = fs st !! p.
Proof.
  revert st. induction events as [|[t payload] events IH]; intros st; [done|].
  rewrite log_events_cons. cbn zeta.
  match goal with |- context [log_events self events ?s] => set (st1 := s) end.
  destruct (IH st1) as (IHsig & IHfile & IHframe).
  destruct (log_events self events st1) as [[signatures|e] st2]; [|done].
  cbn [fst snd] in *. injection IHsig as ->.
  split_and!; [done| |].
  - rewrite IHfile. subst st1. cbn [fs set_fs]. rewrite lookup_insert_eq.
    destruct events as [|e events]; simpl.
    + by rewrite app_nil_r.
    + by rewrite <- !app_assoc.
  - intros p Hp. rewrite IHframe by done. subst st1. cbn [fs set_fs].
    by rewrite lookup_insert_ne.
Qed.

(** A run of [log_events_append_in_order]: two events. *)
Lemma log_events_append_in_order_witness :
  let events := [(0%nat, scenario.event 1); (1%nat, scenario.event 2)] in
  (@log_events reference.pyfhel reference.ed25519 reference.json reference.os
     scenario.trail events scenario.with_signing_key).1
  = Ok (map (λ e, Hex.hex (@event_signature reference.ed25519 reference.json reference.os
                            scenario.trail e.1 e.2)) events).
Proof.
  intros events.
  exact (proj1 (@log_events_append_in_order reference.pyfhel reference.ed25519
                  reference.json reference.os scenario.trail events
                  scenario.with_signing_key)).
Defined.

(** ** The predictor and the triage service *)

Lemma argmax_from_spec (l pre : list Q) (best_index : nat) (best : Q) :
  pre !! best_index = Some best →
  (∀ j x, pre !! j = Some x → (x <= best)%Q) →
  (∀ j x, (j < best_index)%nat → pre !! j = Some x → (x < best)%Q) →
  ∃ m, (pre ++ l)%list !! argmax_from best_index best (length pre) l = Some m
       ∧ (∀ j x, (pre ++ l)%list !! j = Some x → (x <= m)%Q)
       ∧ (∀ j x, (j < argmax_from best_index best (length pre) l)%nat →
                 (pre ++ l)%list !! j = Some x → (x < m)%Q).
Proof.
  revert pre best_index best.
  induction l as [|y l IH]; intros pre best_index best Hbest Hmax Hfirst.
  - rewrite app_nil_r. cbn. by exists best.
  - cbn [argmax_from].
    replace (S (length pre)) with (length (pre ++ [y])%list)
      by (rewrite length_app; cbn; lia).
    replace (pre ++ y :: l)%list with ((pre ++ [y]) ++ l)%list
      by (by rewrite <- app_assoc).
    destruct (Qle_bool y best) eqn:Hy.
    + apply Qle_bool_iff in Hy. apply IH.
      * by apply lookup_app_l_Some.
      * intros j x Hj. apply lookup_app_Some in Hj as [Hj|[_ Hj]]; [by eapply Hmax|].
        apply list_lookup_singleton_Some in Hj as [_ <-]. exact Hy.
      * intros j x Hlt Hj.
        apply lookup_app_Some in Hj as [Hj|[Hge _]]; [by eapply Hfirst|].
        apply lookup_lt_Some in Hbest. lia.
    + assert (Hlt : (best < y)%Q).
      { apply Qnot_le_lt. intros Hle. apply Qle_bool_iff in Hle. congruence. }
      apply IH.
      * rewrite lookup_app_r by done. by rewrite Nat.sub_diag.
      * intros j x Hj. apply lookup_app_Some in Hj as [Hj|[_ Hj]].
        -- apply Qlt_le_weak. eapply Qle_lt_trans; [by eapply Hmax|exact Hlt].
        -- apply list_lookup_singleton_Some in Hj as [_ <-]. apply Qle_refl.
      * intros j x Hj Hx. apply lookup_app_Some in Hx as [Hx|[Hge _]]; [|lia].
        eapply Qle_lt_trans; [by eapply Hmax|exact Hlt].
Qed.

Lemma argmax_spec (l : list Q) :
  match argmax l with
  | Ok i =>
      ∃ m, l !! i = Some m
           ∧ (∀ j x, l !! j = Some x → (x <= m)%Q)
           ∧ (∀ j x, (j < i)%nat → l !! j = Some x → (x < m)%Q)
  | Raise e => e = ValueError ∧ l = []
  end.
Proof.
  destruct l as [|x l]; [done|]. cbn [argmax].
  apply (argmax_from_spec l [x] 0 x).
  - done.
  - intros j y Hj. apply list_lookup_singleton_Some in Hj as [_ <-]. apply Qle_refl.
  - intros j y Hj. lia.
Qed.

Section PredictorFacts.
Context `{PyfhelLib, PipelineLib}.

Lemma list_item_nat {A} (l : list A) (i : nat) (x : A) :
  l !! i = Some x → list_item l (Z.of_nat i) = Ok x.
Proof.
  intros E. pose proof (lookup_lt_Some _ _ _ E) as Hlt. unfold list_item.
  replace (Z.of_nat i <? 0)%Z with false by (symmetry; apply Z.ltb_ge; lia).
  replace ((0 <=? Z.of_nat i) && (Z.of_nat i <? Z.of_nat (length l)))%Z with true.
  - by rewrite Nat2Z.id, E.
  - symmetry. apply andb_true_iff. split; [apply Z.leb_le|apply Z.ltb_lt]; lia.
Qed.

(** [predict_proba] in closed form. *)
Lemma predict_proba_spec text w :
  predictor.predict_proba text w =
    match predictor.load w with
    | (Ok pipeline, w1) =>
        match pipeline_predict_proba pipeline text with
        | None => (Raise RuntimeError, w1)
        | Some probabilities =>
            match argmax probabilities with
            | Raise e => (Raise e, w1)
            | Ok i => (Ok {| predictor.prediction_index := Z.of_nat i;
                             predictor.probabilities := probabilities |}, w1)
            end
        end
    | (Raise e, w1) => (Raise e, w1)
    end.
Proof.
  unfold predictor.predict_proba, predictor.wbind.
  destruct (predictor.load w) as [[pipeline|e] w1]; [|done].
  destruct (pipeline_predict_proba pipeline text) as [probabilities|]; [|done].
  by destruct (argmax probabilities).
Qed.

Lemma load_loaded w pipeline :
  predictor._pipeline (predictor._PREDICTOR w) = Some pipeline →
  predictor.load w = (Ok pipeline, w).
Proof. unfold predictor.load. by intros ->. Qed.

Lemma load_ok w pipeline w1 :
  predictor.load w = (Ok pipeline, w1) →
  predictor.state w1 = predictor.state w
  ∧ predictor._pipeline (predictor._PREDICTOR w1) = Some pipeline
  ∧ predictor._model_path (predictor._PREDICTOR w1)
    = predictor._model_path (predictor._PREDICTOR w).
Proof.
  unfold predictor.load.
  destruct (predictor._pipeline (predictor._PREDICTOR w)) as [p|] eqn:E.
  - by intros [= <- <-].
  - destruct (read_bytes _ _) as [[data|e] st]; [|done].
    destruct (joblib_load data) as [p|]; [|done]. by intros [= <- <-].
Qed.
End PredictorFacts.

(** X19. What [predict_proba] returns and what it costs: its
    [prediction_index] is a position of [probabilities], the position of
    the first largest probability; the state of the world is untouched; and
    the model is loaded once: after a call that succeeded the predictor
    holds the pipeline, and a further call answers from it whatever the
    files have become. *)
Theorem predict_proba_returns_first_largest `{PyfhelLib, PipelineLib}
    (text : string) (w w1 : predictor.World) (p : predictor.prediction) :
  predictor.predict_proba text w = (Ok p, w1) →
  (∃ i m, predictor.prediction_index p = Z.of_nat i
          ∧ predictor.probabilities p !! i = Some m
          ∧ (∀ j x, predictor.probabilities p !! j = Some x → (x <= m)%Q)
          ∧ (∀ j x, (j < i)%nat → predictor.probabilities p !! j = Some x → (x < m)%Q))
  ∧ predictor.state w1 = predictor.state w
  ∧ ∀ st',
      predictor.predict_proba text
        {| predictor.state := st'; predictor._PREDICTOR := predictor._PREDICTOR w1 |}
      = (Ok p, {| predictor.state := st';
                  predictor._PREDICTOR := predictor._PREDICTOR w1 |}).
Proof.
  rewrite predict_proba_spec.
  destruct (predictor.load w) as [[pipeline|e] w'] eqn:Eload; [|done].
  destruct (load_ok _ _ _ Eload) as (Hstate & Hpipeline & _).
  destruct (pipeline_predict_proba pipeline text) as [probabilities|] eqn:Ep; [|done].
  pose proof (argmax_spec probabilities) as Hargmax.
  destruct (argmax probabilities) as [i|e] eqn:Ei; [|done].
  intros [= <- <-]. split_and!; [|done|].
  - destruct Hargmax as (m & Hm & Hmax & Hfirst). by exists i, m.
  - intros st'. rewrite predict_proba_spec, (load_loaded _ pipeline) by done.
    by rewrite Ep, Ei.
Qed.

(** A run of [predict_proba_returns_first_largest] on the reference
    model. *)
Lemma predict_proba_returns_first_largest_witness :
  let run := @predictor.predict_proba reference.pyfhel reference_model.pipeline
               "fever and cough" reference_model.world in
  run.1 = Ok {| predictor.prediction_index := 1;
                predictor.probabilities := [10 # 100; 70 # 100; 20 # 100] |}
  ∧ predictor.state run.2 = predictor.state reference_model.world.
Proof.
  intros run.
  assert (E : run = (Ok {| predictor.prediction_index := 1;
                           predictor.probabilities := [10 # 100; 70 # 100; 20 # 100] |},
                     run.2)) by (vm_compute; reflexivity).
  split; [by rewrite E|].
  exact (proj1 (proj2 (@predict_proba_returns_first_largest reference.pyfhel
                         reference_model.pipeline "fever and cough"
                         reference_model.world run.2 _ E))).
Defined.

Section TriageFacts.
Context `{PyfhelLib, PipelineLib, Ed25519Lib, JsonLib, OsLib}.

Lemma wbind_ok {A B} (m : predictor.MW A) (k : A → predictor.MW B) w a w' :
  m w = (Ok a, w') → predictor.wbind m k w = k a w'.
Proof. unfold predictor.wbind. by intros ->. Qed.

Lemma wbind_raise {A B} (m : predictor.MW A) (k : A → predictor.MW B) w e w' :
  m w = (Raise e, w') → predictor.wbind m k w = (Raise e, w').
Proof. unfold predictor.wbind. by intros ->. Qed.

(** What a successful [predict_proba] has returned. *)
Lemma predict_proba_ok text w p w1 :
  predictor.predict_proba text w = (Ok p, w1) →
  predictor.state w1 = predictor.state w
  ∧ ∃ i m, predictor.prediction_index p = Z.of_nat i
           ∧ predictor.probabilities p !! i = Some m
           ∧ (∀ j x, predictor.probabilities p !! j = Some x → (x <= m)%Q).
Proof.
  rewrite predict_proba_spec.
  destruct (predictor.load w) as [[pipeline|e] w'] eqn:Eload; [|done].
  destruct (load_ok _ _ _ Eload) as (Hstate & _ & _).
  destruct (pipeline_predict_proba pipeline text) as [probabilities|]; [|done].
  pose proof (argmax_spec probabilities) as Hargmax.
  destruct (argmax probabilities) as [i|e]; [|done].
  intros [= <- <-]. split; [done|].
  destruct Hargmax as (m & Hm & Hmax & _). by exists i, m.
Qed.

(** Every index maps to an urgency that has an enrichment. *)
Lemma urgency_known (index : Z) :
  let urgency := default "Medium Urgency" (triage_service.URGENCY_MAP index) in
  In urgency ["Low Urgency"; "Medium Urgency"; "High Urgency"]
  ∧ is_Some (triage_service.URGENCY_ENRICHMENT urgency).
Proof.
  unfold triage_service.URGENCY_MAP.
  repeat case_match; cbn; (split; [tauto|by eexists]).
Qed.
End TriageFacts.

(** X20. [TriageService.run_triage] fails only where the predictor fails:
    whenever [predict_proba] returns, [run_triage] returns.  The urgency is
    one of the three levels and has its enrichment (no [KeyError]), the
    confidence is the probability at the predicted index (no [IndexError])
    and no probability is larger; the audit reference is the hex signature
    of the event [{event, urgency, confidence, biometric_reference}], and
    the line of that event is appended to the ledger. *)
Theorem run_triage_after_prediction `{PyfhelLib, PipelineLib, Ed25519Lib, JsonLib, OsLib}
    (self : triage_service.TriageService) (text : string)
    (biometric_token : option string)
    (w w1 : predictor.World) (p : predictor.prediction) :
  predictor.predict_proba text w = (Ok p, w1) →
  ∃ result w2,
    triage_service.run_triage self text biometric_token w = (Ok result, w2)
    ∧ In (triage_service.urgency result)
         ["Low Urgency"; "Medium Urgency"; "High Urgency"]
    ∧ triage_service.URGENCY_ENRICHMENT (triage_service.urgency result)
      = Some (triage_service.enrichment_ result)
    ∧ list_item (predictor.probabilities p) (predictor.prediction_index p)
      = Ok (triage_service.confidence result)
    ∧ (∀ j x, predictor.probabilities p !! j = Some x →
              (x <= triage_service.confidence result)%Q)
    ∧ (let trail := triage_service._compliance self in
       let t := clock (predictor.state w) in
       let payload :=
         triage_service.audit_payload (triage_service.urgency result)
           (triage_service.confidence result) biometric_token in
       triage_service.audit_reference result
         = Some (Hex.hex (event_signature trail t payload))
       ∧ fs (predictor.state w2) !! compliance._log_path trail
         = Some (default [] (fs (predictor.state w) !! compliance._log_path trail)
                 ++ encode_utf8 (event_text trail t payload))%list).
Proof.
  intros E. destruct (predict_proba_ok _ _ _ _ E) as (Hstate & i & m & Hi & Hm & Hmax).
  unfold triage_service.run_triage. rewrite (wbind_ok _ _ _ _ _ E).
  assert (Hitem : list_item (predictor.probabilities p) (predictor.prediction_index p)
                  = Ok m) by (rewrite Hi; by apply list_item_nat).
  rewrite Hitem.
  destruct (urgency_known (predictor.prediction_index p)) as [Hin [en Hen]].
  cbn zeta in Hin, Hen. rewrite Hen.
  unfold predictor.wbind, predictor.in_state. rewrite log_event_spec.
  cbn beta iota zeta. unfold predictor.wret.
  eexists _, _. split; [reflexivity|]. cbn. rewrite Hstate.
  split_and!; try done.
  by rewrite lookup_insert_eq.
Qed.

(** A run of [run_triage_after_prediction] on the reference model: the
    second class is the most likely one, the urgency is medium. *)
Lemma run_triage_after_prediction_witness :
  ∃ result w2,
    @triage_service.run_triage reference.pyfhel reference_model.pipeline
      reference.ed25519 reference.json reference.os
      reference_model.service "fever and cough" (Some scenario.token)
      reference_model.world = (Ok result, w2)
    ∧ triage_service.urgency result = "Medium Urgency"
    ∧ triage_service.URGENCY_ENRICHMENT (triage_service.urgency result)
      = Some (triage_service.enrichment_ result).
Proof.
  pose (run := @predictor.predict_proba reference.pyfhel reference_model.pipeline
                 "fever and cough" reference_model.world).
  assert (E : run = (Ok {| predictor.prediction_index := 1;
                           predictor.probabilities := [10 # 100; 70 # 100; 20 # 100] |},
                     run.2)) by (vm_compute; reflexivity).
  destruct (@run_triage_after_prediction reference.pyfhel reference_model.pipeline
              reference.ed25519 reference.json reference.os
              reference_model.service "fever and cough" (Some scenario.token)
              reference_model.world run.2 _ E)
    as (result & w2 & Hrun & _ & Hen & _).
  exists result, w2. split; [exact Hrun|]. split; [|exact Hen].
  vm_compute in Hrun. by injection Hrun as <- _.
Defined.

Section RouteFacts.
Context `{PyfhelLib, PipelineLib, FernetLib, Ed25519Lib, JsonLib, OsLib}.
Variable settings : Settings.

(** The part of the route after the check never ends with an
    [HTTPException]. *)
Lemma triage_responds (ts : triage_service.TriageService) text reference w :
  ∀ code detail w',
    predictor.wbind (triage_service.run_triage ts text reference)
      (λ result, predictor.wret (triage_route.Response (triage_route.respond result))) w
    ≠ (Ok (triage_route.HTTPException code detail), w').
Proof.
  intros code detail w'. unfold predictor.wbind, predictor.wret.
  by destruct (triage_service.run_triage ts text reference w) as [[result|e] w1].
Qed.

(** A truthy vector is a list, a truthy token a string that is not
    empty. *)
Lemma vector_given_Some v :
  triage_route.vector_given v = true → ∃ l, v = Some l ∧ l ≠ [].
Proof. destruct v as [[|x l]|]; try done. intros _. by eexists. Qed.

Lemma token_given_Some t :
  triage_route.token_given t = true → ∃ s, t = Some s ∧ s ≠ EmptyString.
Proof.
  destruct t as [s|]; [|done]. cbn. intros Hs. exists s. split; [done|].
  intros ->. done.
Qed.
End RouteFacts.

(** X21. The route [POST /triage] answers a request that carries a
    biometric vector only after [verify] has accepted that vector for the
    token of the request: a response implies a token that is not empty and
    a run of [verify], on the world of the request, that returned [True]. *)
Theorem triage_response_needs_verification
    `{PyfhelLib, PipelineLib, FernetLib, Ed25519Lib, JsonLib, OsLib}
    (settings : Settings) (request : triage_route.TriageRequest)
    (ts : triage_service.TriageService)
    (bs : auth_service.BiometricAuthService)
    (w w' : predictor.World) (response : triage_route.TriageResponse) :
  triage_route.vector_given (triage_route.biometric_vector request) = true →
  triage_route.run_triage settings request ts bs w
    = (Ok (triage_route.Response response), w') →
  ∃ token vector st1,
    triage_route.biometric_token request = Some token
    ∧ token ≠ EmptyString
    ∧ triage_route.biometric_vector request = Some vector
    ∧ auth_service.verify settings bs token vector auth_service.default_tolerance
        (predictor.state w) = (Ok true, st1).
Proof.
  intros Hvector. unfold triage_route.run_triage. rewrite Hvector.
  destruct (triage_route.token_given (triage_route.biometric_token request)) eqn:Htoken;
    [|done].
  destruct (vector_given_Some _ Hvector) as (vector & Ev & _).
  destruct (token_given_Some _ Htoken) as (token & Et & Hne).
  rewrite Et, Ev. cbn [negb from_option id].
  unfold predictor.wbind at 1, predictor.in_state.
  destruct (auth_service.verify settings bs token vector auth_service.default_tolerance
              (predictor.state w)) as [[[|]|e] st1] eqn:Everify; cbn [negb];
    [|unfold predictor.wret; intros [=]|intros [=]].
  intros _. by exists token, vector, st1.
Qed.

(** A run of [triage_response_needs_verification]: the enrolled vector,
    presented with its token, is answered. *)
Lemma triage_response_needs_verification_witness :
  ∃ st1,
    @auth_service.verify reference.pyfhel reference.fernet reference.json
      scenario.srv scenario.service scenario.token scenario.v16
      auth_service.default_tolerance (predictor.state requests.world) = (Ok true, st1).
Proof.
  assert (E : ∃ response,
             requests.run_triage requests.verified
             = (Ok (triage_route.Response response),
                (requests.run_triage requests.verified).2))
    by (vm_compute; eexists; reflexivity).
  destruct E as [response E].
  destruct (@triage_response_needs_verification reference.pyfhel reference_model.pipeline
              reference.fernet reference.ed25519 reference.json reference.os
              scenario.srv requests.verified reference_model.service scenario.service
              requests.world _ response eq_refl E)
    as (token & vector & st1 & Et & _ & Ev & Hverify).
  injection Et as <-. injection Ev as <-. by exists st1.
Defined.

(** X22. A request the route refuses has changed nothing but the
    encryption context: the status is 400 or 401 and the request carried a
    vector; no model has been loaded and, the two files of the context
    apart, every file is as it was.  Under 400 the world is as it was. *)
Theorem triage_refusal_leaves_no_trace
    `{PyfhelLib, PipelineLib, FernetLib, Ed25519Lib, JsonLib, OsLib}
    (settings : Settings) (request : triage_route.TriageRequest)
    (ts : triage_service.TriageService)
    (bs : auth_service.BiometricAuthService)
    (w w' : predictor.World) (code : nat) (detail : string) :
  triage_route.run_triage settings request ts bs w
    = (Ok (triage_route.HTTPException code detail), w') →
  triage_route.vector_given (triage_route.biometric_vector request) = true
  ∧ (code = 400%nat ∧ w' = w
     ∨ code = 401%nat
       ∧ triage_route.token_given (triage_route.biometric_token request) = true)
  ∧ predictor._PREDICTOR w' = predictor._PREDICTOR w
  ∧ same_files_but_fhe settings (predictor.state w) (predictor.state w').
Proof.
  unfold triage_route.run_triage.
  destruct (triage_route.vector_given _) eqn:Hvector;
    [|intros E; by apply triage_responds in E].
  destruct (triage_route.token_given _) eqn:Htoken; cbn [negb].
  - unfold predictor.wbind at 1, predictor.in_state.
    pose proof (writes_verify settings bs
                  (default EmptyString (triage_route.biometric_token request))
                  (default [] (triage_route.biometric_vector request))
                  auth_service.default_tolerance (predictor.state w)) as Hframe.
    destruct (auth_service.verify _ _ _ _ _ _) as [[[|]|e] st1]; cbn [negb]; try done.
    + intros E. by apply triage_responds in E.
    + unfold predictor.wret. intros [= <- <- <-]. cbn in *.
      split_and!; [done|by right|done|done].
  - unfold predictor.wret. intros [= <- <- <-].
    split_and!; [done|by left|done|apply same_files_refl].
Qed.

(** Two runs of [triage_refusal_leaves_no_trace]: a vector without a
    token, and a vector that is not the enrolled one. *)
Lemma triage_refusal_leaves_no_trace_witness :
  (requests.run_triage requests.no_token).2 = requests.world
  ∧ predictor._PREDICTOR (requests.run_triage requests.impostor).2
    = predictor._PREDICTOR requests.world.
Proof.
  assert (E400 : requests.run_triage requests.no_token
                 = (Ok (triage_route.HTTPException 400
                          "Biometric vector submitted without token reference."),
                    (requests.run_triage requests.no_token).2)) by (vm_compute; reflexivity).
  assert (E401 : requests.run_triage requests.impostor
                 = (Ok (triage_route.HTTPException 401 "Biometric verification failed."),
                    (requests.run_triage requests.impostor).2)) by (vm_compute; reflexivity).
  split.
  - destruct (@triage_refusal_leaves_no_trace reference.pyfhel reference_model.pipeline
                reference.fernet reference.ed25519 reference.json reference.os
                scenario.srv requests.no_token reference_model.service scenario.service
                requests.world _ _ _ E400) as (_ & [[_ Hw]|[Hcode _]] & _).
    + exact Hw.
    + discriminate Hcode.
  - exact (proj1 (proj2 (proj2
      (@triage_refusal_leaves_no_trace reference.pyfhel reference_model.pipeline
         reference.fernet reference.ed25519 reference.json reference.os
         scenario.srv requests.impostor reference_model.service scenario.service
         requests.world _ _ _ E401)))).
Defined.

Section RoundFacts.

Lemma pow10_pos (n : nat) : (0 < inject_Z (10 ^ Z.of_nat n))%Q.
Proof.
  change 0%Q with (inject_Z 0). rewrite <- Zlt_Qlt. apply Z.pow_pos_nonneg; lia.
Qed.

(** [round(x, ndigits)] is a multiple of [10**-ndigits] at most half a
    unit from [x]. *)
Lemma round_close (x : Q) (n : nat) :
  (Qabs (triage_route.round_ x n - x) * inject_Z (10 ^ Z.of_nat n) <= 1 # 2)%Q.
Proof.
  unfold triage_route.round_.
  pose proof (pow10_pos n) as Hu. set (u := inject_Z (10 ^ Z.of_nat n)) in *.
  set (low := Qfloor (x * u)).
  pose proof (Qfloor_le (x * u)) as Hlow. pose proof (Qlt_floor (x * u)) as Hup.
  fold low in Hlow, Hup.
  rewrite inject_Z_plus in Hup. change (inject_Z 1) with 1%Q in Hup.
  set (nearest := if Qle_bool _ _ then _ else _).
  assert (Hnear : (Qabs (inject_Z nearest - x * u) <= 1 # 2)%Q).
  { apply Qabs_Qle_condition. subst nearest.
    destruct (Qle_bool (x * u - inject_Z low) (1 # 2)) eqn:E1.
    - apply Qle_bool_iff in E1.
      destruct (Qle_bool (1 # 2) (x * u - inject_Z low)) eqn:E2.
      + apply Qle_bool_iff in E2. destruct (Z.even low).
        * split; lra.
        * rewrite inject_Z_plus. change (inject_Z 1) with 1%Q. split; lra.
      + split; lra.
    - assert (E1' : ¬ (x * u - inject_Z low <= 1 # 2)%Q)
        by (intros Hle; apply Qle_bool_iff in Hle; congruence).
      apply Qnot_le_lt in E1'.
      rewrite inject_Z_plus. change (inject_Z 1) with 1%Q. split; lra. }
  assert (Eq : (inject_Z nearest / u - x == (inject_Z nearest - x * u) / u)%Q)
    by (field; lra).
  rewrite Eq. unfold Qdiv. rewrite Qabs_Qmult.
  rewrite (Qabs_pos (/ u)) by (apply Qlt_le_weak, Qinv_lt_0_compat, Hu).
  rewrite <- Qmult_assoc.
  assert (Einv : (/ u * u == 1)%Q) by (field; lra).
  rewrite Einv, Qmult_1_r. exact Hnear.
Qed.
End RoundFacts.

Section ResponseFacts.
Context `{PyfhelLib, PipelineLib, FernetLib, Ed25519Lib, JsonLib, OsLib}.
Variable settings : Settings.

(** [TriageService.run_triage] after a prediction, in closed form. *)
Lemma run_triage_eq (self : triage_service.TriageService) text reference w p w1 m en :
  predictor.predict_proba text w = (Ok p, w1) →
  list_item (predictor.probabilities p) (predictor.prediction_index p) = Ok m →
  let urgency :=
    default "Medium Urgency" (triage_service.URGENCY_MAP (predictor.prediction_index p)) in
  triage_service.URGENCY_ENRICHMENT urgency = Some en →
  let trail := triage_service._compliance self in
  let t := clock (predictor.state w1) in
  let payload := triage_service.audit_payload urgency m reference in
  triage_service.run_triage self text reference w
  = (Ok {| triage_service.urgency := urgency;
           triage_service.confidence := m;
           triage_service.enrichment_ := en;
           triage_service.audit_reference :=
             Some (Hex.hex (event_signature trail t payload)) |},
     {| predictor.state :=
          set_fs (<[compliance._log_path trail :=
                      (default [] (fs (predictor.state w1) !! compliance._log_path trail)
                       ++ encode_utf8 (event_text trail t payload))%list]>
                    (fs (predictor.state w1))) (predictor.state w1);
        predictor._PREDICTOR := predictor._PREDICTOR w1 |}).
Proof.
  intros E Hitem urgency Hen trail t payload.
  unfold triage_service.run_triage. rewrite (wbind_ok _ _ _ _ _ E).
  rewrite Hitem. fold urgency. rewrite Hen.
  unfold predictor.wbind, predictor.in_state. rewrite log_event_spec.
  reflexivity.
Qed.

(** A response of the route is the response to a result of the service,
    run in a world that differs from the world of the request by the
    encryption context at most. *)
Lemma route_response_inv request ts bs w w' response :
  triage_route.run_triage settings request ts bs w
    = (Ok (triage_route.Response response), w') →
  ∃ w0 result,
    predictor._PREDICTOR w0 = predictor._PREDICTOR w
    ∧ same_files_but_fhe settings (predictor.state w) (predictor.state w0)
    ∧ triage_service.run_triage ts (triage_route.symptoms request)
        (triage_route.biometric_token request) w0 = (Ok result, w')
    ∧ response = triage_route.respond result.
Proof.
  assert (Htriage : ∀ w0,
    predictor.wbind
      (triage_service.run_triage ts (triage_route.symptoms request)
         (triage_route.biometric_token request))
      (λ result, predictor.wret (triage_route.Response (triage_route.respond result))) w0
    = (Ok (triage_route.Response response), w') →
    ∃ result,
      triage_service.run_triage ts (triage_route.symptoms request)
        (triage_route.biometric_token request) w0 = (Ok result, w')
      ∧ response = triage_route.respond result).
  { intros w0. unfold predictor.wbind, predictor.wret.
    destruct (triage_service.run_triage _ _ _ w0) as [[result|e] w2]; [|done].
    intros [= <- <-]. by exists result. }
  unfold triage_route.run_triage.
  destruct (triage_route.vector_given _).
  - destruct (triage_route.token_given _); cbn [negb];
      [|unfold predictor.wret; intros [=]].
    unfold predictor.wbind at 1, predictor.in_state.
    pose proof (writes_verify settings bs
                  (default EmptyString (triage_route.biometric_token request))
                  (default [] (triage_route.biometric_vector request))
                  auth_service.default_tolerance (predictor.state w)) as Hframe.
    destruct (auth_service.verify _ _ _ _ _ _) as [[[|]|e] st1]; cbn [negb];
      [|unfold predictor.wret; intros [=]|intros [=]].
    intros E. destruct (Htriage _ E) as (result & Hrun & ->).
    exists {| predictor.state := st1; predictor._PREDICTOR := predictor._PREDICTOR w |},
      result.
    split_and!; [done|exact Hframe|exact Hrun|done].
  - intros E. destruct (Htriage _ E) as (result & Hrun & ->).
    exists w, result. split_and!; [done|apply same_files_refl|done|done].
Qed.
End ResponseFacts.

(** X23. What a response of the route [POST /triage] says.  It comes from
    a prediction for the symptoms of the request; its confidence is the
    largest probability of that prediction rounded to four digits, at most
    0.00005 away from it; its urgency is one of the three levels, and its
    three texts are the enrichment of that urgency; its audit reference is
    the hex signature of the ledger line written for it, which records the
    token of the request and the confidence before rounding. *)
Theorem triage_response_matches_prediction
    `{PyfhelLib, PipelineLib, FernetLib, Ed25519Lib, JsonLib, OsLib}
    (settings : Settings) (request : triage_route.TriageRequest)
    (ts : triage_service.TriageService)
    (bs : auth_service.BiometricAuthService)
    (w w' : predictor.World) (response : triage_route.TriageResponse) :
  triage_route.run_triage settings request ts bs w
    = (Ok (triage_route.Response response), w') →
  ∃ w0 p w1 i m en,
    predictor._PREDICTOR w0 = predictor._PREDICTOR w
    ∧ same_files_but_fhe settings (predictor.state w) (predictor.state w0)
    ∧ predictor.predict_proba (triage_route.symptoms request) w0 = (Ok p, w1)
    ∧ predictor.probabilities p !! i = Some m
    ∧ (∀ j x, predictor.probabilities p !! j = Some x → (x <= m)%Q)
    ∧ (Qabs (triage_route.confidence response - m) <= 1 # 20000)%Q
    ∧ In (triage_route.urgency response)
         ["Low Urgency"; "Medium Urgency"; "High Urgency"]
    ∧ triage_service.URGENCY_ENRICHMENT (triage_route.urgency response) = Some en
    ∧ triage_route.recommended_care response = triage_service.care_type en
    ∧ triage_route.specialty response = triage_service.specialty en
    ∧ triage_route.next_steps response = triage_service.next_steps en
    ∧ (let trail := triage_service._compliance ts in
       let t := clock (predictor.state w0) in
       let payload :=
         triage_service.audit_payload (triage_route.urgency response) m
           (triage_route.biometric_token request) in
       triage_route.audit_reference response
         = Some (Hex.hex (event_signature trail t payload))
       ∧ fs (predictor.state w') !! compliance._log_path trail
         = Some (default [] (fs (predictor.state w0) !! compliance._log_path trail)
                 ++ encode_utf8 (event_text trail t payload))%list).
Proof.
  intros E.
  destruct (route_response_inv settings _ _ _ _ _ _ E)
    as (w0 & result & Hpredictor & Hfiles & Hrun & ->).
  destruct (predictor.predict_proba (triage_route.symptoms request) w0)
    as [[p|e] w1] eqn:Epredict.
  2: { unfold triage_service.run_triage in Hrun.
       by rewrite (wbind_raise _ _ _ _ _ Epredict) in Hrun. }
  destruct (predict_proba_ok _ _ _ _ Epredict) as (Hstate & i & m & Hi & Hm & Hmax).
  assert (Hitem : list_item (predictor.probabilities p) (predictor.prediction_index p)
                  = Ok m) by (rewrite Hi; by apply list_item_nat).
  destruct (urgency_known (predictor.prediction_index p)) as [Hin [en Hen]].
  cbn zeta in Hin, Hen.
  rewrite (run_triage_eq _ _ _ _ _ _ _ _ Epredict Hitem Hen) in Hrun.
  injection Hrun as <- <-. cbn zeta. cbn [triage_route.respond triage_route.urgency
    triage_route.confidence triage_route.recommended_care triage_route.specialty
    triage_route.next_steps triage_route.audit_reference triage_service.urgency
    triage_service.confidence triage_service.enrichment_ triage_service.audit_reference
    predictor.state].
  exists w0, p, w1, i, m, en. rewrite Hstate.
  split_and!; try done.
  - pose proof (round_close m 4) as Hround.
    change (inject_Z (10 ^ Z.of_nat 4)) with (10000 # 1)%Q in Hround.
    set (d := Qabs _) in *. lra.
  - cbn. by rewrite lookup_insert_eq.
Qed.

(** A run of [triage_response_matches_prediction]: the response to the
    enrolled vector gives the second class of the reference model. *)
Lemma triage_response_matches_prediction_witness :
  ∃ response,
    (requests.run_triage requests.verified).1 = Ok (triage_route.Response response)
    ∧ In (triage_route.urgency response)
         ["Low Urgency"; "Medium Urgency"; "High Urgency"]
    ∧ ∃ m, (Qabs (triage_route.confidence response - m) <= 1 # 20000)%Q.
Proof.
  assert (E : ∃ response,
             requests.run_triage requests.verified
             = (Ok (triage_route.Response response),
                (requests.run_triage requests.verified).2))
    by (vm_compute; eexists; reflexivity).
  destruct E as [response E]. exists response.
  split; [by rewrite E|].
  destruct (@triage_response_matches_prediction reference.pyfhel reference_model.pipeline
              reference.fernet reference.ed25519 reference.json reference.os
              scenario.srv requests.verified reference_model.service scenario.service
              requests.world _ response E)
    as (w0 & p & w1 & i & m & en & _ & _ & _ & _ & _ & Hclose & Hin & _).
  split; [exact Hin|]. by exists m.
Defined.

Section PriorityFacts.

Lemma Qgtb_spec (x y : Q) : review_service.Qgtb x y = true ↔ (y < x)%Q.
Proof.
  unfold review_service.Qgtb. rewrite negb_true_iff. split.
  - intros E. apply Qnot_le_lt. intros Hle. apply Qle_bool_iff in Hle. congruence.
  - intros Hlt. destruct (Qle_bool x y) eqn:E; [|done].
    apply Qle_bool_iff in E. lra.
Qed.

Lemma Qgtb_mono (x y bound : Q) :
  (x <= y)%Q → review_service.Qgtb x bound = true → review_service.Qgtb y bound = true.
Proof. rewrite !Qgtb_spec. lra. Qed.
End PriorityFacts.

(** X24. [_determine_priority] never raises the priority when the
    confidence rises: for one urgency, a case with the higher confidence is
    at most as pressing. *)
Theorem determine_priority_falls_with_confidence
    (urgency : string) (confidence confidence' : Q) :
  (confidence <= confidence')%Q →
  (review_service.severity (review_service._determine_priority urgency confidence')
   ≤ review_service.severity (review_service._determine_priority urgency confidence))%nat.
Proof.
  intros Hle. unfold review_service._determine_priority.
  pose proof (Qgtb_mono confidence confidence' (7 # 10) Hle) as H7.
  pose proof (Qgtb_mono confidence confidence' (6 # 10) Hle) as H6.
  destruct (String.eqb urgency "High Urgency");
    [|destruct (String.eqb urgency "Medium Urgency")].
  - destruct (review_service.Qgtb confidence (7 # 10)); [rewrite H7 by done; done|].
    destruct (review_service.Qgtb confidence' (7 # 10)); cbn; lia.
  - destruct (review_service.Qgtb confidence (6 # 10)); [rewrite H6 by done; done|].
    destruct (review_service.Qgtb confidence' (6 # 10)); cbn; lia.
  - destruct (review_service.Qgtb confidence (6 # 10)); [rewrite H6 by done; done|].
    destruct (review_service.Qgtb confidence' (6 # 10)); cbn; lia.
Qed.

Lemma determine_priority_falls_with_confidence_witness :
  (review_service.severity (review_service._determine_priority "High Urgency" (9 # 10))
   ≤ review_service.severity (review_service._determine_priority "High Urgency" (5 # 10)))%nat.
Proof.
  apply (determine_priority_falls_with_confidence "High Urgency" (5 # 10) (9 # 10)).
  vm_compute. discriminate.
Defined.

(** X25. At one confidence the priority rises strictly with the urgency:
    a case of low urgency is less pressing than one of medium urgency,
    itself less pressing than one of high urgency; an urgency that is none
    of the three is handled as low urgency.  Only a case of high urgency
    is critical and only a case of neither medium nor high urgency is of
    low priority. *)
Theorem determine_priority_rises_with_urgency (urgency : string) (confidence : Q) :
  let priority u := review_service._determine_priority u confidence in
  (review_service.severity (priority "Low Urgency")
   < review_service.severity (priority "Medium Urgency")
   < review_service.severity (priority "High Urgency"))%nat
  ∧ (urgency ≠ "High Urgency" → urgency ≠ "Medium Urgency" →
     priority urgency = priority "Low Urgency")
  ∧ (priority urgency = review_service.CRITICAL → urgency = "High Urgency")
  ∧ (priority urgency = review_service.LOW →
     urgency ≠ "High Urgency" ∧ urgency ≠ "Medium Urgency").
Proof.
  intros priority. subst priority. cbn beta.
  unfold review_service._determine_priority.
  change (String.eqb "Low Urgency" "High Urgency") with false.
  change (String.eqb "Low Urgency" "Medium Urgency") with false.
  change (String.eqb "Medium Urgency" "High Urgency") with false.
  change (String.eqb "Medium Urgency" "Medium Urgency") with true.
  change (String.eqb "High Urgency" "High Urgency") with true.
  cbn iota.
  split_and!.
  - destruct (review_service.Qgtb confidence (6 # 10)); cbn; lia.
  - destruct (review_service.Qgtb confidence (7 # 10)) eqn:E7.
    + apply Qgtb_spec in E7.
      assert (E6 : review_service.Qgtb confidence (6 # 10) = true)
        by (apply Qgtb_spec; lra).
      rewrite E6. cbn. lia.
    + destruct (review_service.Qgtb confidence (6 # 10)); cbn; lia.
  - intros Hh Hm.
    apply String.eqb_neq in Hh, Hm. by rewrite Hh, Hm.
  - destruct (String.eqb urgency "High Urgency") eqn:Eh;
      [by apply String.eqb_eq in Eh|].
    destruct (String.eqb urgency "Medium Urgency");
      by destruct (review_service.Qgtb confidence (6 # 10)).
  - destruct (String.eqb urgency "High Urgency") eqn:Eh;
      [by destruct (review_service.Qgtb confidence (7 # 10))|].
    destruct (String.eqb urgency "Medium Urgency") eqn:Em;
      [by destruct (review_service.Qgtb confidence (6 # 10))|].
    intros _. by apply String.eqb_neq in Eh, Em.
Qed.

Lemma determine_priority_rises_with_urgency_witness :
  review_service._determine_priority "No Urgency" (65 # 100)
  = review_service._determine_priority "Low Urgency" (65 # 100).
Proof.
  by apply (determine_priority_rises_with_urgency "No Urgency" (65 # 100)).
Defined.
